(** * index.py: line transformations and the staged write pipelines

    A shallow embedding of [src/index.py]: the per-line transformation
    [transform_line_core], the encoding probe [choose_encoding_try], the
    menu [prompt_transformation], the name suggestion [make_output_filename],
    the two pipelines [process_streaming] and [process_reverse], and the
    front end [prompt_input_file] and [main], over an explicit model of the
    part of the Python runtime they use (text strings, paths, codecs, a
    table of files, the console, temporary files). *)

From Stdlib Require Import NArith Ascii String.
From Stdlib.Strings Require Import Byte.
From stdpp Require Import gmap list fin_maps.

Local Open Scope N_scope.

(** ** Text and bytes *)

(** A Python [str] is a sequence of Unicode code points. *)
Abbreviation str := (list N).
Abbreviation bytes := (list byte).

(** Literals: [u "abc"] is the text whose code points are the ASCII codes of
    the characters written. *)
Definition u (x : string) : str := N_of_ascii <$> list_ascii_of_string x.

Definition LF : N := 10.
Definition CR : N := 13.

Module Str.

(** [s.endswith(suffix)] *)
Definition endswith (s suffix : str) : bool :=
  bool_decide (drop (length s - length suffix)%nat s = suffix).

(** [s.startswith(p)] *)
Fixpoint startswith (s p : str) : bool :=
  match p, s with
  | [], _ => true
  | _ :: _, [] => false
  | a :: p', b :: s' => (a =? b) && startswith s' p'
  end.

Definition mem (c : N) (chars : str) : bool := bool_decide (c ∈ chars).

(** Remove the leading characters that satisfy [f]. *)
Fixpoint lstrip_by (f : N -> bool) (s : str) : str :=
  match s with
  | [] => []
  | c :: s' => if f c then lstrip_by f s' else s
  end.

Definition rstrip_by (f : N -> bool) (s : str) : str :=
  reverse (lstrip_by f (reverse s)).

(** [s.rstrip(chars)]: drop every trailing character that occurs in [chars]. *)
Definition rstrip (s chars : str) : str := rstrip_by (fun c => mem c chars) s.

(** The characters [str.isspace] accepts, which are the ones [s.strip()]
    removes. *)
Definition isspace (c : N) : bool :=
  ((9 <=? c) && (c <=? 13)) || ((28 <=? c) && (c <=? 32))
  || (c =? 133) || (c =? 160) || (c =? 5760)
  || ((8192 <=? c) && (c <=? 8202))
  || (c =? 8232) || (c =? 8233) || (c =? 8239) || (c =? 8287) || (c =? 12288).

(** [s.strip()] *)
Definition strip (s : str) : str := rstrip_by isspace (lstrip_by isspace s).

(** [s.replace(old, new)] for a non-empty [old]: scan from the left; at a
    match emit [new] and skip the rest of the match ([skip] counts the
    characters of a match still to pass over). *)
Fixpoint replace_scan (old new : str) (skip : nat) (s : str) : str :=
  match s with
  | [] => []
  | c :: s' =>
      match skip with
      | S k => replace_scan old new k s'
      | O =>
          if startswith s old
          then new ++ replace_scan old new (length old - 1) s'
          else c :: replace_scan old new 0 s'
      end
  end.

(** [s.replace(old, new)]. An empty [old] matches at every position: before
    each character and at the end. *)
Definition replace (s old new : str) : str :=
  match old with
  | [] => new ++ (s ≫= fun c => c :: new)
  | _ :: _ => replace_scan old new 0 s
  end.

(** Decimal digits of [n], most significant first. *)
Fixpoint digits (fuel : nat) (n : N) : str :=
  match fuel with
  | O => []
  | S fuel' =>
      if n <? 10 then [48 + n]
      else digits fuel' (n / 10) ++ [48 + n mod 10]
  end.

(** [str(n)] for a natural number. *)
Definition of_int (n : N) : str := digits (S (N.to_nat (N.log2 n))) n.

(** [s.zfill(width)] for a string of digits. *)
Definition zfill (width : nat) (s : str) : str :=
  replicate (width - length s) 48 ++ s.

(** [f"{n:04d}"] *)
Definition format_04d (n : N) : str := zfill 4 (of_int n).

(** The number a string of decimal digits denotes, [None] when some
    character is not a digit. *)
Definition digit_value (c : N) : option N :=
  if (48 <=? c) && (c <=? 57) then Some (c - 48) else None.

Fixpoint to_int_from (acc : N) (s : str) : option N :=
  match s with
  | [] => Some acc
  | c :: s' =>
      match digit_value c with
      | Some d => to_int_from (10 * acc + d) s'
      | None => None
      end
  end.

Definition to_int (s : str) : option N :=
  match s with [] => None | _ => to_int_from 0 s end.

(** Text-mode reading with [newline=None]: ["\r\n"] and a lone ["\r"] are
    delivered as ["\n"]. *)
Fixpoint universal_newlines (s : str) : str :=
  match s with
  | [] => []
  | c :: s' =>
      if c =? CR
      then LF :: universal_newlines (match s' with
                                     | c' :: s'' => if c' =? LF then s'' else s'
                                     | [] => s'
                                     end)
      else c :: universal_newlines s'
  end.

(** The lines of a text as the iteration over a text file cuts them: at
    ["\n"] only, each line with its terminating ["\n"] when it has one. *)
Fixpoint split_lines (s : str) : list str :=
  match s with
  | [] => []
  | c :: s' =>
      if c =? LF then [c] :: split_lines s'
      else match split_lines s' with
           | [] => [[c]]
           | l :: ls => (c :: l) :: ls
           end
  end.

(** Text-mode writing with [newline=None]: every ["\n"] becomes [linesep]. *)
Definition translate_newlines (linesep : str) (s : str) : str :=
  s ≫= fun c => if c =? LF then linesep else [c].

End Str.

(** ** Exceptions and results *)

(** The exception classes that occur; all of them derive from [Exception]. *)
Inductive exn :=
  | FileNotFoundError | FileExistsError | PermissionError | IsADirectoryError
  | OSError | UnicodeDecodeError | UnicodeEncodeError | LookupError
  | KeyError | EOFError.

#[global] Instance exn_eq_dec : EqDecision exn.
Proof. solve_decision. Defined.

Inductive result (A : Type) :=
  | Ok (a : A)
  | Raise (e : exn).
Arguments Ok {A} a.
Arguments Raise {A} e.

(** ** Codecs *)

(** What reading a file under a codec delivers: the whole text, or a
    [UnicodeDecodeError] raised after [delivered] had been handed out. The
    codecs the program names ([utf-8], [cp1252] and [latin-1]) fail in no
    other way. *)
Inductive decoded :=
  | Decoded (text : str)
  | Undecodable (delivered : str).

Record codec := Codec {
  codec_decode : bytes -> decoded;
  codec_encode : str -> option bytes   (* [None]: [UnicodeEncodeError] *)
}.

(** The parts of the interpreter and platform the program relies on and whose
    tables are not part of it. *)
Class Python := {
  str_upper : str -> str;                   (* [s.upper()] *)
  str_lower : str -> str;                   (* [s.lower()] *)
  codecs_lookup : str -> option codec;      (* [None]: [LookupError] *)
  os_linesep : str;
  os_path_expanduser : str -> str
}.

(** ** The world: files, console, temporary names, faults *)

(** The operations the system may refuse for reasons the program does not
    control (a full disk, a missing permission, a directory that is gone);
    [faults] says which ones it refuses and with which exception. Files are
    kept by path, a path standing for the name the system resolves it to. *)
Inductive syscall := SysMkstemp | SysOpen | SysWrite | SysClose | SysRemove | SysReplace.

Record world := World {
  files : gmap str bytes;          (* regular files by path *)
  open_files : list str;           (* temporary files whose handle is open *)
  stdin : list str;                (* the lines still to be typed *)
  stdout : list str;               (* what was printed, prompts included *)
  tmp_names : list str;            (* the random names [tempfile] will draw *)
  faults : syscall -> option exn   (* operations the system refuses *)
}.

Definition set_files (f : gmap str bytes -> gmap str bytes) (w : world) : world :=
  World (f (files w)) (open_files w) (stdin w) (stdout w) (tmp_names w) (faults w).
Definition set_open_files (f : list str -> list str) (w : world) : world :=
  World (files w) (f (open_files w)) (stdin w) (stdout w) (tmp_names w) (faults w).
Definition set_stdin (f : list str -> list str) (w : world) : world :=
  World (files w) (open_files w) (f (stdin w)) (stdout w) (tmp_names w) (faults w).
Definition set_stdout (f : list str -> list str) (w : world) : world :=
  World (files w) (open_files w) (stdin w) (f (stdout w)) (tmp_names w) (faults w).
Definition set_tmp_names (f : list str -> list str) (w : world) : world :=
  World (files w) (open_files w) (stdin w) (stdout w) (f (tmp_names w)) (faults w).

(** ** Computations: state and exceptions *)

Definition M (A : Type) : Type := world -> result A * world.

Definition ret {A} (a : A) : M A := fun w => (Ok a, w).
Definition raise {A} (e : exn) : M A := fun w => (Raise e, w).
Definition bind {A B} (m : M A) (k : A -> M B) : M B :=
  fun w => match m w with
           | (Ok a, w') => k a w'
           | (Raise e, w') => (Raise e, w')
           end.

Declare Scope py_scope.
Delimit Scope py_scope with py.
Notation "x <- c1 ;; c2" := (bind c1 (fun x => c2))
  (at level 100, c1 at next level, right associativity) : py_scope.
Notation "c1 ;; c2" := (bind c1 (fun _ => c2))
  (at level 100, right associativity) : py_scope.
Local Open Scope py_scope.

(** [try: body except Exception as e: handler e] *)
Definition try_except {A} (body : M A) (handler : exn -> M A) : M A :=
  fun w => match body w with
           | (Ok a, w') => (Ok a, w')
           | (Raise e, w') => handler e w'
           end.

(** [try: body except Exception: pass] *)
Definition try_pass (body : M unit) : M unit := try_except body (fun _ => ret tt).

Definition lift {A} (r : result A) : M A := fun w => (r, w).

Definition fault (s : syscall) : M unit :=
  fun w => match faults w s with
           | Some e => (Raise e, w)
           | None => (Ok tt, w)
           end.

(** ** Console *)

Definition sys_stdout_write (s : str) : M unit :=
  fun w => (Ok tt, set_stdout (fun out => out ++ [s]) w).

(** [print(s)] and [print(s, end=e)] *)
Definition print (s : str) : M unit := sys_stdout_write (s ++ [LF]).
Definition print_end (s e : str) : M unit := sys_stdout_write (s ++ e).

(** [input(prompt)]: show the prompt, take the next typed line; [EOFError]
    when there is none. *)
Definition input (prompt : str) : M str :=
  sys_stdout_write prompt ;;
  fun w => match stdin w with
           | [] => (Raise EOFError, w)
           | line :: rest => (Ok line, set_stdin (fun _ => rest) w)
           end.

(** ** Paths and files *)

Definition SEP : N := 47.

Module os_path.

(** [os.path.dirname(p)] (POSIX): the part up to the last ["/"], without
    trailing separators unless it consists of separators only. *)
Definition dirname (p : str) : str :=
  let head := reverse (Str.lstrip_by (fun c => negb (c =? SEP)) (reverse p)) in
  if bool_decide (head = []) || forallb (fun c => c =? SEP) head
  then head
  else Str.rstrip head [SEP].

(** [os.path.join(a, b)] (POSIX) *)
Definition join (a b : str) : str :=
  if Str.startswith b [SEP] then b
  else if bool_decide (a = []) || Str.endswith a [SEP] then a ++ b
  else a ++ [SEP] ++ b.

(** [os.path.exists(p)] *)
Definition exists_ (p : str) : M bool :=
  fun w => (Ok (bool_decide (is_Some (files w !! p))), w).

(** [os.path.split(p)] (POSIX): the head as [dirname] gives it, and what
    follows the last ["/"]. *)
Definition split (p : str) : str * str :=
  let i := length (Str.lstrip_by (fun c => negb (c =? SEP)) (reverse p)) in
  (dirname p, drop i p).

Definition DOT : N := 46.

(** [os.path.splitext(p)] (POSIX): the extension starts at the last ["."] of
    the last component, unless only dots precede it there. *)
Definition splitext (p : str) : str * str :=
  let name := snd (split p) in
  match Str.lstrip_by (fun c => negb (c =? DOT)) (reverse name) with
  | [] => (p, [])
  | _ :: before =>
      if forallb (fun c => c =? DOT) before then (p, [])
      else
        let dot_index := (length p - (length name - length before))%nat in
        (take dot_index p, drop dot_index p)
  end.

End os_path.

(** [os.remove(p)] *)
Definition os_remove (p : str) : M unit :=
  fault SysRemove ;;
  fun w => match files w !! p with
           | None => (Raise FileNotFoundError, w)
           | Some _ => (Ok tt, set_files (delete p) w)
           end.

(** [os.replace(src, dst)]: one step; [dst] holds the content of [src]
    afterwards and [src] is gone. *)
Definition os_replace (src dst : str) : M unit :=
  fault SysReplace ;;
  fun w => match files w !! src with
           | None => (Raise FileNotFoundError, w)
           | Some content => (Ok tt, set_files (fun fs => <[dst := content]> (delete src fs)) w)
           end.

Section Runtime.
Context `{Python}.

(** *** Reading text files *)

(** [open(path, "r", encoding=encoding)]: the system opens the file, then
    the codec is looked up. *)
Definition open_read (path encoding : str) : M decoded :=
  fault SysOpen ;;
  fun w => match files w !! path with
           | None => (Raise FileNotFoundError, w)
           | Some content =>
               match codecs_lookup encoding with
               | None => (Raise LookupError, w)
               | Some c => (Ok (codec_decode c content), w)
               end
           end.

Definition text_lines (text : str) : list str :=
  Str.split_lines (Str.universal_newlines text).

(** The lines an iteration over the file yields, and the exception that
    ends it, if any: of a text that stops being decodable only the
    terminated lines handed out before are seen. *)
Definition iter_lines (src : decoded) : list str * option exn :=
  match src with
  | Decoded text => (text_lines text, None)
  | Undecodable delivered =>
      (List.filter (fun l => Str.endswith l [LF]) (text_lines delivered),
       Some UnicodeDecodeError)
  end.

(** [src.readline()] on a file just opened *)
Definition readline (src : decoded) : M str :=
  match iter_lines src with
  | (line :: _, _) => ret line
  | ([], None) => ret []
  | ([], Some e) => raise e
  end.

(** [src.readlines()] *)
Definition readlines (src : decoded) : M (list str) :=
  match iter_lines src with
  | (lines, None) => ret lines
  | (_, Some e) => raise e
  end.

(** [for idx, x in enumerate(items): body], threading the local variables
    the body assigns. *)
Fixpoint for_enumerate {S} (body : N -> str -> S -> M S)
    (idx : N) (items : list str) (s : S) : M S :=
  match items with
  | [] => ret s
  | x :: rest => s' <- body idx x s ;; for_enumerate body (N.succ idx) rest s'
  end.

(** [for idx, raw_line in enumerate(src): body] *)
Definition for_enumerate_lines {S} (body : N -> str -> S -> M S)
    (src : decoded) (s : S) : M S :=
  s' <- for_enumerate body 0 (fst (iter_lines src)) s ;;
  match snd (iter_lines src) with
  | Some e => raise e
  | None => ret s'
  end.

(** *** Temporary files *)

Record tmpfile := Tmpfile { tmp_name : str; tmp_codec : codec }.

(** The first candidate name that is free in [dir], with the names left. *)
Fixpoint mkstemp_inner (dir : str) (names : list str) (fs : gmap str bytes)
    : option (str * list str) :=
  match names with
  | [] => None
  | name :: rest =>
      let file := os_path.join dir (u "tmp" ++ name) in
      match fs !! file with
      | Some _ => mkstemp_inner dir rest fs
      | None => Some (file, rest)
      end
  end.

(** [tempfile.NamedTemporaryFile(mode="w", delete=False, dir=dir,
    encoding=encoding)]: the file is created empty under a fresh name; when
    the codec is unknown it is unlinked again before the error leaves. *)
Definition NamedTemporaryFile (dir encoding : str) : M tmpfile :=
  fault SysMkstemp ;;
  fun w => match mkstemp_inner dir (tmp_names w) (files w) with
           | None => (Raise FileExistsError, set_tmp_names (fun _ => []) w)
           | Some (file, rest) =>
               let w := set_tmp_names (fun _ => rest) w in
               match codecs_lookup encoding with
               | None => (Raise LookupError, w)
               | Some c =>
                   (Ok (Tmpfile file c),
                    set_open_files (cons file) (set_files (insert file []) w))
               end
           end.

(** [tmp.write(s)]: newline translation, encoding, then the write itself.
    The text is encoded in the call, so a chunk that cannot be encoded is
    reported there. The bytes go through a buffer: the system is asked in the
    call only when the buffer overflows, and otherwise with the flush that
    closing performs. [SysWrite] is the refusal that comes up in the call,
    [SysClose] the one that comes up at closing; a full disk refuses both. *)
Definition tmp_write (tmp : tmpfile) (s : str) : M unit :=
  match codec_encode (tmp_codec tmp) (Str.translate_newlines os_linesep s) with
  | None => raise UnicodeEncodeError
  | Some data =>
      fault SysWrite ;;
      fun w => (Ok tt, set_files (alter (fun old => old ++ data) (tmp_name tmp)) w)
  end.

(** [tmp.writelines(lines)] *)
Fixpoint tmp_writelines (tmp : tmpfile) (lines : list str) : M unit :=
  match lines with
  | [] => ret tt
  | line :: rest => tmp_write tmp line ;; tmp_writelines tmp rest
  end.

(** [tmp.close()]: nothing on a closed file; otherwise the file is closed
    even when the final flush is refused. *)
Definition tmp_close (tmp : tmpfile) : M unit :=
  fun w =>
    if bool_decide (tmp_name tmp ∈ open_files w)
    then fault SysClose
           (set_open_files (List.filter (fun f => negb (bool_decide (f = tmp_name tmp)))) w)
    else (Ok tt, w).

(** [with tmp: body]: the file is closed on the way out, normal or not; an
    exception of the closing replaces the one under way. *)
Definition with_tmp {A} (tmp : tmpfile) (body : M A) : M A :=
  fun w => match body w with
           | (Ok a, w') => (tmp_close tmp ;; ret a) w'
           | (Raise e, w') => (tmp_close tmp ;; raise e) w'
           end.

End Runtime.

(** ** The program *)

(** [opt]: the dictionary [prompt_transformation] builds. *)
Abbreviation dict := (gmap str str).

(** What a pipeline returns: [(lines_read, lines_written, output_path)], the
    path being [None] after a cancellation. *)
Abbreviation pipeline_result := (N * N * option str)%type.

Section Program.
Context `{Python}.

(** [encodings=("utf-8", "cp1252", "latin-1")] *)
Definition default_encodings : list str := [u "utf-8"; u "cp1252"; u "latin-1"].

(** [choose_encoding_try(filename, encodings)]: the loop over the candidates;
    [UnicodeDecodeError] moves on to the next one, any other exception is
    raised again at once. *)
Fixpoint choose_encoding_try (filename : str) (encodings : list str) : M str :=
  match encodings with
  | [] => raise UnicodeDecodeError
  | enc :: rest =>
      try_except
        (f <- open_read filename enc ;;
         _ <- readline f ;;
         ret enc)
        (fun e => match e with
                  | UnicodeDecodeError => choose_encoding_try filename rest
                  | _ => raise e
                  end)
  end.

(** [transform_line_core(core_text, idx, opt)]: [Ok None] is Python's [None]
    (skip the line); [opt["choice"]] raises [KeyError] when the key is
    missing. *)
Definition transform_line_core (core_text : str) (idx : N) (opt : dict)
    : result (option str) :=
  match opt !! u "choice" with
  | None => Raise KeyError
  | Some choice =>
      if bool_decide (choice = u "1") then
        Ok (Some (Str.format_04d (idx + 1) ++ u ": " ++ core_text))
      else if bool_decide (choice = u "2") then
        Ok (Some (str_upper core_text))
      else if bool_decide (choice = u "3") then
        Ok (Some (str_lower core_text))
      else if bool_decide (choice = u "4") then
        if bool_decide (Str.strip core_text = []) then Ok None
        else Ok (Some core_text)
      else if bool_decide (choice = u "5") then
        Ok (Some (Str.replace core_text
                    (default (u "") (opt !! u "target"))
                    (default (u "") (opt !! u "replacement"))))
      else if bool_decide (choice = u "6") then
        Ok (Some core_text)
      else if bool_decide (choice = u "7") then
        Ok (Some core_text)
      else Ok (Some core_text)
  end.

(** [prompt_transformation()]: the menu, the choice (anything but ["1"] to
    ["7"] becomes ["7"]), and for ["5"] the two texts, taken as typed. *)
Definition prompt_transformation : M dict :=
  _ <- print ([LF] ++ u "Choose a transformation to apply to the file (enter number):") ;;
  _ <- print (u "  1) Add line numbers (prefix each line with '0001: ')") ;;
  _ <- print (u "  2) Convert to UPPERCASE") ;;
  _ <- print (u "  3) Convert to lowercase") ;;
  _ <- print (u "  4) Remove blank lines") ;;
  _ <- print (u "  5) Replace text (provide target and replacement)") ;;
  _ <- print (u "  6) Reverse lines (write lines in reverse order)  -- NOTE: may load file into memory") ;;
  _ <- print (u "  7) No modification (copy as-is)") ;;
  choice <- input (u "Choice [1-7]: ") ;;
  let choice := Str.strip choice in
  choice <-
    (if bool_decide (choice ∉ (fun i => Str.of_int (N.of_nat i)) <$> seq 1 7) then
       _ <- print (u "Invalid choice, defaulting to No modification (7).") ;;
       ret (u "7")
     else ret choice) ;;
  let opt : dict := {[ u "choice" := choice ]} in
  if bool_decide (choice = u "5") then
    target <- input (u "Enter the text to replace (target): ") ;;
    replacement <- input (u "Enter the replacement text: ") ;;
    ret (<[u "replacement" := replacement]> (<[u "target" := target]> opt))
  else ret opt.

(** [make_output_filename(input_path)] *)
Definition make_output_filename (input_path : str) : str :=
  let folder := fst (os_path.split input_path) in
  let fname := snd (os_path.split input_path) in
  let base := fst (os_path.splitext fname) in
  let ext := snd (os_path.splitext fname) in
  let ext := if bool_decide (ext = u "") then u ".txt" else ext in
  let suggested := os_path.join folder (base ++ u "_modified" ++ ext) in
  suggested.

(** [process_streaming(input_path, encoding, opt, output_path)] *)
Definition process_streaming (input_path encoding : str) (opt : dict)
    (output_path : str) : M pipeline_result :=
  let lines_read := 0 in
  let lines_written := 0 in
  let out_dir := if bool_decide (os_path.dirname output_path = [])
                 then u "." else os_path.dirname output_path in
  tmp <- NamedTemporaryFile out_dir encoding ;;
  let tmp_name := tmp_name tmp in
  counters <-
    with_tmp tmp
      (try_except
         (src <- open_read input_path encoding ;;
          for_enumerate_lines
            (fun idx raw_line counters =>
               let lines_read := fst counters + 1 in
               let lines_written := snd counters in
               let has_nl := Str.endswith raw_line [LF] in
               let core := Str.rstrip raw_line [CR; LF] in
               transformed <- lift (transform_line_core core idx opt) ;;
               match transformed with
               | None => ret (lines_read, lines_written)
               | Some transformed =>
                   let out_line := transformed ++ (if has_nl then [LF] else []) in
                   _ <- tmp_write tmp out_line ;;
                   ret (lines_read, lines_written + 1)
               end)
            src (lines_read, lines_written))
         (fun e =>
            _ <- try_pass (_ <- tmp_close tmp ;; os_remove tmp_name) ;;
            raise e)) ;;
  let lines_read := fst counters in
  let lines_written := snd counters in
  done <-
    try_except
      (negotiated <-
         (found <- os_path.exists_ output_path ;;
          if found then
            resp <- input (u "Output file '" ++ output_path
                             ++ u "' already exists. Overwrite? (y/N): ") ;;
            let resp := str_lower (Str.strip resp) in
            if bool_decide (resp ≠ u "y") then
              new_name <- input (u "Enter a new output filename (or 'q' to cancel): ") ;;
              let new_name := Str.strip new_name in
              if bool_decide (str_lower new_name = u "q") then
                _ <- os_remove tmp_name ;;
                _ <- print (u "Operation cancelled. Temporary file removed.") ;;
                ret (inl (lines_read, 0, None))
              else ret (inr (os_path_expanduser new_name))
            else ret (inr output_path)
          else ret (inr output_path)) ;;
       match negotiated with
       | inl cancelled => ret (inl cancelled)
       | inr output_path =>
           _ <- os_replace tmp_name output_path ;;
           ret (inr output_path)
       end)
      (fun e =>
         _ <- try_pass (os_remove tmp_name) ;;
         raise e) ;;
  match done with
  | inl cancelled => ret cancelled
  | inr output_path => ret (lines_read, lines_written, Some output_path)
  end.

(** [process_reverse(input_path, encoding, opt, output_path)] *)
Definition process_reverse (input_path encoding : str) (opt : dict)
    (output_path : str) : M pipeline_result :=
  _ <- print_end (u "Warning: 'Reverse lines' will load the entire file into memory. Continue? (Y/n): ") [] ;;
  c <- input [] ;;
  let c := str_lower (Str.strip c) in
  if bool_decide (c = u "n") then
    _ <- print (u "Operation cancelled by user.") ;;
    ret (0, 0, None)
  else
    src <- open_read input_path encoding ;;
    lines <- readlines src ;;
    transformed_lines <-
      for_enumerate
        (fun idx raw_line transformed_lines =>
           let core := Str.rstrip raw_line [CR; LF] in
           let has_nl := Str.endswith raw_line [LF] in
           t <- lift (transform_line_core core idx opt) ;;
           match t with
           | None => ret transformed_lines
           | Some t => ret (transformed_lines ++ [t ++ (if has_nl then [LF] else [])])
           end)
        0 lines [] ;;
    let out_dir := if bool_decide (os_path.dirname output_path = [])
                   then u "." else os_path.dirname output_path in
    tmp <- NamedTemporaryFile out_dir encoding ;;
    let tmp_name := tmp_name tmp in
    _ <- with_tmp tmp (tmp_writelines tmp (reverse transformed_lines)) ;;
    done <-
      try_except
        (negotiated <-
           (found <- os_path.exists_ output_path ;;
            if found then
              resp <- input (u "Output file '" ++ output_path
                               ++ u "' already exists. Overwrite? (y/N): ") ;;
              let resp := str_lower (Str.strip resp) in
              if bool_decide (resp ≠ u "y") then
                new_name <- input (u "Enter a new output filename (or 'q' to cancel): ") ;;
                let new_name := Str.strip new_name in
                if bool_decide (str_lower new_name = u "q") then
                  _ <- os_remove tmp_name ;;
                  _ <- print (u "Operation cancelled. Temporary file removed.") ;;
                  ret (inl (0, 0, None))
                else ret (inr (os_path_expanduser new_name))
              else ret (inr output_path)
            else ret (inr output_path)) ;;
         match negotiated with
         | inl cancelled => ret (inl cancelled)
         | inr output_path =>
             _ <- os_replace tmp_name output_path ;;
             ret (inr output_path)
         end)
        (fun e =>
           _ <- try_pass (os_remove tmp_name) ;;
           raise e) ;;
    match done with
    | inl cancelled => ret cancelled
    | inr output_path =>
        ret (N.of_nat (length lines), N.of_nat (length transformed_lines),
             Some output_path)
    end.

End Program.

(** ** The interactive front end *)

(** [sys.exit(code)] raises [SystemExit], which no [except Exception]
    catches: a function that may exit either returns or hands the exit code
    to its caller, who passes it on. *)
Inductive or_exit (A : Type) :=
  | Return (a : A)
  | Exit (code : N).
Arguments Return {A} a.
Arguments Exit {A} code.

(** What the front end takes from the platform and the world does not hold:
    the environment, the directories and the text of an exception. *)
Class Platform := {
  os_path_expandvars : str -> str;     (* [os.path.expandvars(p)] *)
  os_path_isdir : str -> bool;         (* [os.path.isdir(p)] *)
  exn_str : exn -> str                 (* [str(e)] *)
}.

Section FrontEnd.
Context `{Python} `{Platform}.

(** The loop of [prompt_input_file]: [fuel] bounds the number of rounds,
    [None] is returned when it is used up. Every round reads a line, so one
    round more than there are typed lines is enough. [os.path.exists] holds
    of the files of the world and of the directories. *)
Fixpoint prompt_input_file_loop (fuel : nat) : M (option (or_exit (str * str))) :=
  match fuel with
  | O => ret None
  | S fuel =>
      inp <- input (u "Enter the path to the input file (or 'q' to quit): ") ;;
      let inp := Str.strip inp in
      if bool_decide (str_lower inp = u "q") then
        _ <- print (u "Exiting.") ;;
        ret (Some (Exit 0))
      else
        let fname := os_path_expanduser (os_path_expandvars inp) in
        is_file <- os_path.exists_ fname ;;
        if negb (is_file || os_path_isdir fname) then
          _ <- print (u "Error: file not found. Please check the path and try again.") ;;
          prompt_input_file_loop fuel
        else if os_path_isdir fname then
          _ <- print (u "Error: the path is a directory, not a file. Please provide a file.") ;;
          prompt_input_file_loop fuel
        else
          try_except
            (enc <- choose_encoding_try fname default_encodings ;;
             ret (Some (Return (fname, enc))))
            (fun e =>
               match e with
               | UnicodeDecodeError =>
                   _ <- print (u "Error: Could not decode file with standard encodings.") ;;
                   r <- input (u "Try again with a different file? (Y/n): ") ;;
                   let r := str_lower (Str.strip r) in
                   if bool_decide (r = u "n") then ret (Some (Exit 1))
                   else prompt_input_file_loop fuel
               | PermissionError =>
                   _ <- print (u "Error: Permission denied when attempting to read the file.") ;;
                   r <- input (u "Choose another file? (Y/n): ") ;;
                   let r := str_lower (Str.strip r) in
                   if bool_decide (r = u "n") then ret (Some (Exit 1))
                   else prompt_input_file_loop fuel
               | IsADirectoryError =>
                   _ <- print (u "Error: This is a directory, not a file.") ;;
                   prompt_input_file_loop fuel
               | _ =>
                   _ <- print (u "Unexpected error while checking file: " ++ exn_str e) ;;
                   r <- input (u "Try again? (Y/n): ") ;;
                   let r := str_lower (Str.strip r) in
                   if bool_decide (r = u "n") then ret (Some (Exit 1))
                   else prompt_input_file_loop fuel
               end)
  end.

(** [prompt_input_file()] *)
Definition prompt_input_file : M (option (or_exit (str * str))) :=
  fun w => prompt_input_file_loop (S (length (stdin w))) w.

(** [main()] *)
Definition main : M (option (or_exit unit)) :=
  _ <- print (u "File Read & Write Challenge + Error Handling Lab") ;;
  _ <- print (u "This program reads a file, applies a chosen modification, and writes a modified copy." ++ [LF]) ;;
  chosen <- prompt_input_file ;;
  match chosen with
  | None => ret None
  | Some (Exit code) => ret (Some (Exit code))
  | Some (Return (input_path, encoding)) =>
      _ <- print (u "Detected/selected encoding: " ++ encoding) ;;
      opt <- prompt_transformation ;;
      let suggested_output := make_output_filename input_path in
      _ <- print (u "Suggested output filename: " ++ suggested_output) ;;
      out <- input (u "Press Enter to accept or type a new output path: ") ;;
      let out := Str.strip out in
      let output_path := if bool_decide (out = u "") then suggested_output
                         else os_path_expanduser out in
      _ <- try_except
             (choice <- lift (match opt !! u "choice" with
                              | Some choice => Ok choice
                              | None => Raise KeyError
                              end) ;;
              result <- (if bool_decide (choice = u "6")
                         then process_reverse input_path encoding opt output_path
                         else process_streaming input_path encoding opt output_path) ;;
              match result with
              | (lines_read, lines_written, None) =>
                  print (u "No output written (operation cancelled).")
              | (lines_read, lines_written, Some written_path) =>
                  _ <- print ([LF] ++ u "Done.") ;;
                  _ <- print (u "Input file: " ++ input_path) ;;
                  _ <- print (u "Output file: " ++ written_path) ;;
                  _ <- print (u "Lines read: " ++ Str.of_int lines_read) ;;
                  print (u "Lines written: " ++ Str.of_int lines_written)
              end)
             (fun e =>
                match e with
                | FileNotFoundError =>
                    print (u "Error: input file disappeared during processing.")
                | PermissionError =>
                    print (u "Error: Permission denied while reading/writing files. Check file permissions.")
                | UnicodeDecodeError =>
                    print (u "Error: File encoding not supported or file is binary. Try a different encoding or file.")
                | _ => print (u "An unexpected error occurred: " ++ exn_str e)
                end) ;;
      ret (Some (Return tt))
  end.

End FrontEnd.

(** ** A runtime to evaluate examples on *)

Module Example.

(** Case mapping of the ASCII letters; other characters are left as they are. *)
Definition ascii_upper (s : str) : str :=
  (fun c => if (97 <=? c) && (c <=? 122) then c - 32 else c) <$> s.
Definition ascii_lower (s : str) : str :=
  (fun c => if (65 <=? c) && (c <=? 90) then c + 32 else c) <$> s.

(** The codec [latin-1]: byte [b] is code point [b]. *)
Definition latin1_encode (s : str) : option bytes :=
  mapM (fun c => Byte.of_N c) s.
Definition latin1 : codec :=
  Codec (fun data => Decoded (Byte.to_N <$> data)) latin1_encode.

(** The codec [ascii]: as [latin-1] on the bytes below 128, an error on the
    others; the reader decodes 8192 bytes at a time, so what precedes the
    block with the offending byte has been delivered. *)
Definition ascii_decode (data : bytes) : decoded :=
  let good := length (Str.lstrip_by (fun c => c <? 128) (Byte.to_N <$> data)) in
  if (good =? 0)%nat then Decoded (Byte.to_N <$> data)
  else
    let bad_at := (length data - good)%nat in
    Undecodable (Byte.to_N <$> take (N.to_nat (N.of_nat bad_at / 8192 * 8192)) data).
Definition ascii_encode (s : str) : option bytes :=
  mapM (fun c => if c <? 128 then Byte.of_N c else None) s.
Definition ascii : codec := Codec ascii_decode ascii_encode.

Definition lookup (encoding : str) : option codec :=
  if bool_decide (encoding = u "latin-1") then Some latin1
  else if bool_decide (encoding = u "ascii") then Some ascii
  else None.

(** [~] and [~/...] name the home directory [/home/user]. *)
Definition expanduser (p : str) : str :=
  match p with
  | 126 :: rest =>
      match rest with
      | [] => u "/home/user"
      | c :: _ => if c =? SEP then u "/home/user" ++ rest else p
      end
  | _ => p
  end.

#[export] Instance posix : Python := {
  str_upper := ascii_upper;
  str_lower := ascii_lower;
  codecs_lookup := lookup;
  os_linesep := [LF];
  os_path_expanduser := expanduser
}.

(** Text as the bytes of its [latin-1] encoding (for ASCII literals). *)
Definition b (x : string) : bytes := default [] (latin1_encode (u x)).

Definition no_faults : syscall -> option exn := fun _ => None.

(** The disk is full: every write to a file is refused, in the call when it
    goes to the disk at once, and with the flush at closing when it was
    buffered. *)
Definition disk_full : syscall -> option exn :=
  fun s => match s with SysWrite | SysClose => Some OSError | _ => None end.

(** A world with the given files, lines typed at the console and faults;
    [tempfile] will draw the name [tmpabc]. *)
Definition world_with (fs : gmap str bytes) (typed : list str)
    (refused : syscall -> option exn) : world :=
  World fs [] typed [] [u "abc"] refused.

(** [Replace] of ["a"] by ["é"], which [ascii] cannot encode. *)
Definition replace_a_by_e_acute : dict :=
  {[ u "choice" := u "5"; u "target" := u "a"; u "replacement" := [233] ]}.

Definition reverse_lines : dict := {[ u "choice" := u "6" ]}.
Definition identity : dict := {[ u "choice" := u "7" ]}.

(** ["foo\nbar\n"] and other contents *)
Definition foo_bar : bytes := b "foo" ++ [x0a] ++ b "bar" ++ [x0a].
Definition bar_foo : bytes := b "bar" ++ [x0a] ++ b "foo" ++ [x0a].

End Example.

(** ** A runtime with [utf-8] for whole sessions *)

Module Desk.

(** Strict UTF-8. [utf8_chars] decodes the longest prefix made of complete,
    valid sequences and returns what is left. *)
Definition continuation (b : N) : bool := (128 <=? b) && (b <=? 191).

(** The second byte of a sequence, whose range depends on the first one (no
    overlong forms, no surrogates, nothing above U+10FFFF). *)
Definition second_ok (b0 b1 : N) : bool :=
  if b0 =? 224 then (160 <=? b1) && (b1 <=? 191)
  else if b0 =? 237 then (128 <=? b1) && (b1 <=? 159)
  else if b0 =? 240 then (144 <=? b1) && (b1 <=? 191)
  else if b0 =? 244 then (128 <=? b1) && (b1 <=? 143)
  else continuation b1.

Fixpoint utf8_chars (data : list N) : str * list N :=
  match data with
  | [] => ([], [])
  | b0 :: rest =>
      if b0 <? 128 then
        let (text, pending) := utf8_chars rest in (b0 :: text, pending)
      else if (194 <=? b0) && (b0 <=? 223) then
        match rest with
        | b1 :: rest' =>
            if continuation b1 then
              let (text, pending) := utf8_chars rest' in
              (((b0 - 192) * 64 + (b1 - 128)) :: text, pending)
            else ([], data)
        | _ => ([], data)
        end
      else if (224 <=? b0) && (b0 <=? 239) then
        match rest with
        | b1 :: b2 :: rest' =>
            if second_ok b0 b1 && continuation b2 then
              let (text, pending) := utf8_chars rest' in
              (((b0 - 224) * 4096 + (b1 - 128) * 64 + (b2 - 128)) :: text, pending)
            else ([], data)
        | _ => ([], data)
        end
      else if (240 <=? b0) && (b0 <=? 244) then
        match rest with
        | b1 :: b2 :: b3 :: rest' =>
            if second_ok b0 b1 && continuation b2 && continuation b3 then
              let (text, pending) := utf8_chars rest' in
              (((b0 - 240) * 262144 + (b1 - 128) * 4096 + (b2 - 128) * 64 + (b3 - 128))
                 :: text, pending)
            else ([], data)
        | _ => ([], data)
        end
      else ([], data)
  end.

(** What is left is the beginning of a sequence that the end of the file
    cuts short. *)
Definition cut_short (pending : list N) : bool :=
  match pending with
  | [b0] => (194 <=? b0) && (b0 <=? 244)
  | [b0; b1] => (224 <=? b0) && (b0 <=? 244) && second_ok b0 b1
  | [b0; b1; b2] => (240 <=? b0) && (b0 <=? 244) && second_ok b0 b1 && continuation b2
  | _ => false
  end.

(** The reader decodes 8192 bytes at a time: of a file with an invalid
    byte, the characters complete before the block with that byte have been
    delivered; a sequence cut short is found at the end of the file only,
    when everything before it has been delivered. *)
Definition utf8_decode (data : bytes) : decoded :=
  let codes := Byte.to_N <$> data in
  let (text, pending) := utf8_chars codes in
  match pending with
  | [] => Decoded text
  | _ :: _ =>
      if cut_short pending then Undecodable text
      else
        let bad_at := (length codes - length pending)%nat in
        Undecodable (fst (utf8_chars (take (N.to_nat (N.of_nat bad_at / 8192 * 8192)) codes)))
  end.

Definition utf8_encode_char (c : N) : option (list N) :=
  if c <? 128 then Some [c]
  else if c <? 2048 then Some [192 + c / 64; 128 + c mod 64]
  else if (55296 <=? c) && (c <=? 57343) then None
  else if c <? 65536 then Some [224 + c / 4096; 128 + (c / 64) mod 64; 128 + c mod 64]
  else if c <? 1114112 then
    Some [240 + c / 262144; 128 + (c / 4096) mod 64; 128 + (c / 64) mod 64; 128 + c mod 64]
  else None.

Definition utf8_encode (s : str) : option bytes :=
  codes ← mapM utf8_encode_char s; mapM Byte.of_N (concat codes).

Definition utf8 : codec := Codec utf8_decode utf8_encode.

(** The codec [cp1252]: the bytes 128 to 159 stand for the characters of
    this table, five of them for none; every other byte is its own code
    point. *)
Definition cp1252_high : list (option N) :=
  [Some 8364; None; Some 8218; Some 402; Some 8222; Some 8230; Some 8224; Some 8225;
   Some 710; Some 8240; Some 352; Some 8249; Some 338; None; Some 381; None;
   None; Some 8216; Some 8217; Some 8220; Some 8221; Some 8226; Some 8211; Some 8212;
   Some 732; Some 8482; Some 353; Some 8250; Some 339; None; Some 382; Some 376].

Definition cp1252_char (b : N) : option N :=
  if (128 <=? b) && (b <? 160) then default None (cp1252_high !! N.to_nat (b - 128))
  else Some b.

(** As for the other codecs, what precedes the block of 8192 bytes with the
    offending byte has been delivered. *)
Definition cp1252_decode (data : bytes) : decoded :=
  let codes := Byte.to_N <$> data in
  let good := length (Str.lstrip_by (fun b => bool_decide (is_Some (cp1252_char b))) codes) in
  if (good =? 0)%nat then Decoded (omap cp1252_char codes)
  else
    let bad_at := (length codes - good)%nat in
    Undecodable (omap cp1252_char (take (N.to_nat (N.of_nat bad_at / 8192 * 8192)) codes)).

Definition cp1252_byte (c : N) : option N :=
  if (c <? 128) || ((160 <=? c) && (c <? 256)) then Some c
  else (fun found => 128 + N.of_nat (fst found))
         <$> list_find (fun x => x = Some c) cp1252_high.

Definition cp1252_encode (s : str) : option bytes :=
  codes ← mapM cp1252_byte s; mapM Byte.of_N codes.

Definition cp1252 : codec := Codec cp1252_decode cp1252_encode.

Definition lookup (encoding : str) : option codec :=
  if bool_decide (encoding = u "utf-8") then Some utf8
  else if bool_decide (encoding = u "cp1252") then Some cp1252
  else Example.lookup encoding.

(** As [Example.posix], with [utf-8] and [cp1252]. The case mappings are
    those of the ASCII letters, which is what [str.upper] and [str.lower] do
    on ASCII text. *)
Definition runtime : Python := {|
  str_upper := Example.ascii_upper;
  str_lower := Example.ascii_lower;
  codecs_lookup := lookup;
  os_linesep := [LF];
  os_path_expanduser := Example.expanduser
|}.

(** No variable is set, [/home] and [/home/user] are the directories, and
    an exception prints as the name of its class. *)
Definition platform : Platform := {|
  os_path_expandvars := fun p => p;
  os_path_isdir := fun p => bool_decide (p ∈ [u "/"; u "/home"; u "/home/user"]);
  exn_str := fun e =>
    match e with
    | FileNotFoundError => u "FileNotFoundError"
    | FileExistsError => u "FileExistsError"
    | PermissionError => u "PermissionError"
    | IsADirectoryError => u "IsADirectoryError"
    | OSError => u "OSError"
    | UnicodeDecodeError => u "UnicodeDecodeError"
    | UnicodeEncodeError => u "UnicodeEncodeError"
    | LookupError => u "LookupError"
    | KeyError => u "KeyError"
    | EOFError => u "EOFError"
    end
|}.

End Desk.

(** ** Vocabulary of the statements *)

(** A line as a text file yields it: no ["\n"] except possibly at the end,
    and not empty. *)
Definition line_shape (l : str) : Prop :=
  exists core, (LF ∉ core) /\ (l = core ++ [LF] \/ (l = core /\ core ≠ [])).

(** A line of a text that is terminated. *)
Definition terminated_line (l : str) : Prop :=
  exists core, (LF ∉ core) /\ l = core ++ [LF].

(** A path cut after its last separator: [head] is empty or ends with the
    separator, [tail] has none. *)
Definition cut_at_last_sep (p head tail : str) : Prop :=
  p = head ++ tail /\ (SEP ∉ tail) /\ (head = [] \/ exists h, head = h ++ [SEP]).

Section Vocabulary.
Context `{Python}.

(** The bytes a sequence of [write] calls appends: each text chunk is
    translated and encoded on its own. *)
Fixpoint encode_chunks (c : codec) (chunks : list str) : option bytes :=
  match chunks with
  | [] => Some []
  | chunk :: rest =>
      match codec_encode c (Str.translate_newlines os_linesep chunk),
            encode_chunks c rest with
      | Some data, Some more => Some (data ++ more)
      | _, _ => None
      end
  end.

(** The text a pipeline writes for [raw_line] when the transformation of its
    core gave [r]: the new core with the line end of the raw line put back;
    nothing for a skipped line. *)
Definition chunk (raw_line : str) (r : option str) : option str :=
  (fun t => t ++ (if Str.endswith raw_line [LF] then [LF] else [])) <$> r.

(** [rs] are the results of [transform_line_core] on the cores of [lines],
    the first line having ordinal [idx]. *)
Fixpoint line_results (opt : dict) (idx : N) (lines : list str)
    (rs : list (option str)) : Prop :=
  match lines, rs with
  | [], [] => True
  | l :: lines', r :: rs' =>
      transform_line_core (Str.rstrip l [CR; LF]) idx opt = Ok r
      /\ line_results opt (N.succ idx) lines' rs'
  | _, _ => False
  end.

(** The chunks of the lines that are kept, in order. *)
Definition chunks (lines : list str) (rs : list (option str)) : list str :=
  omap id (zip_with chunk lines rs).

(** The world once [tempfile] has created [file], the names [rest] being
    left to draw. *)
Definition created (file : str) (rest : list str) (w : world) : world :=
  set_open_files (cons file) (set_files (insert file []) (set_tmp_names (fun _ => rest) w)).

(** The world once the chunks that encode to [content] were written to the
    temporary file and the file was closed. *)
Definition staged (file : str) (rest : list str) (content : bytes) (w : world)
    : world :=
  set_open_files (List.filter (fun f => negb (bool_decide (f = file))))
    (set_files (alter (fun old => old ++ content) file) (created file rest w)).

(** The world once the warning of [process_reverse] was shown and answered,
    [typed] being the lines still to be typed. *)
Definition warned (typed : list str) (w : world) : world :=
  set_stdin (fun _ => typed)
    (set_stdout (fun out => out ++ [[]])
       (set_stdout
          (fun out => out ++ [u "Warning: 'Reverse lines' will load the entire file into memory. Continue? (Y/n): " ++ []])
          w)).

(** [os.path.dirname(output_path) or "."], the directory of the temporary
    file. *)
Definition staging_dir (output_path : str) : str :=
  if bool_decide (os_path.dirname output_path = [])
  then u "." else os_path.dirname output_path.

(** Opening the file under [enc] and reading one line, as
    [choose_encoding_try] does for each candidate. *)
Definition probe (filename enc : str) : M str :=
  f <- open_read filename enc ;; readline f.

(** The commit block both pipelines end with, [cancelled] being what the
    pipeline returns when the user gives up. *)
Definition commit (tmp_name output_path : str) (cancelled : pipeline_result)
    : M (pipeline_result + str) :=
  try_except
    (negotiated <-
       (found <- os_path.exists_ output_path ;;
        if found then
          resp <- input (u "Output file '" ++ output_path
                           ++ u "' already exists. Overwrite? (y/N): ") ;;
          let resp := str_lower (Str.strip resp) in
          if bool_decide (resp ≠ u "y") then
            new_name <- input (u "Enter a new output filename (or 'q' to cancel): ") ;;
            let new_name := Str.strip new_name in
            if bool_decide (str_lower new_name = u "q") then
              _ <- os_remove tmp_name ;;
              _ <- print (u "Operation cancelled. Temporary file removed.") ;;
              ret (inl cancelled)
            else ret (inr (os_path_expanduser new_name))
          else ret (inr output_path)
        else ret (inr output_path)) ;;
     match negotiated with
     | inl cancelled => ret (inl cancelled)
     | inr output_path =>
         _ <- os_replace tmp_name output_path ;;
         ret (inr output_path)
     end)
    (fun e =>
       _ <- try_pass (os_remove tmp_name) ;;
       raise e).

(** The staging step [process_streaming] begins with, up to the end of its
    [with] block: the temporary file is created, the kept chunks are written
    to it under the guard that removes it after a failure, and it is closed.
    The step hands on the file and the two counters. *)
Definition stage_streaming (input_path encoding : str) (opt : dict)
    (output_path : str) : M (tmpfile * (N * N)) :=
  let lines_read := 0 in
  let lines_written := 0 in
  let out_dir := if bool_decide (os_path.dirname output_path = [])
                 then u "." else os_path.dirname output_path in
  tmp <- NamedTemporaryFile out_dir encoding ;;
  let tmp_name := tmp_name tmp in
  counters <-
    with_tmp tmp
      (try_except
         (src <- open_read input_path encoding ;;
          for_enumerate_lines
            (fun idx raw_line counters =>
               let lines_read := fst counters + 1 in
               let lines_written := snd counters in
               let has_nl := Str.endswith raw_line [LF] in
               let core := Str.rstrip raw_line [CR; LF] in
               transformed <- lift (transform_line_core core idx opt) ;;
               match transformed with
               | None => ret (lines_read, lines_written)
               | Some transformed =>
                   let out_line := transformed ++ (if has_nl then [LF] else []) in
                   _ <- tmp_write tmp out_line ;;
                   ret (lines_read, lines_written + 1)
               end)
            src (lines_read, lines_written))
         (fun e =>
            _ <- try_pass (_ <- tmp_close tmp ;; os_remove tmp_name) ;;
            raise e)) ;;
  ret (tmp, counters).

End Vocabulary.

(** [w'] differs from [w] on the console only, and nothing was typed in
    between. *)
Definition console_only (w w' : world) : Prop :=
  files w' = files w /\ faults w' = faults w /\ tmp_names w' = tmp_names w
  /\ open_files w' = open_files w /\ (length (stdin w') <= length (stdin w))%nat.

Section FrontEndVocabulary.
Context `{Python} `{Platform}.

(** What the loop of [prompt_input_file] may answer when started in [w] with
    [fuel] rounds: it raises [EOFError] only, exits with 0 or 1 only, runs out
    of rounds only after reading [fuel] lines, and returns only a file that
    exists and is no directory, with a default encoding whose probe
    succeeds. *)
Definition input_file_outcome (fuel : nat) (w : world)
    (r : result (option (or_exit (str * str)))) (w' : world) : Prop :=
  console_only w w'
  /\ match r with
     | Raise e => e = EOFError
     | Ok None => (fuel + length (stdin w') <= length (stdin w))%nat
     | Ok (Some (Exit code)) => code = 0 \/ code = 1
     | Ok (Some (Return (fname, enc))) =>
         is_Some (files w !! fname) /\ os_path_isdir fname = false
         /\ enc ∈ default_encodings
         /\ exists line, fst (probe fname enc w) = Ok line
     end.

End FrontEndVocabulary.

(** * Facts *)

(** ** Strings *)

Section StrFacts.

Lemma to_int_from_app (a b : str) (acc : N) :
  Str.to_int_from acc (a ++ b) = Str.to_int_from acc a ≫= fun v => Str.to_int_from v b.
Proof.
  revert acc; induction a as [|c a IH]; intros acc; simpl; [done|].
  destruct (Str.digit_value c); [apply IH | done].
Qed.

Lemma digit_value_digit (d : N) : d < 10 -> Str.digit_value (48 + d) = Some d.
Proof.
  intros Hd. unfold Str.digit_value.
  replace (48 <=? 48 + d) with true by (symmetry; apply N.leb_le; lia).
  replace (48 + d <=? 57) with true by (symmetry; apply N.leb_le; lia).
  simpl. f_equal. lia.
Qed.

Lemma digits_nonempty (fuel : nat) (n : N) : Str.digits (S fuel) n ≠ [].
Proof.
  simpl. destruct (n <? 10); [done|].
  intros Heq. apply app_eq_nil in Heq as [_ Heq]. done.
Qed.

(** Reading the digits of [n] back gives [n]. *)
Lemma to_int_from_digits (fuel : nat) : forall (n acc : N),
  n < 10 ^ N.of_nat fuel ->
  Str.to_int_from acc (Str.digits fuel n)
  = Some (acc * 10 ^ N.of_nat (length (Str.digits fuel n)) + n).
Proof.
  induction fuel as [|fuel IH]; intros n acc Hn.
  - assert (n = 0) as -> by (simpl in Hn; lia). simpl. f_equal. lia.
  - simpl Str.digits. destruct (N.ltb_spec n 10) as [Hlt|Hge].
    + simpl. rewrite digit_value_digit by done. f_equal. lia.
    + assert (Hdiv : n / 10 < 10 ^ N.of_nat fuel).
      { apply N.Div0.div_lt_upper_bound.
        rewrite Nat2N.inj_succ, N.pow_succ_r' in Hn. lia. }
      rewrite to_int_from_app, IH by done. simpl.
      rewrite digit_value_digit by (apply N.mod_lt; lia).
      rewrite length_app. simpl length.
      replace (N.of_nat (length (Str.digits fuel (n / 10)) + 1))
        with (N.succ (N.of_nat (length (Str.digits fuel (n / 10))))) by lia.
      rewrite N.pow_succ_r'. f_equal.
      pose proof (N.Div0.div_mod n 10). lia.
Qed.

Lemma digits_are_digits (fuel : nat) : forall n : N,
  Forall (fun c => 48 <= c <= 57) (Str.digits fuel n).
Proof.
  induction fuel as [|fuel IH]; intros n; simpl; [constructor|].
  destruct (N.ltb_spec n 10).
  - apply Forall_singleton. lia.
  - apply Forall_app. split; [apply IH|].
    assert (n mod 10 < 10) by (apply N.mod_lt; lia).
    apply Forall_singleton. generalize dependent (n mod 10). intros; lia.
Qed.

(** A number below [10 ^ k] has at most [k] digits, one from [10 ^ k] on has
    more. *)
Lemma digits_length_le (fuel : nat) : forall (n : N) (k : nat),
  n < 10 ^ N.of_nat (S k) -> (length (Str.digits fuel n) <= S k)%nat.
Proof.
  induction fuel as [|fuel IH]; intros n k Hn; simpl; [lia|].
  destruct (N.ltb_spec n 10); simpl; [lia|].
  rewrite length_app. simpl.
  destruct k as [|k]; [simpl in Hn; lia|].
  assert (n / 10 < 10 ^ N.of_nat (S k)).
  { apply N.Div0.div_lt_upper_bound.
    rewrite (Nat2N.inj_succ (S k)), N.pow_succ_r' in Hn. lia. }
  specialize (IH (n / 10) k). lia.
Qed.

Lemma digits_length_gt (fuel : nat) : forall (n : N) (k : nat),
  n < 10 ^ N.of_nat fuel -> 10 ^ N.of_nat k <= n ->
  (k < length (Str.digits fuel n))%nat.
Proof.
  induction fuel as [|fuel IH]; intros n k Hfuel Hn.
  - simpl in Hfuel. lia.
  - simpl. destruct (N.ltb_spec n 10) as [Hlt|Hge].
    + destruct k as [|k]; simpl; [lia|].
      rewrite Nat2N.inj_succ, N.pow_succ_r' in Hn.
      assert (10 ^ N.of_nat k ≠ 0) by (apply N.pow_nonzero; lia).
      lia.
    + rewrite length_app. simpl.
      destruct k as [|k]; [lia|].
      assert (n / 10 < 10 ^ N.of_nat fuel).
      { apply N.Div0.div_lt_upper_bound.
        rewrite Nat2N.inj_succ, N.pow_succ_r' in Hfuel. lia. }
      assert (10 ^ N.of_nat k <= n / 10).
      { apply N.div_le_lower_bound; [lia|].
        rewrite Nat2N.inj_succ, N.pow_succ_r' in Hn. lia. }
      specialize (IH (n / 10) k). lia.
Qed.

(** [of_int] gives [digits] enough fuel. *)
Lemma of_int_fuel (n : N) : n < 10 ^ N.of_nat (S (N.to_nat (N.log2 n))).
Proof.
  rewrite Nat2N.inj_succ, N2Nat.id.
  destruct (N.eq_dec n 0) as [->|Hn]; [done|].
  eapply N.lt_le_trans; [apply N.log2_spec; lia|].
  apply N.pow_le_mono_l. lia.
Qed.

Lemma to_int_from_zeros (k : nat) (s : str) :
  Str.to_int_from 0 (replicate k 48 ++ s) = Str.to_int_from 0 s.
Proof. induction k as [|k IH]; simpl; [done | apply IH]. Qed.

(** The field [f"{n:04d}"]: digits only, denoting [n], four characters up to
    9999 and exactly the digits of [n] beyond. *)
Lemma format_04d_spec (n : N) :
  Forall (fun c => 48 <= c <= 57) (Str.format_04d n)
  /\ Str.to_int (Str.format_04d n) = Some n
  /\ (n < 10000 -> length (Str.format_04d n) = 4%nat)
  /\ (10000 <= n -> Str.format_04d n = Str.of_int n
                   /\ (4 < length (Str.format_04d n))%nat).
Proof.
  unfold Str.format_04d, Str.zfill, Str.of_int.
  set (fuel := N.to_nat (N.log2 n)).
  pose proof (of_int_fuel n) as Hfuel. fold fuel in Hfuel.
  pose proof (digits_nonempty fuel n) as Hne.
  split; [|split; [|split]].
  - apply Forall_app. split; [|apply digits_are_digits].
    apply Forall_replicate. lia.
  - unfold Str.to_int.
    destruct (replicate _ 48 ++ Str.digits (S fuel) n) eqn:Heq.
    { apply app_eq_nil in Heq as [_ Heq]. done. }
    rewrite <- Heq, to_int_from_zeros, to_int_from_digits by done.
    f_equal.
  - intros Hn. rewrite length_app, length_replicate.
    pose proof (digits_length_le (S fuel) n 3 Hn). lia.
  - intros Hn.
    pose proof (digits_length_gt (S fuel) n 4 Hfuel Hn) as Hlen.
    replace (4 - length (Str.digits (S fuel) n))%nat with 0%nat by lia.
    cbn [replicate app]. split; [done | lia].
Qed.

(** [s.replace("", new)] puts [new] before every character and at the end. *)
Lemma replace_empty_length (s new : str) :
  length (Str.replace s [] new)
  = (length s + (length s + 1) * length new)%nat.
Proof.
  unfold Str.replace. rewrite length_app.
  assert (length (s ≫= fun c => c :: new) = (length s + length s * length new)%nat) as ->.
  { induction s as [|c s IH]; [done|].
    rewrite bind_cons, length_app, IH. simpl. lia. }
  lia.
Qed.

Lemma replace_empty_unchanged (s new : str) :
  Str.replace s [] new = s <-> new = [].
Proof.
  split.
  - intros Heq. pose proof (replace_empty_length s new) as Hlen.
    rewrite Heq in Hlen. destruct new; [done | simpl in Hlen; lia].
  - intros ->. unfold Str.replace. rewrite app_nil_l.
    induction s as [|c s IH]; [done|].
    rewrite bind_cons, IH. done.
Qed.

End StrFacts.

(** ** Lines *)

Section LineFacts.

Lemma splitlines_cons (c : N) (s : str) :
  Str.split_lines (c :: s)
  = if c =? LF then [c] :: Str.split_lines s
    else match Str.split_lines s with
         | [] => [[c]]
         | l :: ls => (c :: l) :: ls
         end.
Proof. done. Qed.

Lemma concat_splitlines (s : str) : concat (Str.split_lines s) = s.
Proof.
  induction s as [|c s IH]; [done|].
  rewrite splitlines_cons. destruct (c =? LF).
  - simpl. by rewrite IH.
  - destruct (Str.split_lines s) as [|l ls]; simpl in *; by rewrite <- IH.
Qed.

Lemma splitlines_shape (s : str) : Forall line_shape (Str.split_lines s).
Proof.
  induction s as [|c s IH]; [constructor|].
  rewrite splitlines_cons. destruct (N.eqb_spec c LF) as [->|Hc].
  - constructor; [|done]. exists []. split; [apply not_elem_of_nil | by left].
  - destruct (Str.split_lines s) as [|l ls].
    + apply Forall_singleton. exists [c]. split; [|by right].
      intros Heq%list_elem_of_singleton. by apply Hc.
    + apply Forall_cons in IH as [(core & Hcore & Hl) Hls].
      constructor; [|done]. exists (c :: core). split.
      * rewrite not_elem_of_cons. done.
      * destruct Hl as [->|[-> _]]; [by left | by right].
Qed.

Lemma endswith_snoc (s : str) (c : N) : Str.endswith (s ++ [c]) [c] = true.
Proof.
  unfold Str.endswith. apply bool_decide_eq_true.
  rewrite length_app. simpl.
  replace (length s + 1 - 1)%nat with (length s) by lia.
  by rewrite drop_app_length.
Qed.

Lemma endswith_last (s : str) (c : N) :
  Str.endswith s [c] = true <-> exists s', s = s' ++ [c].
Proof.
  split.
  - unfold Str.endswith. intros Heq%bool_decide_eq_true.
    exists (take (length s - 1) s). simpl in Heq.
    symmetry. rewrite <- Heq. apply take_drop.
  - intros [s' ->]. apply endswith_snoc.
Qed.


Lemma universal_newlines_no_cr (s : str) : CR ∉ Str.universal_newlines s.
Proof.
  assert (Hgen : forall n s, (length s <= n)%nat -> CR ∉ Str.universal_newlines s).
  { clear s. induction n as [|n IH]; intros [|c s] Hlen; simpl in *;
      try apply not_elem_of_nil; try lia.
    destruct (N.eqb_spec c CR) as [->|Hc].
    - rewrite not_elem_of_cons. split; [done|].
      destruct s as [|c' s']; [apply not_elem_of_nil|].
      destruct (c' =? LF); apply IH; simpl in *; lia.
    - rewrite not_elem_of_cons. split; [done | apply IH; lia]. }
  by apply (Hgen (length s)).
Qed.

Lemma universal_newlines_id (s : str) : CR ∉ s -> Str.universal_newlines s = s.
Proof.
  induction s as [|c s IH]; [done|].
  rewrite not_elem_of_cons. intros [Hc Hs]. simpl.
  destruct (N.eqb_spec c CR); [done|]. by rewrite IH.
Qed.

Lemma rstrip_by_snoc (f : N -> bool) (s : str) (c : N) :
  Str.rstrip_by f (s ++ [c]) = if f c then Str.rstrip_by f s else s ++ [c].
Proof.
  unfold Str.rstrip_by. rewrite reverse_snoc. simpl.
  destruct (f c); [done|].
  by rewrite reverse_cons, reverse_involutive.
Qed.

Lemma rstrip_by_none (f : N -> bool) (s : str) :
  Forall (fun c => f c = false) s -> Str.rstrip_by f s = s.
Proof.
  induction s as [|c s IH] using rev_ind; [done|].
  rewrite Forall_app, Forall_singleton. intros [_ Hc].
  by rewrite rstrip_by_snoc, Hc.
Qed.

(** What the pipelines compute from a raw line: stripping the line end and
    putting it back gives the line again. *)
Lemma line_round_trip (l : str) :
  line_shape l -> CR ∉ l ->
  Str.rstrip l [CR; LF] ++ (if Str.endswith l [LF] then [LF] else []) = l.
Proof.
  intros (core & Hcore & Hl) Hcr.
  assert (Hkeep : Str.rstrip core [CR; LF] = core).
  { apply rstrip_by_none, Forall_forall. intros c Hc.
    apply bool_decide_eq_false. rewrite !elem_of_cons, elem_of_nil.
    intros [->|[->|[]]]; [|done].
    apply Hcr. destruct Hl as [->|[-> _]]; [|done].
    apply elem_of_app. by left. }
  destruct Hl as [->|[-> Hne]].
  - rewrite endswith_snoc. unfold Str.rstrip in *.
    rewrite rstrip_by_snoc. rewrite Hkeep. done.
  - rewrite Hkeep.
    destruct (Str.endswith core [LF]) eqn:Hend; [|by rewrite app_nil_r].
    apply endswith_last in Hend as [s' ->].
    exfalso. apply Hcore, elem_of_app. right. by apply list_elem_of_singleton.
Qed.

Lemma rstrip_terminated (core : str) :
  LF ∉ core -> CR ∉ core -> Str.rstrip (core ++ [LF]) [CR; LF] = core.
Proof.
  intros Hlf Hcr. unfold Str.rstrip. rewrite rstrip_by_snoc. simpl.
  apply rstrip_by_none, Forall_forall. intros c Hc.
  apply bool_decide_eq_false. rewrite !elem_of_cons, elem_of_nil.
  intros [->|[->|[]]]; done.
Qed.

Lemma splitlines_prefix (p s : str) :
  LF ∉ p ->
  Str.split_lines (p ++ s)
  = match Str.split_lines s with
    | [] => match p with [] => [] | _ :: _ => [p] end
    | l :: ls => (p ++ l) :: ls
    end.
Proof.
  induction p as [|c p IH]; simpl app.
  - intros _. by destruct (Str.split_lines s).
  - rewrite not_elem_of_cons. intros [Hc Hp].
    rewrite splitlines_cons, IH by done.
    destruct (N.eqb_spec c LF) as [->|_]; [done|].
    destruct (Str.split_lines s) as [|l ls]; [by destruct p | done].
Qed.

Lemma splitlines_line (core s : str) :
  LF ∉ core -> Str.split_lines ((core ++ [LF]) ++ s) = (core ++ [LF]) :: Str.split_lines s.
Proof.
  intros Hcore. rewrite <- app_assoc, splitlines_prefix by done. simpl app.
  rewrite splitlines_cons. simpl. done.
Qed.

Lemma splitlines_concat (ls : list str) :
  Forall terminated_line ls -> Str.split_lines (concat ls) = ls.
Proof.
  induction 1 as [|l ls (core & Hcore & ->) _ IH]; [done|].
  simpl concat. by rewrite splitlines_line, IH.
Qed.

Lemma line_shape_terminated (l : str) :
  line_shape l -> Str.endswith l [LF] = true -> terminated_line l.
Proof.
  intros (core & Hcore & [->|[-> _]]) Hend; [by exists core|].
  apply endswith_last in Hend as [s' ->]. exfalso.
  apply Hcore, elem_of_app. right. by apply list_elem_of_singleton.
Qed.



End LineFacts.

(** ** Computations *)

Section MonadFacts.

Lemma bind_ok {A B} (m : M A) (k : A -> M B) (w w' : world) (b : B) :
  bind m k w = (Ok b, w') ->
  exists a w1, m w = (Ok a, w1) /\ k a w1 = (Ok b, w').
Proof.
  unfold bind. destruct (m w) as [[a|e] w1]; [|done]. intros Hk. by exists a, w1.
Qed.

Lemma bind_raise {A B} (m : M A) (k : A -> M B) (w w' : world) (e : exn) :
  bind m k w = (Raise e, w') ->
  m w = (Raise e, w') \/ exists a w1, m w = (Ok a, w1) /\ k a w1 = (Raise e, w').
Proof.
  unfold bind. destruct (m w) as [[a|e'] w1] eqn:Hm.
  - intros Hk. right. by exists a, w1.
  - intros [= -> ->]. by left.
Qed.

Lemma bind_run {A B} (m : M A) (k : A -> M B) (w w1 : world) (a : A) :
  m w = (Ok a, w1) -> bind m k w = k a w1.
Proof. unfold bind. by intros ->. Qed.

Lemma bind_fail {A B} (m : M A) (k : A -> M B) (w w1 : world) (e : exn) :
  m w = (Raise e, w1) -> bind m k w = (Raise e, w1).
Proof. unfold bind. by intros ->. Qed.

Lemma bind_assoc {A B C} (m : M A) (k1 : A -> M B) (k2 : B -> M C) (w : world) :
  bind (bind m k1) k2 w = bind m (fun a => bind (k1 a) k2) w.
Proof. unfold bind. by destruct (m w) as [[a|e] w1]. Qed.

Lemma bind_ext {A B} (m : M A) (k k' : A -> M B) (w : world) :
  (forall a w1, k a w1 = k' a w1) -> bind m k w = bind m k' w.
Proof. intros Hk. unfold bind. by destruct (m w) as [[a|e] w1]. Qed.

Lemma ret_ok {A} (a a' : A) (w w' : world) :
  ret a w = (Ok a', w') -> a' = a /\ w' = w.
Proof. by intros [= -> ->]. Qed.

(** A handler that ends in [raise] never turns a failure into a result. *)
Lemma try_except_reraise_ok {A} (body : M A) (cleanup : M unit)
    (w w' : world) (a : A) :
  try_except body (fun e => _ <- cleanup ;; raise e) w = (Ok a, w') ->
  body w = (Ok a, w').
Proof.
  unfold try_except, bind, raise. destruct (body w) as [[a'|e] w1]; [done|].
  by destruct (cleanup w1) as [[[]|e'] w2].
Qed.

Lemma fault_ok (s : syscall) (w w' : world) (x : unit) :
  fault s w = (Ok x, w') -> w' = w /\ faults w s = None.
Proof. unfold fault. destruct (faults w s); [done|]. by intros [= _ ->]. Qed.

Lemma sys_stdout_write_files (s : str) (w w' : world) (r : result unit) :
  sys_stdout_write s w = (r, w') -> files w' = files w /\ faults w' = faults w.
Proof. by intros [= _ <-]. Qed.

Lemma input_files (prompt : str) (w w' : world) (r : result str) :
  input prompt w = (r, w') -> files w' = files w /\ faults w' = faults w.
Proof.
  unfold input, bind, sys_stdout_write. simpl.
  destruct (stdin w); by intros [= _ <-].
Qed.

Lemma input_run (prompt line : str) (rest : list str) (w : world) :
  stdin w = line :: rest ->
  input prompt w
  = (Ok line, set_stdin (fun _ => rest) (set_stdout (fun out => out ++ [prompt]) w)).
Proof. unfold input, bind, sys_stdout_write. simpl. by intros ->. Qed.

Lemma exists_ok (p : str) (w w' : world) (found : bool) :
  os_path.exists_ p w = (Ok found, w') ->
  w' = w /\ found = bool_decide (is_Some (files w !! p)).
Proof. by intros [= <- <-]. Qed.

Lemma os_remove_ok (p : str) (w w' : world) (x : unit) :
  os_remove p w = (Ok x, w') ->
  is_Some (files w !! p) /\ files w' = delete p (files w).
Proof.
  intros (_ & w1 & [-> _]%fault_ok & Hrm)%bind_ok.
  destruct (files w !! p) eqn:Hp; [|done].
  injection Hrm as _ <-. split; [by eexists | done].
Qed.

Lemma os_replace_ok (src dst : str) (w w' : world) (x : unit) :
  os_replace src dst w = (Ok x, w') ->
  exists content, files w !! src = Some content
                  /\ files w' = <[dst := content]> (delete src (files w)).
Proof.
  intros (_ & w1 & [-> _]%fault_ok & Hmv)%bind_ok.
  destruct (files w !! src) as [content|] eqn:Hsrc; [|done].
  injection Hmv as _ <-. by exists content.
Qed.

End MonadFacts.

Section RuntimeFacts.
Context `{Python}.

Lemma open_read_ok (path encoding : str) (w w' : world) (src : decoded) :
  open_read path encoding w = (Ok src, w') ->
  w' = w /\ exists content c,
    files w !! path = Some content /\ codecs_lookup encoding = Some c
    /\ src = codec_decode c content.
Proof.
  intros (_ & w1 & [-> _]%fault_ok & Hopen)%bind_ok.
  destruct (files w !! path) as [content|]; [|done].
  destruct (codecs_lookup encoding) as [c|]; [|done].
  injection Hopen as <- <-. split; [done|]. by exists content, c.
Qed.

Lemma open_read_world (path encoding : str) (w w' : world) (r : result decoded) :
  open_read path encoding w = (r, w') -> w' = w.
Proof.
  unfold open_read, bind, fault. destruct (faults w SysOpen); [by intros [= _ <-]|].
  destruct (files w !! path); [|by intros [= _ <-]].
  destruct (codecs_lookup encoding); by intros [= _ <-].
Qed.

Lemma readline_world (src : decoded) (w w' : world) (r : result str) :
  readline src w = (r, w') -> w' = w.
Proof.
  unfold readline. destruct (iter_lines src) as [[|l ls] [e|]]; by intros [= _ <-].
Qed.

Lemma readlines_ok (src : decoded) (w w' : world) (lines : list str) :
  readlines src w = (Ok lines, w') ->
  w' = w /\ exists text, src = Decoded text /\ lines = text_lines text.
Proof.
  unfold readlines. destruct src as [text|delivered]; simpl; [|done].
  intros [= <- <-]. split; [done|]. by exists text.
Qed.

Lemma mkstemp_inner_fresh (dir : str) (names : list str) (fs : gmap str bytes)
    (file : str) (rest : list str) :
  mkstemp_inner dir names fs = Some (file, rest) -> fs !! file = None.
Proof.
  induction names as [|name names IH]; cbn [mkstemp_inner]; [done|].
  destruct (fs !! os_path.join dir (u "tmp" ++ name)) eqn:Hfile; [exact IH|].
  by intros [= <- _].
Qed.

Lemma NamedTemporaryFile_ok (dir encoding : str) (w w' : world) (tmp : tmpfile) :
  NamedTemporaryFile dir encoding w = (Ok tmp, w') ->
  files w !! tmp_name tmp = None
  /\ files w' = <[tmp_name tmp := []]> (files w)
  /\ codecs_lookup encoding = Some (tmp_codec tmp)
  /\ faults w' = faults w.
Proof.
  intros (_ & w1 & [-> _]%fault_ok & Hmk)%bind_ok.
  destruct (mkstemp_inner dir (tmp_names w) (files w)) as [[file rest]|] eqn:Hfile;
    [|done].
  destruct (codecs_lookup encoding) as [c|]; [|done].
  injection Hmk as <- <-. simpl.
  by apply mkstemp_inner_fresh in Hfile.
Qed.

Lemma encode_chunks_app (c : codec) (xs ys : list str) (dx dy : bytes) :
  encode_chunks c xs = Some dx -> encode_chunks c ys = Some dy ->
  encode_chunks c (xs ++ ys) = Some (dx ++ dy).
Proof.
  revert dx; induction xs as [|x xs IH]; intros dx; simpl.
  - by intros [= <-].
  - destruct (codec_encode c _) as [d|]; [|done].
    destruct (encode_chunks c xs) as [more|]; [|done].
    intros [= <-] Hys. rewrite (IH more) by done. by rewrite app_assoc.
Qed.

Lemma tmp_write_ok (tmp : tmpfile) (s : str) (w w' : world) (x : unit) :
  tmp_write tmp s w = (Ok x, w') ->
  exists data,
    codec_encode (tmp_codec tmp) (Str.translate_newlines os_linesep s) = Some data
    /\ files w' = alter (fun old => old ++ data) (tmp_name tmp) (files w).
Proof.
  unfold tmp_write. destruct (codec_encode _ _) as [data|]; [|done].
  intros (_ & w1 & [-> _]%fault_ok & Hw)%bind_ok.
  injection Hw as _ <-. by exists data.
Qed.

Lemma alter_append (name : str) (data more : bytes) (fs : gmap str bytes) :
  alter (fun old => old ++ more) name (alter (fun old => old ++ data) name fs)
  = alter (fun old => old ++ (data ++ more)) name fs.
Proof.
  rewrite alter_alter_eq. apply alter_ext. intros old _. simpl. by rewrite app_assoc.
Qed.

Lemma alter_append_nil (name : str) (fs : gmap str bytes) :
  alter (fun old => old ++ []) name fs = fs.
Proof. apply alter_id. intros old _. by rewrite app_nil_r. Qed.

Lemma tmp_writelines_ok (tmp : tmpfile) (lines : list str) :
  forall (w w' : world) (x : unit),
  tmp_writelines tmp lines w = (Ok x, w') ->
  exists data,
    encode_chunks (tmp_codec tmp) lines = Some data
    /\ files w' = alter (fun old => old ++ data) (tmp_name tmp) (files w).
Proof.
  induction lines as [|line lines IH]; intros w w' x; simpl.
  - intros [_ ->]%ret_ok. exists []. by rewrite alter_append_nil.
  - intros ([] & w1 & (d & Hd & Hw1)%tmp_write_ok & (more & Hmore & Hw')%IH)%bind_ok.
    rewrite Hd, Hmore. exists (d ++ more). split; [done|].
    by rewrite Hw', Hw1, alter_append.
Qed.

Lemma tmp_close_files (tmp : tmpfile) (w w' : world) (r : result unit) :
  tmp_close tmp w = (r, w') -> files w' = files w /\ faults w' = faults w.
Proof.
  unfold tmp_close, fault. destruct (bool_decide _); [|by intros [= _ <-]].
  simpl. destruct (faults w SysClose); by intros [= _ <-].
Qed.

Lemma with_tmp_ok {A} (tmp : tmpfile) (body : M A) (w w' : world) (a : A) :
  with_tmp tmp body w = (Ok a, w') ->
  exists w1, body w = (Ok a, w1) /\ files w' = files w1.
Proof.
  unfold with_tmp. destruct (body w) as [[a'|e] w1].
  - intros ([] & w2 & Hclose%tmp_close_files & [= -> <-])%bind_ok.
    exists w1. by destruct Hclose.
  - unfold bind, raise. by destruct (tmp_close tmp w1) as [[[]|e'] w2].
Qed.

End RuntimeFacts.

(** ** Runs that succeed *)

Section RunFacts.
Context `{Python}.

Lemma fault_run (s : syscall) (w : world) :
  faults w s = None -> fault s w = (Ok tt, w).
Proof. unfold fault. by intros ->. Qed.

Lemma open_read_run (path encoding : str) (w : world) (content : bytes) (c : codec) :
  faults w SysOpen = None -> files w !! path = Some content ->
  codecs_lookup encoding = Some c ->
  open_read path encoding w = (Ok (codec_decode c content), w).
Proof.
  intros Hfault Hfile Hc. unfold open_read.
  rewrite (bind_run _ _ _ _ _ (fault_run _ _ Hfault)). by rewrite Hfile, Hc.
Qed.

Lemma os_remove_run (p : str) (w : world) :
  faults w SysRemove = None -> is_Some (files w !! p) ->
  os_remove p w = (Ok tt, set_files (delete p) w).
Proof.
  intros Hfault [content Hfile]. unfold os_remove.
  rewrite (bind_run _ _ _ _ _ (fault_run _ _ Hfault)). by rewrite Hfile.
Qed.

Lemma os_replace_run (src dst : str) (w : world) (content : bytes) :
  faults w SysReplace = None -> files w !! src = Some content ->
  os_replace src dst w
  = (Ok tt, set_files (fun fs => <[dst := content]> (delete src fs)) w).
Proof.
  intros Hfault Hfile. unfold os_replace.
  rewrite (bind_run _ _ _ _ _ (fault_run _ _ Hfault)). by rewrite Hfile.
Qed.

Lemma NamedTemporaryFile_run (dir encoding : str) (w : world) (file : str)
    (rest : list str) (c : codec) :
  faults w SysMkstemp = None ->
  mkstemp_inner dir (tmp_names w) (files w) = Some (file, rest) ->
  codecs_lookup encoding = Some c ->
  NamedTemporaryFile dir encoding w = (Ok (Tmpfile file c), created file rest w).
Proof.
  intros Hfault Hfile Hc. unfold NamedTemporaryFile.
  rewrite (bind_run _ _ _ _ _ (fault_run _ _ Hfault)). by rewrite Hfile, Hc.
Qed.

Lemma set_files_append (name : str) (data more : bytes) (w : world) :
  set_files (alter (fun old => old ++ more) name)
    (set_files (alter (fun old => old ++ data) name) w)
  = set_files (alter (fun old => old ++ (data ++ more)) name) w.
Proof. unfold set_files. simpl. by rewrite alter_append. Qed.

Lemma set_files_append_nil (name : str) (w : world) :
  set_files (alter (fun old => old ++ []) name) w = w.
Proof. destruct w. unfold set_files. simpl. by rewrite alter_append_nil. Qed.

Lemma tmp_write_run (tmp : tmpfile) (s : str) (w : world) (data : bytes) :
  faults w SysWrite = None ->
  codec_encode (tmp_codec tmp) (Str.translate_newlines os_linesep s) = Some data ->
  tmp_write tmp s w
  = (Ok tt, set_files (alter (fun old => old ++ data) (tmp_name tmp)) w).
Proof.
  intros Hfault Hdata. unfold tmp_write. rewrite Hdata.
  by rewrite (bind_run _ _ _ _ _ (fault_run _ _ Hfault)).
Qed.

Lemma tmp_writelines_run (tmp : tmpfile) (lines : list str) :
  forall (w : world) (data : bytes),
  faults w SysWrite = None ->
  encode_chunks (tmp_codec tmp) lines = Some data ->
  tmp_writelines tmp lines w
  = (Ok tt, set_files (alter (fun old => old ++ data) (tmp_name tmp)) w).
Proof.
  induction lines as [|line lines IH]; intros w data Hfault; simpl.
  - intros [= <-]. by rewrite set_files_append_nil.
  - destruct (codec_encode _ _) as [d|] eqn:Hd; [|done].
    destruct (encode_chunks _ lines) as [more|] eqn:Hmore; [|done].
    intros [= <-].
    rewrite (bind_run _ _ _ _ _ (tmp_write_run _ _ _ _ Hfault Hd)).
    rewrite (IH _ more) by done. by rewrite set_files_append.
Qed.

Lemma tmp_close_run (tmp : tmpfile) (w : world) :
  faults w SysClose = None -> tmp_name tmp ∈ open_files w ->
  tmp_close tmp w
  = (Ok tt,
     set_open_files (List.filter (fun f => negb (bool_decide (f = tmp_name tmp)))) w).
Proof.
  intros Hfault Hopen. unfold tmp_close.
  rewrite bool_decide_eq_true_2 by done. by rewrite fault_run.
Qed.

Lemma with_tmp_run {A} (tmp : tmpfile) (body : M A) (w w1 : world) (a : A) :
  faults w1 SysClose = None -> tmp_name tmp ∈ open_files w1 ->
  body w = (Ok a, w1) ->
  with_tmp tmp body w
  = (Ok a,
     set_open_files (List.filter (fun f => negb (bool_decide (f = tmp_name tmp)))) w1).
Proof.
  intros Hfault Hopen Hbody. unfold with_tmp. rewrite Hbody.
  by rewrite (bind_run _ _ _ _ _ (tmp_close_run tmp w1 Hfault Hopen)).
Qed.

Lemma try_except_run {A} (body : M A) (handler : exn -> M A) (w w1 : world) (a : A) :
  body w = (Ok a, w1) -> try_except body handler w = (Ok a, w1).
Proof. unfold try_except. by intros ->. Qed.

End RunFacts.

(** ** The pieces of the pipelines *)

Section PipelineFacts.
Context `{Python}.

Lemma line_results_length (opt : dict) (lines : list str) :
  forall (idx : N) (rs : list (option str)),
  line_results opt idx lines rs -> length rs = length lines.
Proof.
  induction lines as [|l lines IH]; intros idx [|r rs]; simpl; try done.
  intros [_ Hrs]. f_equal. by apply (IH (N.succ idx)).
Qed.

Lemma line_results_lookup (opt : dict) (lines : list str) :
  forall (idx : N) (rs : list (option str)) (i : nat) (l : str),
  line_results opt idx lines rs -> lines !! i = Some l ->
  exists r, rs !! i = Some r
            /\ transform_line_core (Str.rstrip l [CR; LF]) (idx + N.of_nat i) opt = Ok r.
Proof.
  induction lines as [|l' lines IH]; intros idx [|r rs] i l; simpl; try done.
  intros [Hr Hrs]. destruct i as [|i]; simpl.
  - intros [= <-]. exists r. by rewrite N.add_0_r.
  - intros Hl. destruct (IH (N.succ idx) rs i l Hrs Hl) as (r' & Hr' & Ht).
    exists r'. split; [done|]. by replace (idx + N.of_nat (S i)) with (N.succ idx + N.of_nat i) by lia.
Qed.

Lemma chunks_cons (l : str) (lines : list str) (r : option str) (rs : list (option str)) :
  chunks (l :: lines) (r :: rs)
  = match chunk l r with
    | Some x => x :: chunks lines rs
    | None => chunks lines rs
    end.
Proof. unfold chunks. simpl. by destruct (chunk l r). Qed.

Lemma chunks_length (lines : list str) (rs : list (option str)) :
  (length (chunks lines rs) <= length lines)%nat.
Proof.
  revert rs; induction lines as [|l lines IH]; intros [|r rs];
    try (unfold chunks; simpl; lia).
  rewrite chunks_cons. specialize (IH rs). destruct (chunk l r); simpl; lia.
Qed.

(** Only the removal of blank lines ever skips a line. *)
Lemma transform_keeps (core : str) (idx : N) (opt : dict) :
  opt !! u "choice" ≠ Some (u "4") ->
  transform_line_core core idx opt ≠ Ok None.
Proof.
  unfold transform_line_core. intros Hopt.
  destruct (opt !! u "choice") as [choice|]; [|done].
  repeat (case_bool_decide; [done|]).
  case_bool_decide; [congruence|].
  repeat (case_bool_decide; [done|]). done.
Qed.

Lemma chunks_all_kept (opt : dict) (lines : list str) :
  opt !! u "choice" ≠ Some (u "4") ->
  forall (idx : N) (rs : list (option str)),
  line_results opt idx lines rs -> length (chunks lines rs) = length lines.
Proof.
  intros Hopt. induction lines as [|l lines IH]; intros idx [|r rs]; simpl; try done.
  intros [Hr Hrs]. rewrite chunks_cons.
  destruct r as [t|]; [|by apply transform_keeps in Hr].
  simpl. f_equal. by apply (IH (N.succ idx)).
Qed.




(** The loop of [process_reverse]: the world is not touched, the kept chunks
    are appended in order. *)
Lemma reverse_loop_ok (opt : dict) (lines : list str) :
  forall (idx : N) (acc out : list str) (w w' : world),
  for_enumerate
    (fun idx raw_line transformed_lines =>
       let core := Str.rstrip raw_line [CR; LF] in
       let has_nl := Str.endswith raw_line [LF] in
       t <- lift (transform_line_core core idx opt) ;;
       match t with
       | None => ret transformed_lines
       | Some t => ret (transformed_lines ++ [t ++ (if has_nl then [LF] else [])])
       end)
    idx lines acc w = (Ok out, w') ->
  w' = w /\ exists rs, line_results opt idx lines rs /\ out = acc ++ chunks lines rs.
Proof.
  induction lines as [|l lines IH]; intros idx acc out w w'; simpl.
  - intros [-> ->]%ret_ok. split; [done|]. exists []. split; [done|].
    by rewrite app_nil_r.
  - intros (acc' & w1 & Hbody & Hrest)%bind_ok.
    apply IH in Hrest as (-> & rs & Hrs & ->).
    unfold bind, lift in Hbody.
    destruct (transform_line_core _ idx opt) as [[t|]|e] eqn:Ht; [| |done].
    + apply ret_ok in Hbody as [-> ->]. split; [done|].
      exists (Some t :: rs). split; [done|].
      rewrite chunks_cons. simpl. by rewrite <- app_assoc.
    + apply ret_ok in Hbody as [-> ->]. split; [done|].
      exists (None :: rs). split; [done|]. by rewrite chunks_cons.
Qed.

(** The loop of [process_streaming]: the counters advance with the lines read
    and the lines kept, and the bytes of the kept chunks are appended to the
    temporary file. *)
Lemma streaming_loop_ok (opt : dict) (tmp : tmpfile) (lines : list str) :
  forall (idx : N) (counters counters' : N * N) (w w' : world),
  for_enumerate
    (fun idx raw_line counters =>
       let lines_read := fst counters + 1 in
       let lines_written := snd counters in
       let has_nl := Str.endswith raw_line [LF] in
       let core := Str.rstrip raw_line [CR; LF] in
       transformed <- lift (transform_line_core core idx opt) ;;
       match transformed with
       | None => ret (lines_read, lines_written)
       | Some transformed =>
           let out_line := transformed ++ (if has_nl then [LF] else []) in
           _ <- tmp_write tmp out_line ;;
           ret (lines_read, lines_written + 1)
       end)
    idx lines counters w = (Ok counters', w') ->
  exists rs data,
    line_results opt idx lines rs
    /\ encode_chunks (tmp_codec tmp) (chunks lines rs) = Some data
    /\ counters' = (fst counters + N.of_nat (length lines),
                    snd counters + N.of_nat (length (chunks lines rs)))
    /\ files w' = alter (fun old => old ++ data) (tmp_name tmp) (files w).
Proof.
  induction lines as [|l lines IH]; intros idx [n m] counters' w w'; simpl.
  - intros [-> ->]%ret_ok. exists [], []. rewrite alter_append_nil.
    repeat split; try done. f_equal; lia.
  - intros (cnt & w1 & Hbody & Hrest)%bind_ok.
    apply IH in Hrest as (rs & more & Hrs & Hmore & -> & Hw').
    unfold bind at 1, lift in Hbody.
    destruct (transform_line_core _ idx opt) as [[t|]|e] eqn:Ht; [| |done].
    + apply bind_ok in Hbody as ([] & w2 & (data & Hdata & Hw2)%tmp_write_ok & [-> ->]%ret_ok).
      exists (Some t :: rs), (data ++ more). rewrite chunks_cons. simpl.
      rewrite Hdata, Hmore. repeat split; try done.
      * f_equal; lia.
      * by rewrite Hw', Hw2, alter_append.
    + apply ret_ok in Hbody as [-> ->].
      exists (None :: rs), more. rewrite chunks_cons. simpl.
      repeat split; try done. f_equal; lia.
Qed.

Lemma streaming_lines_ok (opt : dict) (tmp : tmpfile) (src : decoded)
    (counters' : N * N) (w w' : world) :
  for_enumerate_lines
    (fun idx raw_line counters =>
       let lines_read := fst counters + 1 in
       let lines_written := snd counters in
       let has_nl := Str.endswith raw_line [LF] in
       let core := Str.rstrip raw_line [CR; LF] in
       transformed <- lift (transform_line_core core idx opt) ;;
       match transformed with
       | None => ret (lines_read, lines_written)
       | Some transformed =>
           let out_line := transformed ++ (if has_nl then [LF] else []) in
           _ <- tmp_write tmp out_line ;;
           ret (lines_read, lines_written + 1)
       end)
    src (0, 0) w = (Ok counters', w') ->
  exists text rs data,
    src = Decoded text
    /\ line_results opt 0 (text_lines text) rs
    /\ encode_chunks (tmp_codec tmp) (chunks (text_lines text) rs) = Some data
    /\ counters' = (N.of_nat (length (text_lines text)),
                    N.of_nat (length (chunks (text_lines text) rs)))
    /\ files w' = alter (fun old => old ++ data) (tmp_name tmp) (files w).
Proof.
  unfold for_enumerate_lines.
  intros (cnt & w1 & Hloop & Hend)%bind_ok.
  destruct src as [text|delivered]; simpl in *; [|done].
  apply ret_ok in Hend as [-> ->].
  apply streaming_loop_ok in Hloop as (rs & data & Hrs & Hdata & -> & Hw').
  by exists text, rs, data.
Qed.

(** The commit block: either the user gave up, and the temporary file was
    removed, or the temporary file was renamed to the path returned. *)
Lemma commit_ok (tmp_name output_path : str) (cancelled : pipeline_result)
    (w w' : world) (done_ : pipeline_result + str) :
  commit tmp_name output_path cancelled w = (Ok done_, w') ->
  (done_ = inl cancelled /\ is_Some (files w !! output_path)
   /\ files w' = delete tmp_name (files w))
  \/ (exists path content,
        done_ = inr path /\ files w !! tmp_name = Some content
        /\ files w' = <[path := content]> (delete tmp_name (files w))).
Proof.
  unfold commit. intros Hbody%try_except_reraise_ok.
  apply bind_ok in Hbody as (negotiated & w1 & Hneg & Hmove).
  assert (Hcases :
    (negotiated = inl cancelled /\ is_Some (files w !! output_path)
     /\ files w1 = delete tmp_name (files w))
    \/ (exists path, negotiated = inr path /\ files w1 = files w)).
  { apply bind_ok in Hneg as (found & w2 & [-> ->]%exists_ok & Hneg).
    case_bool_decide as Hfound; [|apply ret_ok in Hneg as [-> ->]; right; by eexists].
    apply bind_ok in Hneg as (resp & w2 & [Hw2 _]%input_files & Hneg).
    case_bool_decide; [|apply ret_ok in Hneg as [-> ->]; right; by eexists].
    apply bind_ok in Hneg as (new_name & w3 & [Hw3 _]%input_files & Hneg).
    case_bool_decide.
    - apply bind_ok in Hneg as ([] & w4 & [_ Hw4]%os_remove_ok & Hneg).
      apply bind_ok in Hneg as ([] & w5 & [Hw5 _]%sys_stdout_write_files & [-> ->]%ret_ok).
      left. repeat split; [done|]. by rewrite Hw5, Hw4, Hw3, Hw2.
    - apply ret_ok in Hneg as [-> ->]. right. eexists. split; [done|].
      by rewrite Hw3, Hw2. }
  destruct Hcases as [(-> & Hex & Hw1)|(path & -> & Hw1)].
  - apply ret_ok in Hmove as [-> ->]. by left.
  - apply bind_ok in Hmove as ([] & w2 & (content & Hc & Hw2)%os_replace_ok & [-> ->]%ret_ok).
    right. exists path, content. rewrite Hw1 in *. done.
Qed.

Lemma alter_insert_fresh (name : str) (data : bytes) (fs : gmap str bytes) :
  alter (fun old => old ++ data) name (<[name := []]> fs) = <[name := data]> fs.
Proof. by rewrite alter_insert_eq. Qed.

(** What a normal return of [process_streaming] tells: the input was read
    and decoded entirely, every kept chunk was encoded, and then either the
    user gave up, leaving the files as they were, or the bytes staged are at
    the path returned. *)
Lemma process_streaming_ok (input_path encoding : str) (opt : dict)
    (output_path : str) (w w' : world) (res : pipeline_result) :
  process_streaming input_path encoding opt output_path w = (Ok res, w') ->
  exists tmp data text rs content,
    files w !! tmp_name tmp = None
    /\ <[tmp_name tmp := []]> (files w) !! input_path = Some data
    /\ codecs_lookup encoding = Some (tmp_codec tmp)
    /\ codec_decode (tmp_codec tmp) data = Decoded text
    /\ line_results opt 0 (text_lines text) rs
    /\ encode_chunks (tmp_codec tmp) (chunks (text_lines text) rs) = Some content
    /\ ((res = (N.of_nat (length (text_lines text)), 0, None)
         /\ files w' = files w)
        \/ (exists path,
              res = (N.of_nat (length (text_lines text)),
                     N.of_nat (length (chunks (text_lines text) rs)), Some path)
              /\ files w' = <[path := content]> (files w))).
Proof.
  unfold process_streaming.
  intros (tmp & w1 & (Hfresh & Hw1 & Hcodec & _)%NamedTemporaryFile_ok & Hrest)%bind_ok.
  apply bind_ok in Hrest as (counters & w2 & Hstage & Hrest).
  apply with_tmp_ok in Hstage as (w1' & Hstage%try_except_reraise_ok & Hw2).
  apply bind_ok in Hstage as (src & w1'' & [-> Hsrc]%open_read_ok & Hloop).
  destruct Hsrc as (data & c & Hdata & Hc & ->).
  rewrite Hcodec in Hc. injection Hc as <-.
  apply streaming_lines_ok in Hloop as (text & rs & content & Htext & Hrs & Hcontent & -> & Hw1').
  apply bind_ok in Hrest as (done_ & w3 & Hcommit & Hret).
  assert (Hstaged : files w2 = <[tmp_name tmp := content]> (files w)).
  { by rewrite Hw2, Hw1', Hw1, alter_insert_fresh. }
  exists tmp, data, text, rs, content. rewrite <- Hw1.
  repeat split; try done.
  apply commit_ok in Hcommit as [(-> & _ & Hw3)|(path & content' & -> & Htmp & Hw3)];
    apply ret_ok in Hret as [-> ->]; simpl.
  - left. split; [done|].
    by rewrite Hw3, Hstaged, delete_insert_eq, delete_id.
  - right. exists path. split; [done|].
    rewrite Hstaged, lookup_insert_eq in Htmp. injection Htmp as <-.
    by rewrite Hw3, Hstaged, delete_insert_eq, delete_id.
Qed.

(** [process_streaming] is its staging step followed by the commit block. *)
Lemma process_streaming_stages (input_path encoding : str) (opt : dict)
    (output_path : str) (w : world) :
  process_streaming input_path encoding opt output_path w
  = (st <- stage_streaming input_path encoding opt output_path ;;
     done_ <- commit (tmp_name (fst st)) output_path (fst (snd st), 0, None) ;;
     match done_ with
     | inl cancelled => ret cancelled
     | inr output_path => ret (fst (snd st), snd (snd st), Some output_path)
     end) w.
Proof.
  unfold process_streaming, stage_streaming. cbn zeta.
  rewrite bind_assoc. apply bind_ext. intros tmp w1.
  rewrite bind_assoc. apply bind_ext. intros counters w2.
  reflexivity.
Qed.

(** What a normal end of the staging step tells: the temporary file is new
    and holds the bytes of the kept chunks, and the counters are the number
    of lines and the number of chunks. *)
Lemma stage_streaming_ok (input_path encoding : str) (opt : dict)
    (output_path : str) (w w1 : world) (tmp : tmpfile) (counters : N * N) :
  stage_streaming input_path encoding opt output_path w = (Ok (tmp, counters), w1) ->
  files w !! tmp_name tmp = None
  /\ exists data text rs content,
       <[tmp_name tmp := []]> (files w) !! input_path = Some data
       /\ codecs_lookup encoding = Some (tmp_codec tmp)
       /\ codec_decode (tmp_codec tmp) data = Decoded text
       /\ line_results opt 0 (text_lines text) rs
       /\ encode_chunks (tmp_codec tmp) (chunks (text_lines text) rs) = Some content
       /\ counters = (N.of_nat (length (text_lines text)),
                      N.of_nat (length (chunks (text_lines text) rs)))
       /\ files w1 = <[tmp_name tmp := content]> (files w).
Proof.
  unfold stage_streaming.
  intros (tmp' & w0 & (Hfresh & Hw0 & Hcodec & _)%NamedTemporaryFile_ok & Hrest)%bind_ok.
  apply bind_ok in Hrest as (counters' & w2 & Hstage & [[= -> ->] ->]%ret_ok).
  apply with_tmp_ok in Hstage as (w0' & Hstage%try_except_reraise_ok & Hw2).
  apply bind_ok in Hstage as (src & w0'' & [-> Hsrc]%open_read_ok & Hloop).
  destruct Hsrc as (data & c & Hdata & Hc & ->).
  rewrite Hcodec in Hc. injection Hc as <-.
  apply streaming_lines_ok in Hloop
    as (text & rs & content & Htext & Hrs & Hcontent & -> & Hw0').
  split; [done|]. exists data, text, rs, content. rewrite <- Hw0.
  repeat split; try done.
  by rewrite Hw2, Hw0', Hw0, alter_insert_fresh.
Qed.

(** The same for [process_reverse]; giving up before the file is read leaves
    everything as it was. *)
Lemma process_reverse_ok (input_path encoding : str) (opt : dict)
    (output_path : str) (w w' : world) (res : pipeline_result) :
  process_reverse input_path encoding opt output_path w = (Ok res, w') ->
  (res = (0, 0, None) /\ files w' = files w)
  \/ (exists c data text rs content path,
        files w !! input_path = Some data
        /\ codecs_lookup encoding = Some c
        /\ codec_decode c data = Decoded text
        /\ line_results opt 0 (text_lines text) rs
        /\ encode_chunks c (reverse (chunks (text_lines text) rs)) = Some content
        /\ res = (N.of_nat (length (text_lines text)),
                  N.of_nat (length (chunks (text_lines text) rs)), Some path)
        /\ files w' = <[path := content]> (files w)).
Proof.
  unfold process_reverse.
  intros ([] & w1 & [Hw1 _]%sys_stdout_write_files & Hrest)%bind_ok.
  apply bind_ok in Hrest as (answer & w2 & [Hw2 _]%input_files & Hrest).
  case_bool_decide.
  { apply bind_ok in Hrest as ([] & w3 & [Hw3 _]%sys_stdout_write_files & [-> ->]%ret_ok).
    left. split; [done|]. by rewrite Hw3, Hw2, Hw1. }
  apply bind_ok in Hrest as (src & w3 & [-> Hsrc]%open_read_ok & Hrest).
  destruct Hsrc as (data & c & Hdata & Hc & ->).
  apply bind_ok in Hrest as (lines & w3 & [-> (text & Htext & ->)]%readlines_ok & Hrest).
  apply bind_ok in Hrest as (transformed_lines & w3 & Hloop & Hrest).
  apply reverse_loop_ok in Hloop as (-> & rs & Hrs & ->). simpl in Hrest.
  apply bind_ok in Hrest as (tmp & w3 & (Hfresh & Hw3 & Hcodec & _)%NamedTemporaryFile_ok & Hrest).
  rewrite Hc in Hcodec. injection Hcodec as ->.
  apply bind_ok in Hrest as ([] & w4 & Hwrite & Hrest).
  apply with_tmp_ok in Hwrite as (w3' & (content & Hcontent & Hw3')%tmp_writelines_ok & Hw4).
  apply bind_ok in Hrest as (done_ & w5 & Hcommit & Hret).
  assert (Hstaged : files w4 = <[tmp_name tmp := content]> (files w)).
  { by rewrite Hw4, Hw3', Hw3, alter_insert_fresh, Hw2, Hw1. }
  rewrite Hw2, Hw1 in Hdata, Hfresh.
  apply commit_ok in Hcommit as [(-> & _ & Hw5)|(path & content' & -> & Htmp & Hw5)];
    apply ret_ok in Hret as [-> ->].
  - left. split; [done|].
    by rewrite Hw5, Hstaged, delete_insert_eq, delete_id.
  - right. exists (tmp_codec tmp), data, text, rs, content, path.
    rewrite Hstaged, lookup_insert_eq in Htmp. injection Htmp as <-.
    repeat split; try done.
    by rewrite Hw5, Hstaged, delete_insert_eq, delete_id.
Qed.

End PipelineFacts.

(** ** Pipelines that run to the end *)

Section PipelineRuns.
Context `{Python}.

(** Two results with the same world and counters that are equal numbers. *)
Ltac counters := f_equal; f_equal; apply (f_equal2 pair); lia.

Lemma reverse_loop_run (opt : dict) (lines : list str) :
  forall (idx : N) (acc : list str) (rs : list (option str)) (w : world),
  line_results opt idx lines rs ->
  for_enumerate
    (fun idx raw_line transformed_lines =>
       let core := Str.rstrip raw_line [CR; LF] in
       let has_nl := Str.endswith raw_line [LF] in
       t <- lift (transform_line_core core idx opt) ;;
       match t with
       | None => ret transformed_lines
       | Some t => ret (transformed_lines ++ [t ++ (if has_nl then [LF] else [])])
       end)
    idx lines acc w = (Ok (acc ++ chunks lines rs), w).
Proof.
  induction lines as [|l lines IH]; intros idx acc [|r rs] w; simpl; try done.
  - intros _. unfold chunks. simpl. by rewrite app_nil_r.
  - intros [Hr Hrs]. unfold bind at 1, lift. rewrite Hr. rewrite chunks_cons.
    destruct r as [t|]; unfold bind, ret; simpl.
    + rewrite (IH _ _ rs) by done. by rewrite <- app_assoc.
    + by rewrite (IH _ _ rs).
Qed.

Lemma streaming_loop_run (opt : dict) (tmp : tmpfile) (lines : list str) :
  forall (idx : N) (counters : N * N) (rs : list (option str)) (data : bytes)
         (w : world),
  faults w SysWrite = None ->
  line_results opt idx lines rs ->
  encode_chunks (tmp_codec tmp) (chunks lines rs) = Some data ->
  for_enumerate
    (fun idx raw_line counters =>
       let lines_read := fst counters + 1 in
       let lines_written := snd counters in
       let has_nl := Str.endswith raw_line [LF] in
       let core := Str.rstrip raw_line [CR; LF] in
       transformed <- lift (transform_line_core core idx opt) ;;
       match transformed with
       | None => ret (lines_read, lines_written)
       | Some transformed =>
           let out_line := transformed ++ (if has_nl then [LF] else []) in
           _ <- tmp_write tmp out_line ;;
           ret (lines_read, lines_written + 1)
       end)
    idx lines counters w
  = (Ok (fst counters + N.of_nat (length lines),
         snd counters + N.of_nat (length (chunks lines rs))),
     set_files (alter (fun old => old ++ data) (tmp_name tmp)) w).
Proof.
  induction lines as [|l lines IH]; intros idx [n m] [|r rs] data w Hfault;
    cbn [line_results for_enumerate]; try done.
  - intros _ [= <-]. rewrite set_files_append_nil. unfold ret, chunks. simpl.
    counters.
  - intros [Hr Hrs]. rewrite chunks_cons. unfold bind at 1, lift. rewrite Hr.
    destruct r as [t|]; cbn [chunk fmap option_fmap option_map].
    + cbn [encode_chunks].
      destruct (codec_encode _ _) as [d|] eqn:Hd; [|done].
      destruct (encode_chunks _ (chunks lines rs)) as [more|] eqn:Hmore; [|done].
      intros [= <-].
      unfold bind at 1. rewrite (bind_run _ _ _ _ _ (tmp_write_run _ _ _ _ Hfault Hd)).
      unfold ret at 1. rewrite (IH _ _ rs more) by done.
      rewrite set_files_append. cbn [fst snd length]. counters.
    + intros Hdata. unfold bind at 1, ret at 1.
      rewrite (IH _ _ rs data) by done. cbn [fst snd length]. counters.
Qed.

(** The four ways through the commit block. *)
Lemma commit_fresh_run (tmp_name output_path : str) (cancelled : pipeline_result)
    (w : world) (content : bytes) :
  faults w SysReplace = None ->
  files w !! output_path = None -> files w !! tmp_name = Some content ->
  commit tmp_name output_path cancelled w
  = (Ok (inr output_path),
     set_files (fun fs => <[output_path := content]> (delete tmp_name fs)) w).
Proof.
  intros Hfault Hout Htmp. unfold commit. apply try_except_run.
  unfold bind at 1 2, os_path.exists_. rewrite Hout.
  rewrite bool_decide_eq_false_2 by (by intros [? [=]]). unfold ret at 1.
  by rewrite (bind_run _ _ _ _ _ (os_replace_run _ _ _ _ Hfault Htmp)).
Qed.

Lemma commit_overwrite_run (tmp_name output_path : str) (cancelled : pipeline_result)
    (w : world) (content : bytes) (resp : str) (typed : list str) :
  faults w SysReplace = None ->
  is_Some (files w !! output_path) -> files w !! tmp_name = Some content ->
  stdin w = resp :: typed -> str_lower (Str.strip resp) = u "y" ->
  exists w',
    commit tmp_name output_path cancelled w = (Ok (inr output_path), w')
    /\ files w' = <[output_path := content]> (delete tmp_name (files w))
    /\ stdin w' = typed.
Proof.
  intros Hfault Hout Htmp Hstdin Hresp. unfold commit.
  eexists. split; [apply try_except_run|split].
  - unfold bind at 1 2, os_path.exists_. rewrite bool_decide_eq_true_2 by done.
    erewrite bind_run by (by apply input_run).
    rewrite Hresp, bool_decide_eq_false_2 by (by intros []). unfold ret at 1.
    by erewrite bind_run by (by apply os_replace_run).
  - done.
  - done.
Qed.

Lemma commit_cancel_run (tmp_name output_path : str) (cancelled : pipeline_result)
    (w : world) (resp new_name : str) (typed : list str) :
  faults w SysRemove = None ->
  is_Some (files w !! output_path) -> is_Some (files w !! tmp_name) ->
  stdin w = resp :: new_name :: typed ->
  str_lower (Str.strip resp) ≠ u "y" ->
  str_lower (Str.strip new_name) = u "q" ->
  exists w',
    commit tmp_name output_path cancelled w = (Ok (inl cancelled), w')
    /\ files w' = delete tmp_name (files w)
    /\ stdin w' = typed.
Proof.
  intros Hfault Hout Htmp Hstdin Hresp Hname. unfold commit.
  eexists. split; [apply try_except_run|split].
  - unfold bind at 1 2, os_path.exists_. rewrite bool_decide_eq_true_2 by done.
    erewrite bind_run by (by apply input_run).
    rewrite bool_decide_eq_true_2 by done.
    erewrite bind_run by (by apply input_run).
    rewrite bool_decide_eq_true_2 by done.
    erewrite bind_run by (by apply os_remove_run).
    erewrite bind_run by reflexivity. reflexivity.
  - done.
  - done.
Qed.


Lemma staged_files (file : str) (rest : list str) (content : bytes) (w : world) :
  files (staged file rest content w) = <[file := content]> (files w).
Proof. cbn. by rewrite alter_insert_fresh. Qed.

(** The first part of [process_streaming]: with the system refusing
    nothing, a free temporary name, an input that decodes and chunks that
    encode, the temporary file holds the bytes of the chunks and the commit
    block is entered. *)
Lemma process_streaming_staged (input_path encoding : str) (opt : dict)
    (output_path : str) (w : world) (tmp : str) (rest : list str) (c : codec)
    (data : bytes) (text : str) (rs : list (option str)) (content : bytes) :
  (forall s, faults w s = None) ->
  mkstemp_inner (staging_dir output_path) (tmp_names w) (files w) = Some (tmp, rest) ->
  codecs_lookup encoding = Some c ->
  files w !! input_path = Some data ->
  codec_decode c data = Decoded text ->
  line_results opt 0 (text_lines text) rs ->
  encode_chunks c (chunks (text_lines text) rs) = Some content ->
  process_streaming input_path encoding opt output_path w
  = (done_ <- commit tmp output_path (N.of_nat (length (text_lines text)), 0, None) ;;
     match done_ with
     | inl cancelled => ret cancelled
     | inr output_path =>
         ret (N.of_nat (length (text_lines text)),
              N.of_nat (length (chunks (text_lines text) rs)), Some output_path)
     end) (staged tmp rest content w).
Proof.
  intros Hquiet Htmp Hc Hdata Htext Hrs Hcontent.
  pose proof (mkstemp_inner_fresh _ _ _ _ _ Htmp) as Hfresh.
  assert (Hne : tmp ≠ input_path) by (intros ->; congruence).
  unfold process_streaming.
  erewrite bind_run by (by apply NamedTemporaryFile_run).
  cbn [tmp_name].
  erewrite bind_run; cycle 1.
  { apply with_tmp_run; cycle 2.
    - apply try_except_run.
      erewrite bind_run
        by (apply open_read_run;
            [apply Hquiet | cbn; by rewrite lookup_insert_ne | exact Hc]).
      unfold for_enumerate_lines. rewrite Htext. cbn [iter_lines fst snd].
      erewrite bind_run
        by (apply (streaming_loop_run opt (Tmpfile tmp c) _ 0 (0, 0) rs content);
            [apply Hquiet | exact Hrs | exact Hcontent]).
      reflexivity.
    - apply Hquiet.
    - cbn. apply elem_of_cons. by left. }
  reflexivity.
Qed.

(** The staging step on its own, under the same conditions. *)
Lemma stage_streaming_run (input_path encoding : str) (opt : dict)
    (output_path : str) (w : world) (tmp : str) (rest : list str) (c : codec)
    (data : bytes) (text : str) (rs : list (option str)) (content : bytes) :
  (forall s, faults w s = None) ->
  mkstemp_inner (staging_dir output_path) (tmp_names w) (files w) = Some (tmp, rest) ->
  codecs_lookup encoding = Some c ->
  files w !! input_path = Some data ->
  codec_decode c data = Decoded text ->
  line_results opt 0 (text_lines text) rs ->
  encode_chunks c (chunks (text_lines text) rs) = Some content ->
  stage_streaming input_path encoding opt output_path w
  = (Ok (Tmpfile tmp c, (N.of_nat (length (text_lines text)),
                         N.of_nat (length (chunks (text_lines text) rs)))),
     staged tmp rest content w).
Proof.
  intros Hquiet Htmp Hc Hdata Htext Hrs Hcontent.
  pose proof (mkstemp_inner_fresh _ _ _ _ _ Htmp) as Hfresh.
  assert (Hne : tmp ≠ input_path) by (intros ->; congruence).
  unfold stage_streaming.
  erewrite bind_run by (by apply NamedTemporaryFile_run).
  cbn [tmp_name].
  erewrite bind_run; cycle 1.
  { apply with_tmp_run; cycle 2.
    - apply try_except_run.
      erewrite bind_run
        by (apply open_read_run;
            [apply Hquiet | cbn; by rewrite lookup_insert_ne | exact Hc]).
      unfold for_enumerate_lines. rewrite Htext. cbn [iter_lines fst snd].
      erewrite bind_run
        by (apply (streaming_loop_run opt (Tmpfile tmp c) _ 0 (0, 0) rs content);
            [apply Hquiet | exact Hrs | exact Hcontent]).
      reflexivity.
    - apply Hquiet.
    - cbn. apply elem_of_cons. by left. }
  reflexivity.
Qed.

(** The same for [process_reverse], once the warning was answered with
    something else than ["n"]. *)
Lemma process_reverse_staged (input_path encoding : str) (opt : dict)
    (output_path : str) (w : world) (answer : str) (typed : list str)
    (tmp : str) (rest : list str) (c : codec)
    (data : bytes) (text : str) (rs : list (option str)) (content : bytes) :
  (forall s, faults w s = None) ->
  stdin w = answer :: typed -> str_lower (Str.strip answer) ≠ u "n" ->
  mkstemp_inner (staging_dir output_path) (tmp_names w) (files w) = Some (tmp, rest) ->
  codecs_lookup encoding = Some c ->
  files w !! input_path = Some data ->
  codec_decode c data = Decoded text ->
  line_results opt 0 (text_lines text) rs ->
  encode_chunks c (reverse (chunks (text_lines text) rs)) = Some content ->
  process_reverse input_path encoding opt output_path w
  = (done_ <- commit tmp output_path (0, 0, None) ;;
     match done_ with
     | inl cancelled => ret cancelled
     | inr output_path =>
         ret (N.of_nat (length (text_lines text)),
              N.of_nat (length (chunks (text_lines text) rs)), Some output_path)
     end) (staged tmp rest content (warned typed w)).
Proof.
  intros Hquiet Hstdin Hanswer Htmp Hc Hdata Htext Hrs Hcontent.
  unfold process_reverse.
  erewrite bind_run by reflexivity.
  erewrite bind_run by (by apply input_run).
  rewrite (bool_decide_eq_false_2 (str_lower (Str.strip answer) = u "n")) by done.
  erewrite bind_run by (apply open_read_run; [apply Hquiet | exact Hdata | exact Hc]).
  unfold readlines. rewrite Htext. cbn [iter_lines]. unfold ret at 1, bind at 1.
  erewrite bind_run by (by apply (reverse_loop_run opt _ 0 [] rs)).
  rewrite app_nil_l.
  erewrite bind_run
    by (apply NamedTemporaryFile_run; [apply Hquiet | exact Htmp | exact Hc]).
  cbn [tmp_name].
  erewrite bind_run; cycle 1.
  { apply with_tmp_run; cycle 2.
    - apply tmp_writelines_run; [apply Hquiet | exact Hcontent].
    - apply Hquiet.
    - cbn. apply elem_of_cons. by left. }
  reflexivity.
Qed.


(** With a destination that exists, the overwrite declined and [q] for a
    new name, [process_streaming] returns the number of lines read and 0, and
    the files are as before. *)
Lemma process_streaming_cancels (input_path encoding : str) (opt : dict)
    (output_path : str) (w : world) (tmp : str) (rest : list str) (c : codec)
    (data : bytes) (text : str) (rs : list (option str)) (content : bytes)
    (resp new_name : str) (typed : list str) :
  (forall s, faults w s = None) ->
  mkstemp_inner (staging_dir output_path) (tmp_names w) (files w) = Some (tmp, rest) ->
  codecs_lookup encoding = Some c ->
  files w !! input_path = Some data ->
  codec_decode c data = Decoded text ->
  line_results opt 0 (text_lines text) rs ->
  encode_chunks c (chunks (text_lines text) rs) = Some content ->
  is_Some (files w !! output_path) ->
  stdin w = resp :: new_name :: typed ->
  str_lower (Str.strip resp) ≠ u "y" ->
  str_lower (Str.strip new_name) = u "q" ->
  exists w',
    process_streaming input_path encoding opt output_path w
    = (Ok (N.of_nat (length (text_lines text)), 0, None), w')
    /\ files w' = files w.
Proof.
  intros Hquiet Htmp Hc Hdata Htext Hrs Hcontent Hout Hstdin Hresp Hname.
  pose proof (mkstemp_inner_fresh _ _ _ _ _ Htmp) as Hfresh.
  rewrite (process_streaming_staged _ _ _ _ _ _ _ _ _ _ _ _
             Hquiet Htmp Hc Hdata Htext Hrs Hcontent).
  destruct (commit_cancel_run tmp output_path
              (N.of_nat (length (text_lines text)), 0, None)
              (staged tmp rest content w) resp new_name typed)
    as (w' & Hcommit & Hfiles & _); try done.
  - apply Hquiet.
  - rewrite staged_files, lookup_insert_ne; [done|]. intros ->.
    rewrite Hfresh in Hout. by destruct Hout.
  - rewrite staged_files, lookup_insert_eq. by eexists.
  - exists w'. split; [by erewrite bind_run by exact Hcommit|].
    by rewrite Hfiles, staged_files, delete_insert_eq, delete_id.
Qed.


Lemma process_reverse_cancels (input_path encoding : str) (opt : dict)
    (output_path : str) (w : world) (answer : str)
    (tmp : str) (rest : list str) (c : codec)
    (data : bytes) (text : str) (rs : list (option str)) (content : bytes)
    (resp new_name : str) (typed : list str) :
  (forall s, faults w s = None) ->
  stdin w = answer :: resp :: new_name :: typed ->
  str_lower (Str.strip answer) ≠ u "n" ->
  mkstemp_inner (staging_dir output_path) (tmp_names w) (files w) = Some (tmp, rest) ->
  codecs_lookup encoding = Some c ->
  files w !! input_path = Some data ->
  codec_decode c data = Decoded text ->
  line_results opt 0 (text_lines text) rs ->
  encode_chunks c (reverse (chunks (text_lines text) rs)) = Some content ->
  is_Some (files w !! output_path) ->
  str_lower (Str.strip resp) ≠ u "y" ->
  str_lower (Str.strip new_name) = u "q" ->
  exists w',
    process_reverse input_path encoding opt output_path w = (Ok (0, 0, None), w')
    /\ files w' = files w.
Proof.
  intros Hquiet Hstdin Hanswer Htmp Hc Hdata Htext Hrs Hcontent Hout Hresp Hname.
  pose proof (mkstemp_inner_fresh _ _ _ _ _ Htmp) as Hfresh.
  rewrite (process_reverse_staged _ _ _ _ _ _ _ _ _ _ _ _ _ _
             Hquiet Hstdin Hanswer Htmp Hc Hdata Htext Hrs Hcontent).
  destruct (commit_cancel_run tmp output_path (0, 0, None)
              (staged tmp rest content (warned (resp :: new_name :: typed) w))
              resp new_name typed)
    as (w' & Hcommit & Hfiles & _); try done.
  - apply Hquiet.
  - rewrite staged_files. cbn. rewrite lookup_insert_ne; [done|]. intros ->.
    rewrite Hfresh in Hout. by destruct Hout.
  - rewrite staged_files, lookup_insert_eq. by eexists.
  - exists w'. split; [by erewrite bind_run by exact Hcommit|].
    rewrite Hfiles, staged_files, delete_insert_eq. cbn. by rewrite delete_id.
Qed.


End PipelineRuns.

(** * The transformations *)

Section Transformations.
Context `{Python}.

(** C1, as the code has it: [Replace] with an empty target (or none) hands
    the content to [str.replace] with [""], which puts the replacement
    before every character and at the end; the content comes back unchanged
    exactly when the replacement is empty too. *)
Theorem replace_empty_target (core_text : str) (idx : N) (opt : dict) :
  opt !! u "choice" = Some (u "5") ->
  default (u "") (opt !! u "target") = [] ->
  exists out,
    transform_line_core core_text idx opt = Ok (Some out)
    /\ out = default (u "") (opt !! u "replacement")
             ++ (core_text ≫= fun c => c :: default (u "") (opt !! u "replacement"))
    /\ length out
       = (length core_text
          + (length core_text + 1) * length (default (u "") (opt !! u "replacement")))%nat
    /\ (out = core_text <-> default (u "") (opt !! u "replacement") = []).
Proof.
  intros Hchoice Htarget.
  exists (Str.replace core_text [] (default (u "") (opt !! u "replacement"))).
  split; [|split; [done|split]].
  - unfold transform_line_core. rewrite Hchoice, Htarget.
    by repeat case_bool_decide.
  - apply replace_empty_length.
  - apply replace_empty_unchanged.
Qed.

(** C8: [AddLineNumbers] puts before the content a field of decimal digits
    that denotes [idx + 1], then [": "]; the field has four characters
    (zero-padded) up to line 9999 and is the plain, longer decimal numeral of
    [idx + 1] from index 9999 on. So ["foo"], ["bar"] at indices 0 and 1
    become ["0001: foo"], ["0002: bar"]. *)
Theorem add_line_numbers (core_text : str) (idx : N) (opt : dict) :
  opt !! u "choice" = Some (u "1") ->
  (exists field,
     transform_line_core core_text idx opt = Ok (Some (field ++ u ": " ++ core_text))
     /\ Forall (fun c => 48 <= c <= 57) field
     /\ Str.to_int field = Some (idx + 1)
     /\ (4 <= length field)%nat
     /\ (idx < 9999 -> length field = 4%nat)
     /\ (9999 <= idx -> field = Str.of_int (idx + 1) /\ (4 < length field)%nat))
  /\ transform_line_core (u "foo") 0 opt = Ok (Some (u "0001: foo"))
  /\ transform_line_core (u "bar") 1 opt = Ok (Some (u "0002: bar")).
Proof.
  intros Hchoice.
  assert (Hrun : forall core i,
    transform_line_core core i opt = Ok (Some (Str.format_04d (i + 1) ++ u ": " ++ core))).
  { intros core i. unfold transform_line_core. rewrite Hchoice. by case_bool_decide. }
  split; [|by rewrite !Hrun].
  exists (Str.format_04d (idx + 1)).
  destruct (format_04d_spec (idx + 1)) as (Hdigits & Hvalue & Hshort & Hlong).
  repeat split; try done.
  - destruct (N.lt_ge_cases (idx + 1) 10000) as [Hlt|Hge].
    + rewrite Hshort by done. lia.
    + destruct (Hlong Hge). lia.
  - intros Hidx. apply Hshort. lia.
  - apply Hlong. lia.
  - apply Hlong. lia.
Qed.

End Transformations.

(** The claim C1 read literally fails: with target [""] and replacement
    ["-"], ["ab"] becomes ["-a-b-"]. *)
Lemma replace_empty_target_inserts :
  transform_line_core (H := Example.posix) (u "ab") 0
    {[ u "choice" := u "5"; u "target" := u ""; u "replacement" := u "-" ]}
  = Ok (Some (u "-a-b-"))
  /\ transform_line_core (H := Example.posix) (u "ab") 0
       {[ u "choice" := u "5"; u "target" := u ""; u "replacement" := u "-" ]}
     <> Ok (Some (u "ab")).
Proof. split; [by vm_compute | by vm_compute]. Qed.

Lemma replace_empty_target_witness :
  exists out,
    transform_line_core (H := Example.posix) (u "ab") 0
      {[ u "choice" := u "5"; u "replacement" := u "-" ]} = Ok (Some out)
    /\ out = default (u "") (({[ u "choice" := u "5"; u "replacement" := u "-" ]} : dict)
                              !! u "replacement")
             ++ (u "ab" ≫= fun c => c :: default (u "")
                   (({[ u "choice" := u "5"; u "replacement" := u "-" ]} : dict)
                      !! u "replacement"))
    /\ length out
       = (length (u "ab")
          + (length (u "ab") + 1)
            * length (default (u "")
                        (({[ u "choice" := u "5"; u "replacement" := u "-" ]} : dict)
                           !! u "replacement")))%nat
    /\ (out = u "ab"
        <-> default (u "") (({[ u "choice" := u "5"; u "replacement" := u "-" ]} : dict)
                              !! u "replacement") = []).
Proof.
  apply (replace_empty_target (H := Example.posix) (u "ab") 0
           {[ u "choice" := u "5"; u "replacement" := u "-" ]});
    vm_compute; reflexivity.
Defined.

Lemma add_line_numbers_witness :
  (exists field,
     transform_line_core (H := Example.posix) (u "line") 12344 {[ u "choice" := u "1" ]}
     = Ok (Some (field ++ u ": " ++ u "line"))
     /\ Forall (fun c => 48 <= c <= 57) field
     /\ Str.to_int field = Some (12344 + 1)
     /\ (4 <= length field)%nat
     /\ (12344 < 9999 -> length field = 4%nat)
     /\ (9999 <= 12344 -> field = Str.of_int (12344 + 1) /\ (4 < length field)%nat))
  /\ transform_line_core (H := Example.posix) (u "foo") 0 {[ u "choice" := u "1" ]}
     = Ok (Some (u "0001: foo"))
  /\ transform_line_core (H := Example.posix) (u "bar") 1 {[ u "choice" := u "1" ]}
     = Ok (Some (u "0002: bar")).
Proof.
  apply (add_line_numbers (H := Example.posix) (u "line") 12344 {[ u "choice" := u "1" ]}).
  vm_compute; reflexivity.
Defined.

(** * The encoding probe *)

Section EncodingProbe.
Context `{Python}.

Lemma probe_world (filename enc : str) (w w' : world) (r : result str) :
  probe filename enc w = (r, w') -> w' = w.
Proof.
  unfold probe, bind.
  destruct (open_read filename enc w) as [[src|e] w1] eqn:Hopen;
    apply open_read_world in Hopen as ->.
  - apply readline_world.
  - by intros [= _ <-].
Qed.

(** One round of the loop of [choose_encoding_try]. *)
Lemma choose_encoding_try_cons (filename enc : str) (rest : list str) (w : world) :
  choose_encoding_try filename (enc :: rest) w
  = match fst (probe filename enc w) with
    | Ok _ => (Ok enc, w)
    | Raise UnicodeDecodeError => choose_encoding_try filename rest w
    | Raise e => (Raise e, w)
    end.
Proof.
  destruct (probe filename enc w) as [r w1] eqn:Hprobe.
  pose proof (probe_world _ _ _ _ _ Hprobe) as ->.
  simpl choose_encoding_try. unfold try_except, bind at 1.
  unfold probe, bind in Hprobe.
  destruct (open_read filename enc w) as [[src|e] w1]; simpl.
  - unfold bind, ret. rewrite Hprobe. simpl. by destruct r as [line|[]].
  - injection Hprobe as <- <-. by destruct e.
Qed.

(** C7: [choose_encoding_try] returns a candidate exactly when that
    candidate decodes the probe read and every candidate before it failed
    with [UnicodeDecodeError], so it is the first one in priority order that
    decodes; it raises [UnicodeDecodeError] exactly when every candidate
    failed to decode. The file is only read. *)
Theorem choose_encoding_try_first (filename : str) (encodings : list str) (w : world) :
  (forall pre enc post,
      encodings = pre ++ enc :: post ->
      Forall (fun e => fst (probe filename e w) = Raise UnicodeDecodeError) pre ->
      (exists line, fst (probe filename enc w) = Ok line) ->
      choose_encoding_try filename encodings w = (Ok enc, w))
  /\ (forall enc w',
        choose_encoding_try filename encodings w = (Ok enc, w') ->
        w' = w
        /\ exists pre post,
             encodings = pre ++ enc :: post
             /\ Forall (fun e => fst (probe filename e w) = Raise UnicodeDecodeError) pre
             /\ exists line, fst (probe filename enc w) = Ok line)
  /\ (fst (choose_encoding_try filename encodings w) = Raise UnicodeDecodeError
      <-> Forall (fun e => fst (probe filename e w) = Raise UnicodeDecodeError) encodings).
Proof.
  split; [|split].
  - intros pre enc post -> Hpre [line Hline].
    induction Hpre as [|e pre He Hpre IH]; simpl app; rewrite choose_encoding_try_cons.
    + by rewrite Hline.
    + by rewrite He.
  - induction encodings as [|e encodings IH]; intros enc w'; [done|].
    rewrite choose_encoding_try_cons.
    destruct (fst (probe filename e w)) as [line|err] eqn:He.
    + intros [= <- <-]. split; [done|]. exists [], encodings.
      split; [done|]. split; [constructor | by exists line].
    + destruct err; try done.
      intros (-> & pre & post & -> & Hpre & Hline)%IH. split; [done|].
      exists (e :: pre), post. split; [done|]. split; [by constructor | done].
  - induction encodings as [|e encodings IH]; [done|].
    rewrite choose_encoding_try_cons, Forall_cons.
    destruct (fst (probe filename e w)) as [line|err] eqn:He.
    + simpl. split; [done | by intros [? _]].
    + destruct err; simpl; try (split; [done | by intros [? _]]).
      rewrite IH. split; [done | by intros [_ ?]].
Qed.

End EncodingProbe.

(** A file that [ascii] cannot decode and [latin-1] can: the second candidate
    is chosen. *)
Lemma choose_encoding_try_witness :
  choose_encoding_try (H := Example.posix) (u "in.txt") [u "ascii"; u "latin-1"]
    (World {[ u "in.txt" := [xe9; x0a] ]} [] [] [] [] Example.no_faults)
  = (Ok (u "latin-1"),
     World {[ u "in.txt" := [xe9; x0a] ]} [] [] [] [] Example.no_faults).
Proof.
  apply (proj1 (choose_encoding_try_first (H := Example.posix) (u "in.txt")
                  [u "ascii"; u "latin-1"]
                  (World {[ u "in.txt" := [xe9; x0a] ]} [] [] [] [] Example.no_faults))
           [u "ascii"] (u "latin-1") []).
  - reflexivity.
  - apply Forall_singleton. vm_compute. reflexivity.
  - exists [233; 10]. vm_compute. reflexivity.
Defined.

(** * The pipelines *)

Section Pipelines.
Context `{Python}.

Lemma text_lines_shape (text : str) : Forall line_shape (text_lines text).
Proof. apply splitlines_shape. Qed.

Lemma text_lines_no_cr (text : str) : Forall (fun l => CR ∉ l) (text_lines text).
Proof.
  apply Forall_forall. intros l Hl Hcr.
  apply (universal_newlines_no_cr text).
  rewrite <- (concat_splitlines (Str.universal_newlines text)).
  apply list_elem_of_In, in_concat. exists l.
  by rewrite <- !list_elem_of_In.
Qed.

(** [ReverseLines] and [Identity] hand the content back. *)
Lemma transform_passthrough (core : str) (idx : N) (opt : dict) :
  opt !! u "choice" = Some (u "6") \/ opt !! u "choice" = Some (u "7") ->
  transform_line_core core idx opt = Ok (Some core).
Proof.
  unfold transform_line_core. intros [-> | ->]; by repeat case_bool_decide.
Qed.

Lemma chunks_passthrough (opt : dict) (lines : list str) :
  opt !! u "choice" = Some (u "6") \/ opt !! u "choice" = Some (u "7") ->
  Forall line_shape lines -> Forall (fun l => CR ∉ l) lines ->
  forall (idx : N) (rs : list (option str)),
  line_results opt idx lines rs -> chunks lines rs = lines.
Proof.
  intros Hopt Hshape Hcr.
  induction lines as [|l lines IH]; intros idx [|r rs]; simpl; try done.
  apply Forall_cons in Hshape as [Hl Hshape]. apply Forall_cons in Hcr as [Hlcr Hcr].
  intros [Hr Hrs]. rewrite transform_passthrough in Hr by done.
  injection Hr as <-. rewrite chunks_cons. simpl.
  rewrite line_round_trip by done. f_equal. by apply (IH Hshape Hcr (N.succ idx)).
Qed.

Lemma translate_newlines_lf (s : str) : Str.translate_newlines [LF] s = s.
Proof.
  unfold Str.translate_newlines. induction s as [|c s IH]; [done|].
  rewrite bind_cons, IH. by destruct (N.eqb_spec c LF) as [->|].
Qed.

(** For a codec that encodes character by character, writing chunk by chunk
    is writing the whole text. *)
Lemma encode_chunks_concat (c : codec) (chunks : list str) :
  os_linesep = [LF] ->
  codec_encode c [] = Some [] ->
  (forall a b da db, codec_encode c a = Some da -> codec_encode c b = Some db ->
                     codec_encode c (a ++ b) = Some (da ++ db)) ->
  forall data, encode_chunks c chunks = Some data ->
               codec_encode c (concat chunks) = Some data.
Proof.
  intros Hsep Hnil Happ. induction chunks as [|x xs IH]; simpl; intros data.
  - by intros [= <-].
  - rewrite Hsep, translate_newlines_lf.
    destruct (codec_encode c x) as [dx|] eqn:Hx; [|done].
    destruct (encode_chunks c xs) as [more|]; [|done].
    intros [= <-]. by apply Happ; [|apply IH].
Qed.

(** C5, as the code has it: a pipeline never reports more lines written than
    read. For every choice other than the removal of blank lines the two
    counts are equal in every result of [process_reverse], a cancelled run
    reporting 0 and 0, and in every result of [process_streaming] that has a
    path. A cancelled run of [process_streaming] reports no line written,
    whatever the choice. *)
Theorem line_conservation (input_path encoding : str) (opt : dict)
    (output_path : str) (w : world) :
  (forall w' lines_read lines_written committed_path,
      process_streaming input_path encoding opt output_path w
        = (Ok (lines_read, lines_written, committed_path), w') ->
      lines_written <= lines_read
      /\ (opt !! u "choice" ≠ Some (u "4") -> is_Some committed_path ->
          lines_written = lines_read)
      /\ (committed_path = None -> lines_written = 0))
  /\ (forall w' lines_read lines_written committed_path,
        process_reverse input_path encoding opt output_path w
          = (Ok (lines_read, lines_written, committed_path), w') ->
        lines_written <= lines_read
        /\ (opt !! u "choice" ≠ Some (u "4") -> lines_written = lines_read)
        /\ (committed_path = None -> lines_read = 0 /\ lines_written = 0)).
Proof.
  split; intros w' lines_read lines_written committed_path Hrun.
  - apply process_streaming_ok in Hrun
      as (tmp & data & text & rs & content & _ & _ & _ & _ & Hrs & _ & Hres).
    destruct Hres as [[[= -> -> ->] _]|(path & [= -> -> ->] & _)].
    + split; [lia|]. split; [by intros _ [? [=]] | done].
    + pose proof (chunks_length (text_lines text) rs). split; [lia|].
      split; [|done]. intros Hopt _. by rewrite (chunks_all_kept opt _ Hopt 0 rs).
  - apply process_reverse_ok in Hrun as [[[= -> -> ->] _]|Hrun].
    + split; [lia|]. by split.
    + destruct Hrun as (c & data & text & rs & content & path & _ & _ & _ & Hrs & _
                        & [= -> -> ->] & _).
      pose proof (chunks_length (text_lines text) rs). split; [lia|].
      split; [|done]. intros Hopt. by rewrite (chunks_all_kept opt _ Hopt 0 rs).
Qed.

(** C10: the cancelled runs and their results. [process_streaming] is its
    staging step followed by the commit block. When it returns no path, the
    staging step had ended with the temporary file holding the bytes of all
    the kept chunks and with their number as the count of lines written;
    the commit block then removed that file and returned the number of lines
    read with 0 in place of the count, and the files are as before.
    [process_reverse] returns 0 and 0 with the files as before. These results
    are reached: answering ["n"] to the warning makes [process_reverse] return
    [(0, 0, None)] at once, and with a destination that exists, the overwrite
    declined and [q] given as the new name, a pipeline that the system
    refuses nothing returns [(lines_read, 0, None)] ([process_streaming],
    after staging every chunk) or [(0, 0, None)] ([process_reverse]). *)
Theorem cancellation_results (input_path encoding : str) (opt : dict)
    (output_path : str) (w : world) :
  process_streaming input_path encoding opt output_path w
  = (st <- stage_streaming input_path encoding opt output_path ;;
     done_ <- commit (tmp_name (fst st)) output_path (fst (snd st), 0, None) ;;
     match done_ with
     | inl cancelled => ret cancelled
     | inr output_path => ret (fst (snd st), snd (snd st), Some output_path)
     end) w
  /\ (forall w' lines_read lines_written,
        process_streaming input_path encoding opt output_path w
          = (Ok (lines_read, lines_written, None), w') ->
        lines_written = 0 /\ files w' = files w
        /\ exists tmp data text rs staged w1,
             stage_streaming input_path encoding opt output_path w
             = (Ok (tmp, (lines_read, N.of_nat (length (chunks (text_lines text) rs)))),
                w1)
             /\ files w !! tmp_name tmp = None
             /\ files w1 = <[tmp_name tmp := staged]> (files w)
             /\ commit (tmp_name tmp) output_path (lines_read, 0, None) w1
                = (Ok (inl (lines_read, 0, None)), w')
             /\ <[tmp_name tmp := []]> (files w) !! input_path = Some data
             /\ codec_decode (tmp_codec tmp) data = Decoded text
             /\ line_results opt 0 (text_lines text) rs
             /\ encode_chunks (tmp_codec tmp) (chunks (text_lines text) rs) = Some staged
             /\ lines_read = N.of_nat (length (text_lines text)))
  /\ (forall w' lines_read lines_written,
        process_reverse input_path encoding opt output_path w
          = (Ok (lines_read, lines_written, None), w') ->
        lines_read = 0 /\ lines_written = 0 /\ files w' = files w)
  /\ (forall answer typed,
        stdin w = answer :: typed -> str_lower (Str.strip answer) = u "n" ->
        fst (process_reverse input_path encoding opt output_path w) = Ok (0, 0, None))
  /\ (forall tmp rest c data text rs staged resp new_name typed,
        (forall s, faults w s = None) ->
        mkstemp_inner (staging_dir output_path) (tmp_names w) (files w)
          = Some (tmp, rest) ->
        codecs_lookup encoding = Some c ->
        files w !! input_path = Some data ->
        codec_decode c data = Decoded text ->
        line_results opt 0 (text_lines text) rs ->
        encode_chunks c (chunks (text_lines text) rs) = Some staged ->
        is_Some (files w !! output_path) ->
        stdin w = resp :: new_name :: typed ->
        str_lower (Str.strip resp) ≠ u "y" ->
        str_lower (Str.strip new_name) = u "q" ->
        exists w1 w',
          stage_streaming input_path encoding opt output_path w
          = (Ok (Tmpfile tmp c, (N.of_nat (length (text_lines text)),
                                 N.of_nat (length (chunks (text_lines text) rs)))), w1)
          /\ files w1 = <[tmp := staged]> (files w)
          /\ process_streaming input_path encoding opt output_path w
             = (Ok (N.of_nat (length (text_lines text)), 0, None), w')
          /\ files w' = files w)
  /\ (forall answer tmp rest c data text rs staged resp new_name typed,
        (forall s, faults w s = None) ->
        stdin w = answer :: resp :: new_name :: typed ->
        str_lower (Str.strip answer) ≠ u "n" ->
        mkstemp_inner (staging_dir output_path) (tmp_names w) (files w)
          = Some (tmp, rest) ->
        codecs_lookup encoding = Some c ->
        files w !! input_path = Some data ->
        codec_decode c data = Decoded text ->
        line_results opt 0 (text_lines text) rs ->
        encode_chunks c (reverse (chunks (text_lines text) rs)) = Some staged ->
        is_Some (files w !! output_path) ->
        str_lower (Str.strip resp) ≠ u "y" ->
        str_lower (Str.strip new_name) = u "q" ->
        exists w',
          process_reverse input_path encoding opt output_path w = (Ok (0, 0, None), w')
          /\ files w' = files w).
Proof.
  split; [apply process_streaming_stages|].
  split; [|split; [|split; [|split]]].
  - intros w' lines_read lines_written Hrun.
    rewrite process_streaming_stages in Hrun.
    apply bind_ok in Hrun as ([tmp counters] & w1 & Hstage & Hrest).
    apply bind_ok in Hrest as (done_ & w2 & Hcommit & Hret).
    pose proof Hstage
      as (Hfresh & data & text & rs & content & Hdata & Hcodec & Htext & Hrs & Hcontent
          & -> & Hw1)%stage_streaming_ok.
    cbn [fst snd] in Hcommit, Hret.
    pose proof Hcommit as [(-> & _ & Hw2)|(path & content' & -> & _ & _)]%commit_ok;
      apply ret_ok in Hret as [[= Hread Hwritten] ->]; subst lines_read lines_written.
    split; [done|]. split; [by rewrite Hw2, Hw1, delete_insert_eq, delete_id|].
    by exists tmp, data, text, rs, content, w1.
  - intros w' lines_read lines_written Hrun.
    apply process_reverse_ok in Hrun as [[[= -> ->] Hw']|Hrun]; [done|].
    by destruct Hrun as (? & ? & ? & ? & ? & ? & _ & _ & _ & _ & _ & [=] & _).
  - intros answer typed Hstdin Hanswer.
    unfold process_reverse.
    erewrite bind_run by reflexivity.
    erewrite bind_run by (by apply input_run).
    rewrite Hanswer, bool_decide_eq_true_2 by done.
    by erewrite bind_run by reflexivity.
  - intros tmp rest c data text rs staged_bytes resp new_name typed Hquiet Htmp Hc Hdata
      Htext Hrs Hcontent Hout Hstdin Hresp Hname.
    destruct (process_streaming_cancels input_path encoding opt output_path w tmp rest c
                data text rs staged_bytes resp new_name typed) as (w' & Hrun & Hw');
      try done.
    exists (staged tmp rest staged_bytes w), w'.
    split; [by apply (stage_streaming_run _ _ _ _ _ _ _ _ data)|].
    split; [apply staged_files | by split].
  - intros. by eapply process_reverse_cancels.
Qed.




End Pipelines.

(** * The codec [latin-1] of the examples *)

Section Latin1.

Lemma latin1_encode_app (a b : str) (da db : bytes) :
  Example.latin1_encode a = Some da -> Example.latin1_encode b = Some db ->
  Example.latin1_encode (a ++ b) = Some (da ++ db).
Proof.
  unfold Example.latin1_encode. rewrite !mapM_Some. apply Forall2_app.
Qed.


End Latin1.

(** * The pipelines on concrete inputs *)

Section Runs.
Import Example.

(** The claim C5 read literally fails: [Identity] on a file of two lines,
    the output existing, the overwrite declined and the new name [q]: two
    lines read, none reported written. *)
Lemma cancelled_streaming_reports_no_line :
  fst (process_streaming (u "in.txt") (u "latin-1") identity (u "out.txt")
         (world_with {[ u "in.txt" := foo_bar; u "out.txt" := b "old" ]}
            [u "n"; u "q"] no_faults))
  = Ok (2, 0, None)
  /\ identity !! u "choice" = Some (u "7")
  /\ (0 : N) <> 2.
Proof. split; [by vm_compute | split; [by vm_compute | done]]. Qed.

Lemma line_conservation_witness :
  (2 <= 2
   /\ (identity !! u "choice" ≠ Some (u "4") -> is_Some (Some (u "out.txt")) ->
       (2 : N) = 2)
   /\ (Some (u "out.txt") = None -> (2 : N) = 0))
  /\ (0 <= 2
      /\ (identity !! u "choice" ≠ Some (u "4") -> is_Some (@None str) -> (0 : N) = 2)
      /\ (@None str = None -> (0 : N) = 0))
  /\ (1 <= 3
      /\ (({[ u "choice" := u "4" ]} : dict) !! u "choice" ≠ Some (u "4") -> (1 : N) = 3)
      /\ (Some (u "out.txt") = None -> (3 : N) = 0 /\ (1 : N) = 0)).
Proof.
  split; [|split].
  - apply (proj1 (line_conservation (u "in.txt") (u "latin-1") identity (u "out.txt")
                    (world_with {[ u "in.txt" := foo_bar ]} [] no_faults))
             (snd (process_streaming (u "in.txt") (u "latin-1") identity (u "out.txt")
                     (world_with {[ u "in.txt" := foo_bar ]} [] no_faults)))).
    vm_compute. reflexivity.
  - apply (proj1 (line_conservation (u "in.txt") (u "latin-1") identity (u "out.txt")
                    (world_with {[ u "in.txt" := foo_bar; u "out.txt" := b "old" ]}
                       [u "n"; u "q"] no_faults))
             (snd (process_streaming (u "in.txt") (u "latin-1") identity (u "out.txt")
                     (world_with {[ u "in.txt" := foo_bar; u "out.txt" := b "old" ]}
                        [u "n"; u "q"] no_faults)))).
    vm_compute. reflexivity.
  - apply (proj2 (line_conservation (u "in.txt") (u "latin-1") {[ u "choice" := u "4" ]}
                    (u "out.txt")
                    (world_with {[ u "in.txt" := b "a" ++ [x0a; x20; x0a; x0a] ]} [u "y"]
                       no_faults))
             (snd (process_reverse (u "in.txt") (u "latin-1") {[ u "choice" := u "4" ]}
                     (u "out.txt")
                     (world_with {[ u "in.txt" := b "a" ++ [x0a; x20; x0a; x0a] ]}
                        [u "y"] no_faults)))).
    vm_compute. reflexivity.
Defined.






Lemma cancellation_results_witness :
  (exists w1 w',
     stage_streaming (u "in.txt") (u "latin-1") identity (u "out.txt")
       (world_with {[ u "in.txt" := foo_bar; u "out.txt" := b "old" ]}
          [u "n"; u "q"] no_faults)
     = (Ok (Tmpfile (u "./tmpabc") latin1, (2, 2)), w1)
     /\ files w1 = <[u "./tmpabc" := foo_bar]>
                     {[ u "in.txt" := foo_bar; u "out.txt" := b "old" ]}
     /\ process_streaming (u "in.txt") (u "latin-1") identity (u "out.txt")
          (world_with {[ u "in.txt" := foo_bar; u "out.txt" := b "old" ]}
             [u "n"; u "q"] no_faults)
        = (Ok (2, 0, None), w')
     /\ files w' = {[ u "in.txt" := foo_bar; u "out.txt" := b "old" ]})
  /\ (exists w',
        process_reverse (u "in.txt") (u "latin-1") reverse_lines (u "out.txt")
          (world_with {[ u "in.txt" := foo_bar; u "out.txt" := b "old" ]}
             [u "y"; u "n"; u "q"] no_faults)
        = (Ok (0, 0, None), w')
        /\ files w' = {[ u "in.txt" := foo_bar; u "out.txt" := b "old" ]})
  /\ fst (process_reverse (u "in.txt") (u "latin-1") reverse_lines (u "out.txt")
            (world_with {[ u "in.txt" := foo_bar ]} [u "N "] no_faults))
     = Ok (0, 0, None).
Proof.
  split; [|split].
  - destruct (cancellation_results (u "in.txt") (u "latin-1") identity (u "out.txt")
                (world_with {[ u "in.txt" := foo_bar; u "out.txt" := b "old" ]}
                   [u "n"; u "q"] no_faults))
      as (_ & _ & _ & _ & Hcancels & _).
    destruct (Hcancels (u "./tmpabc") [] latin1 foo_bar (Byte.to_N <$> foo_bar)
                [Some (u "foo"); Some (u "bar")] foo_bar (u "n") (u "q") [])
      as (w1 & w' & Hstage & Hstaged & Hrun & Hfiles).
    + reflexivity.
    + vm_compute. reflexivity.
    + vm_compute. reflexivity.
    + vm_compute. reflexivity.
    + reflexivity.
    + vm_compute. done.
    + vm_compute. reflexivity.
    + vm_compute. by eexists.
    + reflexivity.
    + by vm_compute.
    + vm_compute. reflexivity.
    + exists w1, w'. split; [exact Hstage|]. split; [exact Hstaged|].
      split; [exact Hrun | exact Hfiles].
  - destruct (cancellation_results (u "in.txt") (u "latin-1") reverse_lines (u "out.txt")
                (world_with {[ u "in.txt" := foo_bar; u "out.txt" := b "old" ]}
                   [u "y"; u "n"; u "q"] no_faults))
      as (_ & _ & _ & _ & _ & Hcancels).
    destruct (Hcancels (u "y") (u "./tmpabc") [] latin1 foo_bar (Byte.to_N <$> foo_bar)
                [Some (u "foo"); Some (u "bar")] bar_foo (u "n") (u "q") [])
      as (w' & Hrun & Hfiles).
    + reflexivity.
    + reflexivity.
    + by vm_compute.
    + vm_compute. reflexivity.
    + vm_compute. reflexivity.
    + vm_compute. reflexivity.
    + reflexivity.
    + vm_compute. done.
    + vm_compute. reflexivity.
    + vm_compute. by eexists.
    + by vm_compute.
    + vm_compute. reflexivity.
    + exists w'. split; [exact Hrun | exact Hfiles].
  - apply (proj1 (proj2 (proj2 (proj2 (cancellation_results (u "in.txt") (u "latin-1")
                                          reverse_lines (u "out.txt")
                                          (world_with {[ u "in.txt" := foo_bar ]} [u "N "]
                                             no_faults)))))
             (u "N ") []).
    + reflexivity.
    + vm_compute. reflexivity.
Defined.

(** C2 against the code. The disk is full: [process_reverse] creates the
    temporary file [./tmpabc], writing to it is refused, and the error leaves
    with the file still there, empty; nothing guards the step.
    [process_streaming] guards its writes, but the file is left here too:
    the refusal comes with the flush that closing performs, which happens at
    the end of the [with] block, outside the guard, or inside the guard, where
    the closing fails before the removal is reached. Without any fault of the
    system, a chunk that cannot be encoded ([Replace] of ["a"] by ["é"] on an
    [ascii] file) leaves the file behind in [process_reverse], whereas the
    guard of [process_streaming] removes it. *)
Theorem reverse_write_failure_leaves_staging_file :
  files (world_with {[ u "in.txt" := foo_bar ]} [u "y"] disk_full) !! u "./tmpabc" = None
  /\ fst (process_reverse (u "in.txt") (u "latin-1") reverse_lines (u "out.txt")
            (world_with {[ u "in.txt" := foo_bar ]} [u "y"] disk_full))
     = Raise OSError
  /\ files (snd (process_reverse (u "in.txt") (u "latin-1") reverse_lines (u "out.txt")
                   (world_with {[ u "in.txt" := foo_bar ]} [u "y"] disk_full)))
     = {[ u "in.txt" := foo_bar; u "./tmpabc" := [] ]}
  /\ fst (process_streaming (u "in.txt") (u "latin-1") identity (u "out.txt")
            (world_with {[ u "in.txt" := foo_bar ]} [] disk_full))
     = Raise OSError
  /\ files (snd (process_streaming (u "in.txt") (u "latin-1") identity (u "out.txt")
                   (world_with {[ u "in.txt" := foo_bar ]} [] disk_full)))
     = {[ u "in.txt" := foo_bar; u "./tmpabc" := [] ]}
  /\ fst (process_reverse (u "in.txt") (u "ascii") replace_a_by_e_acute (u "out.txt")
            (world_with {[ u "in.txt" := b "a" ++ [x0a] ]} [u "y"] no_faults))
     = Raise UnicodeEncodeError
  /\ files (snd (process_reverse (u "in.txt") (u "ascii") replace_a_by_e_acute
                   (u "out.txt")
                   (world_with {[ u "in.txt" := b "a" ++ [x0a] ]} [u "y"] no_faults)))
     = {[ u "in.txt" := b "a" ++ [x0a]; u "./tmpabc" := [] ]}
  /\ fst (process_streaming (u "in.txt") (u "ascii") replace_a_by_e_acute (u "out.txt")
            (world_with {[ u "in.txt" := b "a" ++ [x0a] ]} [] no_faults))
     = Raise UnicodeEncodeError
  /\ files (snd (process_streaming (u "in.txt") (u "ascii") replace_a_by_e_acute
                   (u "out.txt")
                   (world_with {[ u "in.txt" := b "a" ++ [x0a] ]} [] no_faults)))
     = {[ u "in.txt" := b "a" ++ [x0a] ]}.
Proof. repeat split; by vm_compute. Qed.

(** C3 against the code: [out.txt] and [other.txt] exist; the user declines
    to overwrite [out.txt] and names [other.txt]. Both pipelines ask once,
    about [out.txt], and rename onto [other.txt] without asking: its content
    is replaced, and the ["n"] the user would have typed is still unread. *)
Theorem new_path_is_overwritten_unasked :
  fst (process_streaming (u "in.txt") (u "latin-1") identity (u "out.txt")
         (world_with {[ u "in.txt" := foo_bar; u "out.txt" := b "old";
                        u "other.txt" := b "precious" ]}
            [u "n"; u "other.txt"; u "n"] no_faults))
  = Ok (2, 2, Some (u "other.txt"))
  /\ files (snd (process_streaming (u "in.txt") (u "latin-1") identity (u "out.txt")
                   (world_with {[ u "in.txt" := foo_bar; u "out.txt" := b "old";
                                  u "other.txt" := b "precious" ]}
                      [u "n"; u "other.txt"; u "n"] no_faults)))
     = {[ u "in.txt" := foo_bar; u "out.txt" := b "old"; u "other.txt" := foo_bar ]}
  /\ stdout (snd (process_streaming (u "in.txt") (u "latin-1") identity (u "out.txt")
                    (world_with {[ u "in.txt" := foo_bar; u "out.txt" := b "old";
                                   u "other.txt" := b "precious" ]}
                       [u "n"; u "other.txt"; u "n"] no_faults)))
     = [u "Output file 'out.txt' already exists. Overwrite? (y/N): ";
        u "Enter a new output filename (or 'q' to cancel): "]
  /\ stdin (snd (process_streaming (u "in.txt") (u "latin-1") identity (u "out.txt")
                   (world_with {[ u "in.txt" := foo_bar; u "out.txt" := b "old";
                                  u "other.txt" := b "precious" ]}
                      [u "n"; u "other.txt"; u "n"] no_faults)))
     = [u "n"]
  /\ fst (process_reverse (u "in.txt") (u "latin-1") reverse_lines (u "out.txt")
            (world_with {[ u "in.txt" := foo_bar; u "out.txt" := b "old";
                           u "other.txt" := b "precious" ]}
               [u "y"; u "n"; u "other.txt"; u "n"] no_faults))
     = Ok (2, 2, Some (u "other.txt"))
  /\ files (snd (process_reverse (u "in.txt") (u "latin-1") reverse_lines (u "out.txt")
                   (world_with {[ u "in.txt" := foo_bar; u "out.txt" := b "old";
                                  u "other.txt" := b "precious" ]}
                      [u "y"; u "n"; u "other.txt"; u "n"] no_faults)))
     = {[ u "in.txt" := foo_bar; u "out.txt" := b "old"; u "other.txt" := bar_foo ]}
  /\ stdin (snd (process_reverse (u "in.txt") (u "latin-1") reverse_lines (u "out.txt")
                   (world_with {[ u "in.txt" := foo_bar; u "out.txt" := b "old";
                                  u "other.txt" := b "precious" ]}
                      [u "y"; u "n"; u "other.txt"; u "n"] no_faults)))
     = [u "n"].
Proof. repeat split; by vm_compute. Qed.

End Runs.

(** * Further properties of the transformations *)

Section StripFacts.

Lemma lstrip_by_nil_iff (f : N -> bool) (s : str) :
  Str.lstrip_by f s = [] <-> Forall (fun c => f c = true) s.
Proof.
  induction s as [|c s IH]; simpl.
  - split; [constructor | done].
  - destruct (f c) eqn:Hc.
    + rewrite IH, Forall_cons. split; [done | by intros [_ ?]].
    + split; [done|]. intros [Hc' _]%Forall_cons. congruence.
Qed.

Lemma lstrip_by_stops (f : N -> bool) (s : str) :
  Forall (fun c => f c = true) (Str.lstrip_by f s) -> Str.lstrip_by f s = [].
Proof.
  induction s as [|c s IH]; simpl; [done|].
  destruct (f c) eqn:Hc; [done|]. intros [Hc' _]%Forall_cons. congruence.
Qed.

Lemma rstrip_by_nil_iff (f : N -> bool) (s : str) :
  Str.rstrip_by f s = [] <-> Forall (fun c => f c = true) s.
Proof.
  unfold Str.rstrip_by.
  rewrite <- (Forall_reverse _ s), <- lstrip_by_nil_iff.
  split; [intros Heq | by intros ->].
  by rewrite <- (reverse_involutive (Str.lstrip_by f (reverse s))), Heq.
Qed.

(** [s.strip() == ""] exactly when [s] consists of whitespace. *)
Lemma strip_nil_iff (s : str) :
  Str.strip s = [] <-> Forall (fun c => Str.isspace c = true) s.
Proof.
  unfold Str.strip. rewrite rstrip_by_nil_iff. split.
  - intros Hall. by apply lstrip_by_nil_iff, lstrip_by_stops.
  - intros Hall. apply lstrip_by_nil_iff in Hall. rewrite Hall. constructor.
Qed.

End StripFacts.

Section ReplaceFacts.

Lemma startswith_app (old rest : str) : Str.startswith (old ++ rest) old = true.
Proof.
  induction old as [|c old IH]; [by destruct rest|].
  simpl. by rewrite N.eqb_refl, IH.
Qed.

Lemma startswith_prefix (s old : str) :
  Str.startswith s old = true -> exists rest, s = old ++ rest.
Proof.
  revert s; induction old as [|c old IH]; intros s; [by exists s|].
  destruct s as [|c' s]; simpl; [done|].
  intros [Hc Hs]%andb_true_iff. apply N.eqb_eq in Hc as ->.
  destruct (IH s Hs) as [rest ->]. by exists rest.
Qed.

(** Passing over the rest of a match. *)
Lemma replace_scan_skip (old new x rest : str) :
  Str.replace_scan old new (length x) (x ++ rest) = Str.replace_scan old new 0 rest.
Proof.
  induction x as [|c x IH]; simpl; [|done].
  destruct rest; simpl; done.
Qed.

Lemma replace_scan_absent (old new s : str) :
  (forall i, Str.startswith (drop i s) old = false) ->
  Str.replace_scan old new 0 s = s.
Proof.
  induction s as [|c s IH]; intros Habsent; [done|].
  pose proof (Habsent 0%nat) as Hhere. cbn [drop] in Hhere.
  cbn [Str.replace_scan]. rewrite Hhere. f_equal.
  apply IH. intros i. apply (Habsent (S i)).
Qed.

Lemma replace_scan_first (old new before rest : str) :
  old ≠ [] ->
  (forall i, (i < length before)%nat ->
             Str.startswith (drop i (before ++ old ++ rest)) old = false) ->
  Str.replace_scan old new 0 (before ++ old ++ rest)
  = before ++ new ++ Str.replace_scan old new 0 rest.
Proof.
  intros Hold. induction before as [|c before IH]; intros Habsent.
  - destruct old as [|c old]; [done|].
    cbn [app Str.replace_scan length].
    change (c :: old ++ rest) with ((c :: old) ++ rest).
    rewrite startswith_app. f_equal.
    replace (S (length old) - 1)%nat with (length old) by lia.
    apply replace_scan_skip.
  - pose proof (Habsent 0%nat) as Hhere. cbn [drop app] in Hhere.
    cbn [app Str.replace_scan]. rewrite Hhere by (simpl; lia).
    f_equal. apply IH. intros i Hi. apply (Habsent (S i)). simpl. lia.
Qed.

(** Replacing a text by itself: at every state of the scan the output is
    what is left of the input. *)
Lemma replace_scan_same (old s : str) :
  old ≠ [] ->
  forall skip,
  (skip <= length old)%nat ->
  take skip s = drop (length old - skip) old ->
  Str.replace_scan old old skip s = drop skip s.
Proof.
  intros Hold. induction s as [|c s IH]; intros skip Hskip Htake.
  - by destruct skip.
  - destruct skip as [|skip]; cbn [Str.replace_scan drop].
    + destruct (Str.startswith (c :: s) old) eqn:Hstart.
      * apply startswith_prefix in Hstart as [rest Hrest].
        destruct old as [|c' old]; [done|].
        injection Hrest as -> ->.
        cbn [length]. replace (S (length old) - 1)%nat with (length old) by lia.
        rewrite IH.
        -- by rewrite drop_app_length.
        -- simpl. lia.
        -- rewrite take_app_length. simpl length.
           by replace (S (length old) - length old)%nat with 1%nat by lia.
      * f_equal. rewrite (IH 0%nat); [done | lia |].
        rewrite Nat.sub_0_r, drop_all. done.
    + apply IH; [lia|].
      cbn [take] in Htake.
      replace (length old - skip)%nat with (length old - S skip + 1)%nat by lia.
      rewrite <- drop_drop, <- Htake. done.
Qed.

Lemma replace_scan_char (c : N) (new s : str) :
  Str.replace_scan [c] new 0 s = s ≫= fun x => if x =? c then new else [x].
Proof.
  induction s as [|x s IH]; [done|].
  cbn [Str.replace_scan Str.startswith]. rewrite bind_cons.
  rewrite (N.eqb_sym c x). destruct (x =? c); simpl.
  - destruct s; by rewrite <- IH.
  - by rewrite IH.
Qed.

End ReplaceFacts.

Section MoreTransformations.
Context `{Python}.

Lemma transform_replace (core_text : str) (idx : N) (opt : dict) :
  opt !! u "choice" = Some (u "5") ->
  transform_line_core core_text idx opt
  = Ok (Some (Str.replace core_text (default (u "") (opt !! u "target"))
                (default (u "") (opt !! u "replacement")))).
Proof.
  intros Hchoice. unfold transform_line_core. rewrite Hchoice.
  by repeat case_bool_decide.
Qed.

(** X1: the removal of blank lines skips a line exactly when all its
    characters are whitespace (an empty line included) and hands every other
    line back as it is. *)
Theorem remove_blank_lines (core_text : str) (idx : N) (opt : dict) :
  opt !! u "choice" = Some (u "4") ->
  transform_line_core core_text idx opt
  = if forallb Str.isspace core_text then Ok None else Ok (Some core_text).
Proof.
  intros Hchoice. unfold transform_line_core. rewrite Hchoice.
  repeat (case_bool_decide; [done|]). case_bool_decide; [|done].
  destruct (forallb Str.isspace core_text) eqn:Hblank; case_bool_decide as Hstrip; try done.
  - exfalso. apply Hstrip, strip_nil_iff, Forall_forall. intros c Hc.
    by apply (proj1 (forallb_forall _ _) Hblank), list_elem_of_In.
  - apply strip_nil_iff in Hstrip.
    assert (forallb Str.isspace core_text = true); [|congruence].
    apply forallb_forall. intros c Hc%list_elem_of_In.
    by apply (proj1 (Forall_forall _ _) Hstrip).
Qed.

(** X2: [Replace] leaves alone a content in which the target does not
    occur. *)
Theorem replace_absent (core_text : str) (idx : N) (opt : dict) (target : str) :
  opt !! u "choice" = Some (u "5") ->
  opt !! u "target" = Some target -> target ≠ [] ->
  (forall i, Str.startswith (drop i core_text) target = false) ->
  transform_line_core core_text idx opt = Ok (Some core_text).
Proof.
  intros Hchoice Htarget Hne Habsent.
  rewrite transform_replace, Htarget by done. do 2 f_equal.
  destruct target as [|c tail]; [done|]. simpl default.
  by apply replace_scan_absent.
Qed.

(** X3: [Replace] works from the left and does not look into what it has
    replaced: when the first occurrence of the target starts after [before],
    the result is [before], the replacement, and the result for what follows
    the occurrence. *)
Theorem replace_first_occurrence (before rest : str) (idx : N) (opt : dict)
    (target replacement : str) :
  opt !! u "choice" = Some (u "5") ->
  opt !! u "target" = Some target -> target ≠ [] ->
  opt !! u "replacement" = Some replacement ->
  (forall i, (i < length before)%nat ->
             Str.startswith (drop i (before ++ target ++ rest)) target = false) ->
  exists replaced,
    transform_line_core rest idx opt = Ok (Some replaced)
    /\ transform_line_core (before ++ target ++ rest) idx opt
       = Ok (Some (before ++ replacement ++ replaced)).
Proof.
  intros Hchoice Htarget Hne Hrepl Habsent.
  rewrite !transform_replace, Htarget, Hrepl by done. simpl default.
  exists (Str.replace_scan target replacement 0 rest).
  assert (Hscan : forall s, Str.replace s target replacement
                            = Str.replace_scan target replacement 0 s).
  { intros s. unfold Str.replace. by destruct target. }
  rewrite !Hscan. split; [done|]. do 2 f_equal. by apply replace_scan_first.
Qed.

(** X4: [Replace] with a replacement equal to the target gives the content
    back. *)
Theorem replace_by_itself (core_text : str) (idx : N) (opt : dict) :
  opt !! u "choice" = Some (u "5") ->
  default (u "") (opt !! u "replacement") = default (u "") (opt !! u "target") ->
  transform_line_core core_text idx opt = Ok (Some core_text).
Proof.
  intros Hchoice Hsame. rewrite transform_replace, Hsame by done. do 2 f_equal.
  destruct (default (u "") (opt !! u "target")) as [|c tail] eqn:Htarget.
  - by apply replace_empty_unchanged.
  - unfold Str.replace.
    assert (Hne : c :: tail ≠ []) by done.
    rewrite (replace_scan_same (c :: tail) core_text Hne 0%nat).
    + done.
    + lia.
    + by rewrite Nat.sub_0_r, drop_all.
Qed.

(** X5: [Replace] with a target of one character replaces every occurrence
    of that character and keeps the other characters in place. *)
Theorem replace_character (core_text : str) (idx : N) (opt : dict) (c : N)
    (replacement : str) :
  opt !! u "choice" = Some (u "5") ->
  opt !! u "target" = Some [c] ->
  opt !! u "replacement" = Some replacement ->
  transform_line_core core_text idx opt
  = Ok (Some (core_text ≫= fun x => if x =? c then replacement else [x])).
Proof.
  intros Hchoice Htarget Hrepl.
  rewrite transform_replace, Htarget, Hrepl by done. simpl default.
  unfold Str.replace. by rewrite replace_scan_char.
Qed.

(** X6: [transform_line_core] raises only when the dictionary has no
    ["choice"], and then [KeyError]; with a choice it returns, the result is
    [None] only for choice ["4"] on a line of whitespace, and a choice that
    is none of ["1"] to ["5"] (unknown ones included) hands the content
    back. *)
Theorem transform_line_core_outcomes (core_text : str) (idx : N) (opt : dict) :
  (opt !! u "choice" = None -> transform_line_core core_text idx opt = Raise KeyError)
  /\ (forall choice,
        opt !! u "choice" = Some choice ->
        exists r,
          transform_line_core core_text idx opt = Ok r
          /\ (r = None ->
              choice = u "4" /\ Forall (fun c => Str.isspace c = true) core_text)
          /\ (choice ∉ [u "1"; u "2"; u "3"; u "4"; u "5"] -> r = Some core_text)).
Proof.
  split.
  - intros Hchoice. unfold transform_line_core. by rewrite Hchoice.
  - intros choice Hchoice. unfold transform_line_core. rewrite Hchoice.
    case_bool_decide as H1.
    { eexists. split; [reflexivity|]. split; [intros [=]|].
      intros Hnot. exfalso. apply Hnot. rewrite H1. apply list_elem_of_here. }
    case_bool_decide as H2.
    { eexists. split; [reflexivity|]. split; [intros [=]|].
      intros Hnot. exfalso. apply Hnot. rewrite H2.
      apply list_elem_of_further, list_elem_of_here. }
    case_bool_decide as H3.
    { eexists. split; [reflexivity|]. split; [intros [=]|].
      intros Hnot. exfalso. apply Hnot. rewrite H3.
      do 2 apply list_elem_of_further. apply list_elem_of_here. }
    case_bool_decide as H4.
    { assert (Hin : choice ∈ [u "1"; u "2"; u "3"; u "4"; u "5"]).
      { rewrite H4. do 3 apply list_elem_of_further. apply list_elem_of_here. }
      case_bool_decide as Hblank; eexists; (split; [reflexivity|]).
      - split; [|by intros Hnot]. intros _. split; [done|]. by apply strip_nil_iff.
      - split; [intros [=] | by intros Hnot]. }
    case_bool_decide as H5.
    { eexists. split; [reflexivity|]. split; [intros [=]|].
      intros Hnot. exfalso. apply Hnot. rewrite H5.
      do 4 apply list_elem_of_further. apply list_elem_of_here. }
    assert (Hrest : (if bool_decide (choice = u "6") then Ok (Some core_text)
                     else if bool_decide (choice = u "7") then Ok (Some core_text)
                     else Ok (Some core_text)) = Ok (Some core_text)).
    { by repeat case_bool_decide. }
    rewrite Hrest. eexists. split; [reflexivity|]. split; [intros [=] | done].
Qed.

End MoreTransformations.

Lemma remove_blank_lines_witness :
  transform_line_core (H := Example.posix) (u "  ") 3 {[ u "choice" := u "4" ]}
  = (if forallb Str.isspace (u "  ") then Ok None else Ok (Some (u "  ")))
  /\ transform_line_core (H := Example.posix) (u " a ") 3 {[ u "choice" := u "4" ]}
     = (if forallb Str.isspace (u " a ") then Ok None else Ok (Some (u " a "))).
Proof.
  split.
  - apply (remove_blank_lines (H := Example.posix) (u "  ") 3 {[ u "choice" := u "4" ]}).
    vm_compute; reflexivity.
  - apply (remove_blank_lines (H := Example.posix) (u " a ") 3 {[ u "choice" := u "4" ]}).
    vm_compute; reflexivity.
Defined.

Lemma replace_absent_witness :
  transform_line_core (H := Example.posix) (u "abc") 0
    {[ u "choice" := u "5"; u "target" := u "x"; u "replacement" := u "-" ]}
  = Ok (Some (u "abc")).
Proof.
  apply (replace_absent (H := Example.posix) (u "abc") 0
           {[ u "choice" := u "5"; u "target" := u "x"; u "replacement" := u "-" ]}
           (u "x")).
  - vm_compute; reflexivity.
  - vm_compute; reflexivity.
  - discriminate.
  - intros i. do 3 (destruct i as [|i]; [reflexivity|]). by destruct i.
Defined.

Lemma replace_first_occurrence_witness :
  exists replaced,
    transform_line_core (H := Example.posix) (u "a") 0
      {[ u "choice" := u "5"; u "target" := u "aa"; u "replacement" := u "a" ]}
    = Ok (Some replaced)
    /\ transform_line_core (H := Example.posix) (u "b" ++ u "aa" ++ u "a") 0
         {[ u "choice" := u "5"; u "target" := u "aa"; u "replacement" := u "a" ]}
       = Ok (Some (u "b" ++ u "a" ++ replaced)).
Proof.
  apply (replace_first_occurrence (H := Example.posix) (u "b") (u "a") 0
           {[ u "choice" := u "5"; u "target" := u "aa"; u "replacement" := u "a" ]}
           (u "aa") (u "a")).
  - vm_compute; reflexivity.
  - vm_compute; reflexivity.
  - discriminate.
  - vm_compute; reflexivity.
  - intros i Hi. destruct i as [|i]; [reflexivity|]. simpl in Hi. lia.
Defined.

Lemma replace_by_itself_witness :
  transform_line_core (H := Example.posix) (u "banana") 0
    {[ u "choice" := u "5"; u "target" := u "an"; u "replacement" := u "an" ]}
  = Ok (Some (u "banana")).
Proof.
  apply (replace_by_itself (H := Example.posix) (u "banana") 0
           {[ u "choice" := u "5"; u "target" := u "an"; u "replacement" := u "an" ]});
    vm_compute; reflexivity.
Defined.

Lemma replace_character_witness :
  transform_line_core (H := Example.posix) (u "banana") 0
    {[ u "choice" := u "5"; u "target" := u "a"; u "replacement" := u "oo" ]}
  = Ok (Some (u "banana" ≫= fun x => if x =? 97 then u "oo" else [x])).
Proof.
  apply (replace_character (H := Example.posix) (u "banana") 0
           {[ u "choice" := u "5"; u "target" := u "a"; u "replacement" := u "oo" ]}
           97 (u "oo"));
    vm_compute; reflexivity.
Defined.

Lemma transform_line_core_outcomes_witness :
  transform_line_core (H := Example.posix) (u "abc") 0 {[ u "target" := u "a" ]}
  = Raise KeyError
  /\ exists r,
       transform_line_core (H := Example.posix) (u "abc") 0 {[ u "choice" := u "9" ]} = Ok r
       /\ (r = None -> u "9" = u "4" /\ Forall (fun c => Str.isspace c = true) (u "abc"))
       /\ (u "9" ∉ [u "1"; u "2"; u "3"; u "4"; u "5"] -> r = Some (u "abc")).
Proof.
  split.
  - apply (proj1 (transform_line_core_outcomes (H := Example.posix) (u "abc") 0
                    {[ u "target" := u "a" ]})).
    vm_compute; reflexivity.
  - apply (proj2 (transform_line_core_outcomes (H := Example.posix) (u "abc") 0
                    {[ u "choice" := u "9" ]}) (u "9")).
    vm_compute; reflexivity.
Defined.

(** * The suggested output name *)

Section PathFacts.

Lemma lstrip_by_app (f : N -> bool) (x y : str) :
  Forall (fun c => f c = true) x -> Str.lstrip_by f (x ++ y) = Str.lstrip_by f y.
Proof.
  induction 1 as [|c x Hc _ IH]; [done|]. simpl. by rewrite Hc.
Qed.

Lemma cut_exists (p : str) : exists head tail, cut_at_last_sep p head tail.
Proof.
  induction p as [|c p IH] using rev_ind.
  - exists [], []. split; [done|]. split; [apply not_elem_of_nil | by left].
  - destruct IH as (head & tail & -> & Htail & Hhead).
    destruct (N.eqb_spec c SEP) as [->|Hc].
    + exists ((head ++ tail) ++ [SEP]), []. split; [by rewrite app_nil_r|].
      split; [apply not_elem_of_nil | right; by eexists].
    + exists head, (tail ++ [c]). split; [by rewrite app_assoc|]. split; [|done].
      rewrite elem_of_app, list_elem_of_singleton. intros [?|?]; [done | by apply Hc].
Qed.

Lemma cut_lstrip (p head tail : str) :
  cut_at_last_sep p head tail ->
  Str.lstrip_by (fun c => negb (c =? SEP)) (reverse p) = reverse head.
Proof.
  intros (-> & Htail & Hhead). rewrite reverse_app, lstrip_by_app.
  - destruct Hhead as [->|[h ->]]; [done|]. by rewrite reverse_snoc.
  - apply Forall_reverse, Forall_forall. intros c Hc.
    destruct (N.eqb_spec c SEP) as [->|]; done.
Qed.

Lemma cut_dirname (p head tail : str) :
  cut_at_last_sep p head tail ->
  os_path.dirname p
  = if bool_decide (head = []) || forallb (fun c => c =? SEP) head
    then head else Str.rstrip head [SEP].
Proof.
  intros Hcut. unfold os_path.dirname.
  by rewrite (cut_lstrip _ _ _ Hcut), reverse_involutive.
Qed.

Lemma cut_split (p head tail : str) :
  cut_at_last_sep p head tail -> os_path.split p = (os_path.dirname p, tail).
Proof.
  intros Hcut. unfold os_path.split. rewrite (cut_lstrip _ _ _ Hcut). f_equal.
  destruct Hcut as (-> & _ & _). by rewrite length_reverse, drop_app_length.
Qed.

Lemma rstrip_by_shape (f : N -> bool) (s : str) :
  Str.rstrip_by f s = [] \/ exists s' c, Str.rstrip_by f s = s' ++ [c] /\ f c = false.
Proof.
  induction s as [|c s IH] using rev_ind; [by left|].
  rewrite rstrip_by_snoc. destruct (f c) eqn:Hc; [done|]. right. by exists s, c.
Qed.

(** What [dirname] returns: nothing, separators only, or a path that does
    not end with the separator. *)
Lemma dirname_shape (p : str) :
  os_path.dirname p = []
  \/ (os_path.dirname p ≠ [] /\ forallb (fun c => c =? SEP) (os_path.dirname p) = true)
  \/ exists d c, os_path.dirname p = d ++ [c] /\ c ≠ SEP.
Proof.
  destruct (cut_exists p) as (head & tail & Hcut). rewrite (cut_dirname _ _ _ Hcut).
  case_bool_decide as Hnil; simpl; [by left|].
  destruct (forallb (fun c => c =? SEP) head) eqn:Hall; [right; by left|].
  destruct (rstrip_by_shape (fun c => Str.mem c [SEP]) head) as [Hempty|(d & c & Hd & Hc)].
  - apply rstrip_by_nil_iff in Hempty.
    assert (forallb (fun c => c =? SEP) head = true); [|congruence].
    apply forallb_forall. intros c Hc%list_elem_of_In.
    apply (proj1 (Forall_forall _ _) Hempty) in Hc.
    apply bool_decide_eq_true, list_elem_of_singleton in Hc as ->. done.
  - right. right. exists d, c. split; [done|]. intros ->.
    apply bool_decide_eq_false in Hc. apply Hc. by apply list_elem_of_singleton.
Qed.

(** Joining the directory of a path with a name gives a path in that
    directory whose last component is the name. *)
Lemma join_dirname_name (p name : str) :
  name ≠ [] -> SEP ∉ name ->
  exists head,
    cut_at_last_sep (os_path.join (os_path.dirname p) name) head name
    /\ os_path.dirname (os_path.join (os_path.dirname p) name) = os_path.dirname p.
Proof.
  intros Hne Hname.
  assert (Hstart : Str.startswith name [SEP] = false).
  { destruct name as [|c name]; [done|]. cbn [Str.startswith].
    apply andb_false_intro1, N.eqb_neq. intros <-.
    apply Hname. apply list_elem_of_here. }
  unfold os_path.join at 1 2. rewrite Hstart.
  destruct (dirname_shape p) as [Hd|[[Hd Hall]|(d & c & Hd & Hc)]].
  - rewrite Hd. simpl. exists []. 
    assert (Hcut : cut_at_last_sep name [] name) by (split; [done|]; split; [done | by left]).
    split; [done|]. by rewrite (cut_dirname _ _ _ Hcut).
  - assert (Hend : exists h, os_path.dirname p = h ++ [SEP]).
    { destruct (os_path.dirname p) as [|x d] using rev_ind; [done|].
      exists d. rewrite forallb_app in Hall. apply andb_true_iff in Hall as [_ Hx].
      simpl in Hx. rewrite andb_true_r in Hx. by apply N.eqb_eq in Hx as ->. }
    destruct Hend as [h Hh].
    assert (Hends : Str.endswith (os_path.dirname p) [SEP] = true)
      by (rewrite Hh; apply endswith_snoc).
    rewrite Hends, orb_true_r.
    assert (Hcut : cut_at_last_sep (os_path.dirname p ++ name) (os_path.dirname p) name).
    { split; [done|]. split; [done|]. right. by exists h. }
    exists (os_path.dirname p). split; [done|].
    rewrite (cut_dirname _ _ _ Hcut), Hall, orb_true_r. done.
  - assert (Hends : Str.endswith (os_path.dirname p) [SEP] = false).
    { destruct (Str.endswith (os_path.dirname p) [SEP]) eqn:Hend; [|done].
      apply endswith_last in Hend as [s' Hs']. rewrite Hd in Hs'.
      apply app_inj_tail in Hs' as [_ ->]. done. }
    rewrite Hends, orb_false_r.
    rewrite bool_decide_eq_false_2 by (rewrite Hd; by destruct d).
    assert (Hcut : cut_at_last_sep (os_path.dirname p ++ [SEP] ++ name)
                     (os_path.dirname p ++ [SEP]) name).
    { split; [by rewrite <- app_assoc|]. split; [done|]. right. by eexists. }
    exists (os_path.dirname p ++ [SEP]). split; [done|].
    rewrite (cut_dirname _ _ _ Hcut).
    rewrite bool_decide_eq_false_2 by (by destruct (os_path.dirname p)).
    rewrite forallb_app, Hd, forallb_app. simpl.
    destruct (N.eqb_spec c SEP) as [->|_]; [done|].
    rewrite andb_false_r. simpl.
    unfold Str.rstrip. rewrite rstrip_by_snoc. simpl.
    rewrite rstrip_by_snoc.
    unfold Str.mem. rewrite (bool_decide_eq_false_2 (c ∈ [SEP])); [done|].
    by intros ->%list_elem_of_singleton.
Qed.

Lemma splitext_join (p : str) :
  fst (os_path.splitext p) ++ snd (os_path.splitext p) = p.
Proof.
  unfold os_path.splitext.
  destruct (Str.lstrip_by _ _) as [|dot before]; simpl; [by rewrite app_nil_r|].
  destruct (forallb _ before); simpl; [by rewrite app_nil_r | apply take_drop].
Qed.

End PathFacts.

Section OutputName.

Lemma no_sep_modified : SEP ∉ u "_modified".
Proof. apply (bool_decide_unpack _). by vm_compute. Qed.

Lemma no_sep_txt : SEP ∉ u ".txt".
Proof. apply (bool_decide_unpack _). by vm_compute. Qed.

(** The new last component is not empty and has no separator. *)
Lemma suggested_name_plain (tail : str) :
  SEP ∉ tail ->
  let base := fst (os_path.splitext tail) in
  let ext := snd (os_path.splitext tail) in
  let name := base ++ u "_modified" ++ (if bool_decide (ext = u "") then u ".txt" else ext) in
  name ≠ [] /\ SEP ∉ name.
Proof.
  intros Htail base ext name. split.
  - unfold name. intros Heq. apply app_eq_nil in Heq as [_ Heq]. done.
  - assert (Hparts : (SEP ∉ base) /\ (SEP ∉ ext)).
    { rewrite <- (splitext_join tail) in Htail. fold base ext in Htail.
      rewrite elem_of_app in Htail. split; intros ?; apply Htail; [by left | by right]. }
    destruct Hparts as [Hbase Hext]. unfold name.
    rewrite !elem_of_app. intros [?|[Hm|Hx]]; [done | by apply no_sep_modified |].
    case_bool_decide; [by apply no_sep_txt | done].
Qed.

(** The suggested name, cut after its last separator: the last component is
    the new name, and the directory is that of the input path. *)
Lemma suggested_name_cut (input_path : str) :
  let fname := snd (os_path.split input_path) in
  let base := fst (os_path.splitext fname) in
  let ext := snd (os_path.splitext fname) in
  exists head,
    cut_at_last_sep (make_output_filename input_path) head
      (base ++ u "_modified" ++ (if bool_decide (ext = u "") then u ".txt" else ext))
    /\ os_path.dirname (make_output_filename input_path) = os_path.dirname input_path.
Proof.
  intros fname base ext.
  destruct (cut_exists input_path) as (head & tail & Hcut).
  assert (Htail : SEP ∉ tail) by apply Hcut.
  unfold make_output_filename. fold fname. fold base ext.
  assert (Hfname : fname = tail) by (unfold fname; by rewrite (cut_split _ _ _ Hcut)).
  destruct (suggested_name_plain tail Htail) as [Hne Hsep].
  rewrite <- Hfname in Hne, Hsep. fold base ext in Hne, Hsep.
  cbn [fst os_path.split].
  apply (join_dirname_name input_path _ Hne Hsep).
Qed.

(** X7: splitting the suggested output name gives the directory of the input
    path back, and as last component the base name of the input, then
    ["_modified"], then the input's extension, or [".txt"] when it has
    none. *)
Theorem make_output_filename_split (input_path : str) :
  let fname := snd (os_path.split input_path) in
  let base := fst (os_path.splitext fname) in
  let ext := snd (os_path.splitext fname) in
  os_path.split (make_output_filename input_path)
  = (fst (os_path.split input_path),
     base ++ u "_modified" ++ (if bool_decide (ext = u "") then u ".txt" else ext)).
Proof.
  intros fname base ext.
  destruct (suggested_name_cut input_path) as (head & Hcut & Hdir).
  fold fname base ext in Hcut.
  by rewrite (cut_split _ _ _ Hcut), Hdir.
Qed.

(** X8: the suggested output name is never the input path itself. *)
Theorem make_output_filename_differs (input_path : str) :
  make_output_filename input_path ≠ input_path.
Proof.
  intros Heq.
  destruct (suggested_name_cut input_path) as (head & Hcut & _).
  apply cut_split in Hcut. rewrite Heq in Hcut.
  apply (f_equal snd) in Hcut. cbn [snd] in Hcut.
  rewrite <- (splitext_join (snd (os_path.split input_path))) in Hcut at 1.
  apply app_inv_head in Hcut. apply (f_equal length) in Hcut.
  rewrite length_app in Hcut.
  case_bool_decide as Hext.
  - rewrite Hext in Hcut. simpl in Hcut. lia.
  - simpl in Hcut. lia.
Qed.

End OutputName.

(** * The menu *)

Section Menu.

Lemma menu_choices :
  (fun i => Str.of_int (N.of_nat i)) <$> seq 1 7
  = [u "1"; u "2"; u "3"; u "4"; u "5"; u "6"; u "7"].
Proof. reflexivity. Qed.

Lemma prompt_transformation_cases (w : world) :
  match stdin w with
  | [] => exists w', prompt_transformation w = (Raise EOFError, w') /\ files w' = files w
  | line :: rest =>
      let choice := if bool_decide (Str.strip line ∈ [u "1"; u "2"; u "3"; u "4"; u "5"; u "6"; u "7"])
                    then Str.strip line else u "7" in
      if bool_decide (choice = u "5") then
        match rest with
        | target :: replacement :: rest' =>
            exists w',
              prompt_transformation w
              = (Ok (<[u "replacement" := replacement]>
                       (<[u "target" := target]> {[ u "choice" := u "5" ]})), w')
              /\ stdin w' = rest' /\ files w' = files w
        | _ => exists w', prompt_transformation w = (Raise EOFError, w') /\ files w' = files w
        end
      else
        exists w',
          prompt_transformation w = (Ok {[ u "choice" := choice ]}, w')
          /\ stdin w' = rest /\ files w' = files w
  end.
Proof.
  destruct w as [fs op typed out names fl]. cbn [stdin files].
  unfold prompt_transformation. rewrite menu_choices.
  unfold print, input, sys_stdout_write, bind, ret. cbn [stdin set_stdout set_stdin files open_files stdout tmp_names faults].
  destruct typed as [|line rest]; [eexists; split; [reflexivity | done]|].
  cbn zeta.
  set (menu := [u "1"; u "2"; u "3"; u "4"; u "5"; u "6"; u "7"]).
  set (typed := Str.strip line).
  destruct (decide (typed ∈ menu)) as [Hin|Hout].
  - rewrite (bool_decide_eq_true_2 (typed ∈ menu)) by done.
    rewrite (bool_decide_eq_false_2 (typed ∉ menu)) by (intros Hnot; by apply Hnot).
    cbn [stdin set_stdout set_stdin files open_files stdout tmp_names faults].
    destruct (decide (typed = u "5")) as [H5|H5].
    + rewrite !(bool_decide_eq_true_2 (typed = u "5")) by done.
      rewrite H5. cbn [stdin set_stdout set_stdin files open_files stdout tmp_names faults].
      destruct rest as [|target [|replacement rest']];
        eexists; (split; [reflexivity|]); try split; done.
    + rewrite !(bool_decide_eq_false_2 (typed = u "5")) by done.
      eexists. split; [reflexivity|]. split; done.
  - rewrite (bool_decide_eq_false_2 (typed ∈ menu)) by done.
    rewrite (bool_decide_eq_true_2 (typed ∉ menu)) by done.
    cbn [stdin set_stdout set_stdin files open_files stdout tmp_names faults].
    rewrite !(bool_decide_eq_false_2 (u "7" = u "5")) by done.
    eexists. split; [reflexivity|]. split; done.
Qed.

(** X9: a typed choice other than ["5"] gives the dictionary with that
    choice alone, stripped of surrounding whitespace when it is one of
    ["1"] to ["7"] and ["7"] for anything else; one typed line is used and no
    file is touched. *)
Theorem prompt_transformation_choice (w : world) (line : str) (rest : list str) :
  stdin w = line :: rest ->
  Str.strip line ≠ u "5" ->
  exists w',
    prompt_transformation w
    = (Ok {[ u "choice" :=
               if bool_decide (Str.strip line
                               ∈ [u "1"; u "2"; u "3"; u "4"; u "5"; u "6"; u "7"])
               then Str.strip line else u "7" ]}, w')
    /\ stdin w' = rest /\ files w' = files w.
Proof.
  intros Hstdin Hnot5. pose proof (prompt_transformation_cases w) as Hcases.
  rewrite Hstdin in Hcases. cbn zeta in Hcases.
  assert (Hne : (if bool_decide (Str.strip line
                                  ∈ [u "1"; u "2"; u "3"; u "4"; u "5"; u "6"; u "7"])
                 then Str.strip line else u "7") ≠ u "5").
  { destruct (bool_decide (Str.strip line ∈ _)); [done | by vm_compute]. }
  by rewrite (bool_decide_eq_false_2 _ Hne) in Hcases.
Qed.

(** X10: the choice ["5"] reads two more lines, the target and the
    replacement, and stores them as typed, without stripping them. *)
Theorem prompt_transformation_replace (w : world) (line target replacement : str)
    (rest : list str) :
  stdin w = line :: target :: replacement :: rest ->
  Str.strip line = u "5" ->
  exists w',
    prompt_transformation w
    = (Ok (<[u "replacement" := replacement]>
             (<[u "target" := target]> {[ u "choice" := u "5" ]})), w')
    /\ stdin w' = rest /\ files w' = files w.
Proof.
  intros Hstdin H5. pose proof (prompt_transformation_cases w) as Hcases.
  rewrite Hstdin, H5 in Hcases. cbn zeta in Hcases.
  rewrite (bool_decide_eq_true_2 (u "5" ∈ _)) in Hcases
    by (do 4 apply list_elem_of_further; apply list_elem_of_here).
  by rewrite (bool_decide_eq_true_2 (u "5" = u "5")) in Hcases.
Qed.

(** X11: [prompt_transformation] raises nothing but [EOFError], and that
    only when the typed input ends before the choice or, after the choice
    ["5"], before the target and the replacement; no file is touched. *)
Theorem prompt_transformation_raises (w w' : world) (e : exn) :
  prompt_transformation w = (Raise e, w') ->
  e = EOFError
  /\ (stdin w = []
      \/ exists line rest,
           stdin w = line :: rest /\ Str.strip line = u "5" /\ (length rest < 2)%nat)
  /\ files w' = files w.
Proof.
  intros Hrun. pose proof (prompt_transformation_cases w) as Hcases.
  destruct (stdin w) as [|line rest] eqn:Hstdin.
  - destruct Hcases as (w1 & Hrun1 & Hfiles). rewrite Hrun in Hrun1.
    injection Hrun1 as -> ->. split; [done|]. split; [by left | done].
  - cbn zeta in Hcases. case_bool_decide as H5.
    + assert (Hline : Str.strip line = u "5").
      { revert H5. by case_bool_decide. }
      destruct rest as [|target [|replacement rest']].
      * destruct Hcases as (w1 & Hrun1 & Hfiles). rewrite Hrun in Hrun1.
        injection Hrun1 as -> ->. split; [done|]. split; [|done].
        right. exists line, []. split; [done|]. split; [done | simpl; lia].
      * destruct Hcases as (w1 & Hrun1 & Hfiles). rewrite Hrun in Hrun1.
        injection Hrun1 as -> ->. split; [done|]. split; [|done].
        right. exists line, [target]. split; [done|]. split; [done | simpl; lia].
      * destruct Hcases as (w1 & Hrun1 & _). by rewrite Hrun in Hrun1.
    + destruct Hcases as (w1 & Hrun1 & _). by rewrite Hrun in Hrun1.
Qed.

Section Composition.
Context `{Python}.

(** X12: a dictionary that [prompt_transformation] returns has a choice
    among ["1"] to ["7"], has a target and a replacement exactly when the
    choice is ["5"], and [transform_line_core] never raises on it. *)
Theorem prompt_transformation_result (w w' : world) (opt : dict) :
  prompt_transformation w = (Ok opt, w') ->
  exists choice,
    opt !! u "choice" = Some choice
    /\ choice ∈ [u "1"; u "2"; u "3"; u "4"; u "5"; u "6"; u "7"]
    /\ (is_Some (opt !! u "target") <-> choice = u "5")
    /\ (is_Some (opt !! u "replacement") <-> choice = u "5")
    /\ forall core_text idx, exists r, transform_line_core core_text idx opt = Ok r.
Proof.
  intros Hrun. pose proof (prompt_transformation_cases w) as Hcases.
  assert (Hnever : forall (o : dict) c,
            o !! u "choice" = Some c ->
            forall core_text idx, exists r, transform_line_core core_text idx o = Ok r).
  { intros o c Hc core_text idx.
    unfold transform_line_core. rewrite Hc. repeat case_bool_decide; by eexists. }
  destruct (stdin w) as [|line rest] eqn:Hstdin.
  { destruct Hcases as (w1 & Hrun1 & _). by rewrite Hrun in Hrun1. }
  cbn zeta in Hcases. case_bool_decide as H5.
  - destruct rest as [|target [|replacement rest']];
      destruct Hcases as (w1 & Hrun1 & Hrest); rewrite Hrun in Hrun1; [done | done |].
    injection Hrun1 as -> ->. exists (u "5").
    split; [done|]. split; [do 4 apply list_elem_of_further; apply list_elem_of_here|].
    split; [|split].
    + split; [done|]. intros _. by eexists.
    + split; [done|]. intros _. by eexists.
    + by apply (Hnever _ (u "5")).
  - destruct Hcases as (w1 & Hrun1 & _). rewrite Hrun in Hrun1.
    injection Hrun1 as -> ->. eexists. split; [apply lookup_singleton_eq|].
    split; [|split; [|split]].
    + case_bool_decide as Hin; [done|]. do 6 apply list_elem_of_further. apply list_elem_of_here.
    + split; [|done]. intros [x Hx]. by rewrite lookup_singleton_ne in Hx.
    + split; [|done]. intros [x Hx]. by rewrite lookup_singleton_ne in Hx.
    + eapply Hnever. apply lookup_singleton_eq.
Qed.

End Composition.

End Menu.

Lemma prompt_transformation_choice_witness :
  (exists w',
     prompt_transformation (Example.world_with ∅ [u " 2 "; u "later"] Example.no_faults)
     = (Ok {[ u "choice" :=
                if bool_decide (Str.strip (u " 2 ")
                                ∈ [u "1"; u "2"; u "3"; u "4"; u "5"; u "6"; u "7"])
                then Str.strip (u " 2 ") else u "7" ]}, w')
     /\ stdin w' = [u "later"]
     /\ files w' = files (Example.world_with ∅ [u " 2 "; u "later"] Example.no_faults))
  /\ (exists w',
        prompt_transformation (Example.world_with ∅ [u "12"] Example.no_faults)
        = (Ok {[ u "choice" :=
                   if bool_decide (Str.strip (u "12")
                                   ∈ [u "1"; u "2"; u "3"; u "4"; u "5"; u "6"; u "7"])
                   then Str.strip (u "12") else u "7" ]}, w')
        /\ stdin w' = []
        /\ files w' = files (Example.world_with ∅ [u "12"] Example.no_faults)).
Proof.
  split.
  - apply (prompt_transformation_choice
             (Example.world_with ∅ [u " 2 "; u "later"] Example.no_faults)
             (u " 2 ") [u "later"]); by vm_compute.
  - apply (prompt_transformation_choice
             (Example.world_with ∅ [u "12"] Example.no_faults) (u "12") []); by vm_compute.
Defined.

Lemma prompt_transformation_replace_witness :
  exists w',
    prompt_transformation
      (Example.world_with ∅ [u "5 "; u " a"; u "b "; u "later"] Example.no_faults)
    = (Ok (<[u "replacement" := u "b "]>
             (<[u "target" := u " a"]> {[ u "choice" := u "5" ]})), w')
    /\ stdin w' = [u "later"]
    /\ files w'
       = files (Example.world_with ∅ [u "5 "; u " a"; u "b "; u "later"] Example.no_faults).
Proof.
  apply (prompt_transformation_replace
           (Example.world_with ∅ [u "5 "; u " a"; u "b "; u "later"] Example.no_faults)
           (u "5 ") (u " a") (u "b ") [u "later"]); by vm_compute.
Defined.

Lemma prompt_transformation_raises_witness :
  EOFError = EOFError
  /\ (stdin (Example.world_with ∅ [u "5"; u "a"] Example.no_faults) = []
      \/ exists line rest,
           stdin (Example.world_with ∅ [u "5"; u "a"] Example.no_faults) = line :: rest
           /\ Str.strip line = u "5" /\ (length rest < 2)%nat)
  /\ files (snd (prompt_transformation
                   (Example.world_with ∅ [u "5"; u "a"] Example.no_faults)))
     = files (Example.world_with ∅ [u "5"; u "a"] Example.no_faults).
Proof.
  apply (prompt_transformation_raises
           (Example.world_with ∅ [u "5"; u "a"] Example.no_faults)
           (snd (prompt_transformation
                   (Example.world_with ∅ [u "5"; u "a"] Example.no_faults)))
           EOFError).
  by vm_compute.
Defined.

Lemma prompt_transformation_result_witness :
  exists choice,
    ({[ u "choice" := u "4" ]} : dict) !! u "choice" = Some choice
    /\ choice ∈ [u "1"; u "2"; u "3"; u "4"; u "5"; u "6"; u "7"]
    /\ (is_Some (({[ u "choice" := u "4" ]} : dict) !! u "target") <-> choice = u "5")
    /\ (is_Some (({[ u "choice" := u "4" ]} : dict) !! u "replacement") <-> choice = u "5")
    /\ forall core_text idx,
         exists r,
           transform_line_core (H := Example.posix) core_text idx {[ u "choice" := u "4" ]}
           = Ok r.
Proof.
  apply (prompt_transformation_result (H := Example.posix)
           (Example.world_with ∅ [u "4"] Example.no_faults)
           (snd (prompt_transformation (Example.world_with ∅ [u "4"] Example.no_faults)))
           {[ u "choice" := u "4" ]}).
  by vm_compute.
Defined.

(** * More on the encoding probe *)

Section MoreEncodingProbe.
Context `{Python}.

(** The probe of a file that exists, under a codec that is known, when the
    system lets the file be opened. *)
Lemma probe_known (filename enc : str) (w : world) (content : bytes) (c : codec) :
  faults w SysOpen = None -> files w !! filename = Some content ->
  codecs_lookup enc = Some c ->
  probe filename enc w = readline (codec_decode c content) w.
Proof.
  intros Hfault Hfile Hc. unfold probe.
  by rewrite (bind_run _ _ _ _ _ (open_read_run _ _ _ _ _ Hfault Hfile Hc)).
Qed.

Lemma readline_outcome (src : decoded) (w : world) :
  (exists line, fst (readline src w) = Ok line)
  \/ (fst (readline src w) = Raise UnicodeDecodeError /\ exists delivered, src = Undecodable delivered).
Proof.
  unfold readline. destruct src as [text|delivered]; cbn [iter_lines].
  - destruct (text_lines text); left; by eexists.
  - destruct (List.filter _ _); [right; split; [done | by eexists] | left; by eexists].
Qed.

(** X13: [choose_encoding_try] only reads: whatever it returns or raises,
    the files, the console and the rest of the world are as before. *)
Theorem choose_encoding_try_reads_only (filename : str) (encodings : list str)
    (w : world) :
  snd (choose_encoding_try filename encodings w) = w.
Proof.
  induction encodings as [|enc encodings IH]; [done|].
  rewrite choose_encoding_try_cons.
  destruct (fst (probe filename enc w)) as [line|e]; [done|]. by destruct e.
Qed.

(** X14: the first candidate whose probe fails with anything but
    [UnicodeDecodeError] ends the search with that exception: the candidates
    after it are not tried, even if one of them would decode the file. *)
Theorem choose_encoding_try_raises_at_once (filename : str) (pre : list str)
    (enc : str) (post : list str) (e : exn) (w : world) :
  Forall (fun x => fst (probe filename x w) = Raise UnicodeDecodeError) pre ->
  fst (probe filename enc w) = Raise e ->
  e ≠ UnicodeDecodeError ->
  choose_encoding_try filename (pre ++ enc :: post) w = (Raise e, w).
Proof.
  intros Hpre Henc Hne.
  induction Hpre as [|x pre Hx Hpre IH]; simpl app; rewrite choose_encoding_try_cons.
  - rewrite Henc. by destruct e.
  - by rewrite Hx.
Qed.

(** X15: on a file that does not exist, [choose_encoding_try] raises
    [FileNotFoundError] whatever the candidates are, provided there is one;
    with no candidate at all it raises [UnicodeDecodeError], whether the file
    exists or not. *)
Theorem choose_encoding_try_missing_file (filename : str) (encodings : list str)
    (w : world) :
  faults w SysOpen = None -> files w !! filename = None ->
  choose_encoding_try filename encodings w
  = (Raise (if bool_decide (encodings = []) then UnicodeDecodeError
            else FileNotFoundError), w).
Proof.
  intros Hfault Hfile. destruct encodings as [|enc rest]; [done|].
  assert (Hopen : open_read filename enc w = (Raise FileNotFoundError, w)).
  { unfold open_read. rewrite (bind_run _ _ _ _ _ (fault_run _ _ Hfault)).
    by rewrite Hfile. }
  rewrite choose_encoding_try_cons. unfold probe.
  by rewrite (bind_fail _ _ _ _ _ Hopen).
Qed.

(** X16: with its default candidates [utf-8], [cp1252] and [latin-1],
    [choose_encoding_try] returns one of them for every file that exists and
    may be opened: the first two fail by [UnicodeDecodeError] only, and
    [latin-1], the last one, decodes every sequence of bytes. *)
Theorem choose_encoding_try_succeeds (filename : str) (w : world) (content : bytes)
    (c : codec) :
  faults w SysOpen = None -> files w !! filename = Some content ->
  is_Some (codecs_lookup (u "utf-8")) -> is_Some (codecs_lookup (u "cp1252")) ->
  codecs_lookup (u "latin-1") = Some c ->
  (forall data, exists text, codec_decode c data = Decoded text) ->
  exists enc,
    choose_encoding_try filename default_encodings w = (Ok enc, w)
    /\ enc ∈ default_encodings.
Proof.
  intros Hfault Hfile Hutf8 Hcp1252 Hc Htotal.
  assert (Hknown : Forall (fun enc => is_Some (codecs_lookup enc)) default_encodings).
  { repeat constructor; [done | done | by eexists]. }
  assert (Hin : u "latin-1" ∈ default_encodings).
  { apply (bool_decide_unpack _). by vm_compute. }
  revert Hknown Hin. generalize default_encodings. intros encodings Hknown Hin.
  induction Hknown as [|enc encodings [c' Hc'] Hknown IH]; [by apply elem_of_nil in Hin|].
  rewrite choose_encoding_try_cons, (probe_known _ _ _ _ _ Hfault Hfile Hc').
  destruct (readline_outcome (codec_decode c' content) w) as [[line ->]|[-> [delivered Hbad]]].
  - exists enc. split; [done | apply list_elem_of_here].
  - apply elem_of_cons in Hin as [<-|Hin].
    + rewrite Hc in Hc'. injection Hc' as <-.
      destruct (Htotal content) as [text Htext]. congruence.
    + destruct (IH Hin) as (enc' & Hrun & Hin'). exists enc'.
      split; [done | by apply list_elem_of_further].
Qed.

End MoreEncodingProbe.

Lemma choose_encoding_try_raises_at_once_witness :
  choose_encoding_try (H := Example.posix) (u "in.txt")
    ([u "ascii"] ++ u "utf-8" :: [u "latin-1"])
    (World {[ u "in.txt" := [xe9; x0a] ]} [] [] [] [] Example.no_faults)
  = (Raise LookupError,
     World {[ u "in.txt" := [xe9; x0a] ]} [] [] [] [] Example.no_faults).
Proof.
  apply (choose_encoding_try_raises_at_once (H := Example.posix) (u "in.txt")
           [u "ascii"] (u "utf-8") [u "latin-1"] LookupError
           (World {[ u "in.txt" := [xe9; x0a] ]} [] [] [] [] Example.no_faults)).
  - apply Forall_singleton. vm_compute. reflexivity.
  - vm_compute. reflexivity.
  - discriminate.
Defined.

Lemma choose_encoding_try_missing_file_witness :
  choose_encoding_try (H := Example.posix) (u "gone.txt") [u "ascii"; u "latin-1"]
    (World {[ u "in.txt" := [xe9; x0a] ]} [] [] [] [] Example.no_faults)
  = (Raise (if bool_decide ([u "ascii"; u "latin-1"] = []) then UnicodeDecodeError
            else FileNotFoundError),
     World {[ u "in.txt" := [xe9; x0a] ]} [] [] [] [] Example.no_faults).
Proof.
  apply (choose_encoding_try_missing_file (H := Example.posix) (u "gone.txt")
           [u "ascii"; u "latin-1"]
           (World {[ u "in.txt" := [xe9; x0a] ]} [] [] [] [] Example.no_faults));
    vm_compute; reflexivity.
Defined.

(** A file that neither [utf-8] nor [cp1252] decodes. *)
Lemma choose_encoding_try_succeeds_witness :
  (exists enc,
     choose_encoding_try (H := Desk.runtime) (u "in.txt") default_encodings
       (World {[ u "in.txt" := [xe9; x81; x0a] ]} [] [] [] [] Example.no_faults)
     = (Ok enc, World {[ u "in.txt" := [xe9; x81; x0a] ]} [] [] [] [] Example.no_faults)
     /\ enc ∈ default_encodings)
  /\ fst (choose_encoding_try (H := Desk.runtime) (u "in.txt") default_encodings
            (World {[ u "in.txt" := [xe9; x81; x0a] ]} [] [] [] [] Example.no_faults))
     = Ok (u "latin-1").
Proof.
  split; [|by vm_compute].
  apply (choose_encoding_try_succeeds (H := Desk.runtime) (u "in.txt")
           (World {[ u "in.txt" := [xe9; x81; x0a] ]} [] [] [] [] Example.no_faults)
           [xe9; x81; x0a] Example.latin1).
  - reflexivity.
  - vm_compute. reflexivity.
  - by eexists.
  - by eexists.
  - reflexivity.
  - intros data. by eexists.
Defined.

(** * Every outcome of the pipelines *)

Section Outcomes.
Context `{Python}.

Lemma bind_any {A B} (m : M A) (k : A -> M B) (w w' : world) (r : result B) :
  bind m k w = (r, w') ->
  (exists e, m w = (Raise e, w') /\ r = Raise e)
  \/ (exists a w1, m w = (Ok a, w1) /\ k a w1 = (r, w')).
Proof.
  unfold bind. destruct (m w) as [[a|e] w1].
  - intros Hk. right. by exists a, w1.
  - intros [= <- <-]. left. by exists e.
Qed.

Lemma try_except_any {A} (body : M A) (handler : exn -> M A) (w w' : world)
    (r : result A) :
  try_except body handler w = (r, w') ->
  (exists a, body w = (Ok a, w') /\ r = Ok a)
  \/ (exists e w1, body w = (Raise e, w1) /\ handler e w1 = (r, w')).
Proof.
  unfold try_except. destruct (body w) as [[a|e] w1].
  - intros [= <- <-]. left. by exists a.
  - intros Hh. right. by exists e, w1.
Qed.

Lemma fault_any (s : syscall) (w w' : world) (r : result unit) :
  fault s w = (r, w') ->
  w' = w /\ (r = Ok tt \/ exists e, r = Raise e /\ faults w s = Some e).
Proof.
  unfold fault. destruct (faults w s) as [e|]; intros [= <- <-]; (split; [done|]).
  - right. by exists e.
  - by left.
Qed.

Lemma os_remove_any (p : str) (w w' : world) (r : result unit) :
  os_remove p w = (r, w') ->
  faults w' = faults w
  /\ ((r = Ok tt /\ files w' = delete p (files w))
      \/ (exists e, r = Raise e /\ files w' = files w
                    /\ (faults w SysRemove = Some e \/ files w !! p = None))).
Proof.
  intros [(e & [-> [[=]|(e' & [= <-] & He)]]%fault_any & ->)
         |([] & w1 & [-> _]%fault_any & Hrm)]%bind_any.
  - split; [done|]. right. exists e. split; [done|]. split; [done | by left].
  - destruct (files w !! p) eqn:Hp; injection Hrm as <- <-; (split; [done|]).
    + by left.
    + right. exists FileNotFoundError. split; [done|]. split; [done | by right].
Qed.

Lemma os_replace_any (src dst : str) (w w' : world) (r : result unit) :
  os_replace src dst w = (r, w') ->
  faults w' = faults w
  /\ ((exists content, r = Ok tt /\ files w !! src = Some content
                       /\ files w' = <[dst := content]> (delete src (files w)))
      \/ (exists e, r = Raise e /\ files w' = files w)).
Proof.
  intros [(e & [-> _]%fault_any & ->)|([] & w1 & [-> _]%fault_any & Hmv)]%bind_any.
  - split; [done|]. right. by exists e.
  - destruct (files w !! src) as [content|] eqn:Hsrc; injection Hmv as <- <-;
      (split; [done|]).
    + left. by exists content.
    + right. by eexists.
Qed.

Lemma tmp_close_any (tmp : tmpfile) (w w' : world) (r : result unit) :
  tmp_close tmp w = (r, w') ->
  files w' = files w /\ faults w' = faults w
  /\ (r = Ok tt \/ exists e, r = Raise e /\ faults w SysClose = Some e).
Proof.
  unfold tmp_close. case_bool_decide.
  - intros [-> Hr]%fault_any. by repeat split.
  - intros [= <- <-]. repeat split. by left.
Qed.

Lemma tmp_write_any (tmp : tmpfile) (s : str) (w w' : world) (r : result unit) :
  tmp_write tmp s w = (r, w') ->
  faults w' = faults w
  /\ exists data, files w' = alter (fun old => old ++ data) (tmp_name tmp) (files w).
Proof.
  unfold tmp_write. destruct (codec_encode _ _) as [data|].
  - intros [(e & [-> _]%fault_any & ->)|([] & w1 & [-> _]%fault_any & [= <- <-])]%bind_any.
    + split; [done|]. exists []. by rewrite alter_append_nil.
    + split; [done|]. by exists data.
  - intros [= <- <-]. split; [done|]. exists []. by rewrite alter_append_nil.
Qed.

Lemma tmp_writelines_any (tmp : tmpfile) (lines : list str) :
  forall (w w' : world) (r : result unit),
  tmp_writelines tmp lines w = (r, w') ->
  faults w' = faults w
  /\ exists data, files w' = alter (fun old => old ++ data) (tmp_name tmp) (files w).
Proof.
  induction lines as [|line lines IH]; intros w w' r; simpl.
  - intros [= <- <-]. split; [done|]. exists []. by rewrite alter_append_nil.
  - intros [(e & Hwrite & ->)|([] & w1 & Hwrite & Hrest)]%bind_any.
    + by apply tmp_write_any in Hwrite.
    + apply tmp_write_any in Hwrite as [Hf1 [d Hd]].
      apply IH in Hrest as [Hf2 [more Hmore]].
      split; [congruence|]. exists (d ++ more). by rewrite Hmore, Hd, alter_append.
Qed.

Lemma streaming_loop_any (opt : dict) (tmp : tmpfile) (lines : list str) :
  forall (idx : N) (counters : N * N) (w w' : world) (r : result (N * N)),
  for_enumerate
    (fun idx raw_line counters =>
       let lines_read := fst counters + 1 in
       let lines_written := snd counters in
       let has_nl := Str.endswith raw_line [LF] in
       let core := Str.rstrip raw_line [CR; LF] in
       transformed <- lift (transform_line_core core idx opt) ;;
       match transformed with
       | None => ret (lines_read, lines_written)
       | Some transformed =>
           let out_line := transformed ++ (if has_nl then [LF] else []) in
           _ <- tmp_write tmp out_line ;;
           ret (lines_read, lines_written + 1)
       end)
    idx lines counters w = (r, w') ->
  faults w' = faults w
  /\ exists data, files w' = alter (fun old => old ++ data) (tmp_name tmp) (files w).
Proof.
  assert (Hnone : forall w : world,
            exists data, files w = alter (fun old => old ++ data) (tmp_name tmp) (files w)).
  { intros w. exists []. by rewrite alter_append_nil. }
  induction lines as [|l lines IH]; intros idx counters w w' r; cbn [for_enumerate].
  - intros [= <- <-]. by split.
  - intros [(e & Hbody & ->)|(counters' & w1 & Hbody & Hrest)]%bind_any.
    + apply bind_any in Hbody as [(e' & [= _ <-] & _)|(t & w1 & [= _ <-] & Hbody)];
        [by split|].
      destruct t as [t|]; [|done].
      apply bind_any in Hbody as [(e' & Hwrite & _)|([] & w2 & _ & [=])].
      by apply tmp_write_any in Hwrite.
    + apply IH in Hrest as [Hf2 [more Hmore]].
      apply bind_any in Hbody as [(e' & _ & [=])|(t & w0 & [= _ <-] & Hbody)].
      destruct t as [t|].
      * apply bind_any in Hbody as [(e' & _ & [=])|([] & w2 & Hwrite & [= _ <-])].
        apply tmp_write_any in Hwrite as [Hf1 [d Hd]].
        split; [congruence|]. exists (d ++ more). by rewrite Hmore, Hd, alter_append.
      * injection Hbody as _ <-. split; [done | by exists more].
Qed.

Lemma NamedTemporaryFile_any (dir encoding : str) (w w' : world) (r : result tmpfile) :
  NamedTemporaryFile dir encoding w = (r, w') ->
  faults w' = faults w
  /\ ((exists tmp, r = Ok tmp /\ files w !! tmp_name tmp = None
                   /\ files w' = <[tmp_name tmp := []]> (files w))
      \/ (exists e, r = Raise e /\ files w' = files w)).
Proof.
  intros [(e & [-> _]%fault_any & ->)|([] & w1 & [-> _]%fault_any & Hmk)]%bind_any.
  { split; [done|]. right. by exists e. }
  destruct (mkstemp_inner dir (tmp_names w) (files w)) as [[file rest]|] eqn:Hfile.
  - apply mkstemp_inner_fresh in Hfile.
    destruct (codecs_lookup encoding) as [c|]; injection Hmk as <- <-; (split; [done|]).
    + left. by eexists.
    + right. by eexists.
  - injection Hmk as <- <-. split; [done|]. right. by eexists.
Qed.

(** The clean-up of the staging step: it never raises; the temporary file
    is gone afterwards unless closing or removing it was refused. *)
Lemma cleanup_any (tmp : tmpfile) (w w' : world) (r : result unit) :
  try_pass (_ <- tmp_close tmp ;; os_remove (tmp_name tmp)) w = (r, w') ->
  is_Some (files w !! tmp_name tmp) ->
  r = Ok tt /\ faults w' = faults w
  /\ (files w' = delete (tmp_name tmp) (files w)
      \/ (files w' = files w
          /\ (is_Some (faults w SysClose) \/ is_Some (faults w SysRemove)))).
Proof.
  intros Hrun Hthere. unfold try_pass in Hrun.
  apply try_except_any in Hrun as [([] & Hbody & ->)|(e & w1 & Hbody & [= <- <-])].
  - apply bind_any in Hbody as [(e & _ & [=])|([] & w1 & (Hf1 & Hq1 & _)%tmp_close_any & Hrm)].
    apply os_remove_any in Hrm as [Hq2 [[_ Hf2]|(e & [=] & _)]].
    split; [done|]. split; [congruence|]. left. by rewrite Hf2, Hf1.
  - split; [done|].
    apply bind_any in Hbody as [(e' & (Hf1 & Hq1 & Hr)%tmp_close_any & _)
                               |([] & w2 & (Hf1 & Hq1 & _)%tmp_close_any & Hrm)].
    + split; [done|]. right. split; [done|]. left.
      destruct Hr as [[=]|(e'' & _ & ->)]. by eexists.
    + apply os_remove_any in Hrm as [Hq2 [[[=] _]|(e' & _ & Hf2 & Hwhy)]].
      split; [congruence|]. right. split; [congruence|].
      destruct Hwhy as [Hfault|Hgone].
      * right. rewrite <- Hq1, Hfault. by eexists.
      * rewrite Hf1 in Hgone. rewrite Hgone in Hthere. by destruct Hthere.
Qed.

(** Every way through the commit block, from a world where the temporary
    file holds [content]. *)
Lemma commit_any (tmp_name output_path : str) (cancelled : pipeline_result)
    (w w' : world) (r : result (pipeline_result + str)) (content : bytes) :
  commit tmp_name output_path cancelled w = (r, w') ->
  files w !! tmp_name = Some content ->
  (r = Ok (inl cancelled) /\ files w' = delete tmp_name (files w))
  \/ (exists path, r = Ok (inr path)
                   /\ files w' = <[path := content]> (delete tmp_name (files w)))
  \/ (exists e, r = Raise e
                /\ (files w' = delete tmp_name (files w)
                    \/ (files w' = files w /\ is_Some (faults w SysRemove)))).
Proof.
  intros Hrun Htmp. unfold commit in Hrun.
  assert (Hhandler : forall e w1 r' w2,
            files w1 = files w -> faults w1 = faults w ->
            (_ <- try_pass (os_remove tmp_name) ;; raise e) w1 = (r' : result (pipeline_result + str), w2) ->
            r' = Raise e
            /\ (files w2 = delete tmp_name (files w)
                \/ (files w2 = files w /\ is_Some (faults w SysRemove)))).
  { intros e w1 r' w2 Hf Hq Hh.
    apply bind_any in Hh as [(e' & Hpass & _)|([] & w3 & Hpass & [= <- <-])];
      unfold try_pass in Hpass;
      apply try_except_any in Hpass as [(a & Hrm & Hr)|(e'' & w4 & Hrm & Hr)]; try done.
    - split; [done|]. apply os_remove_any in Hrm as [_ [[_ Hf3]|(? & [=] & _)]].
      left. by rewrite Hf3, Hf.
    - split; [done|]. injection Hr as <-.
      apply os_remove_any in Hrm as [_ [[[=] _]|(e3 & _ & Hf3 & Hwhy)]].
      right. split; [congruence|]. destruct Hwhy as [Hfault|Hgone].
      + rewrite <- Hq, Hfault. by eexists.
      + rewrite Hf in Hgone. congruence. }
  assert (Hbody : forall rb wb,
            (found <- os_path.exists_ output_path ;;
             if found then
               resp <- input (u "Output file '" ++ output_path
                                ++ u "' already exists. Overwrite? (y/N): ") ;;
               let resp := str_lower (Str.strip resp) in
               if bool_decide (resp ≠ u "y") then
                 new_name <- input (u "Enter a new output filename (or 'q' to cancel): ") ;;
                 let new_name := Str.strip new_name in
                 if bool_decide (str_lower new_name = u "q") then
                   _ <- os_remove tmp_name ;;
                   _ <- print (u "Operation cancelled. Temporary file removed.") ;;
                   ret (inl cancelled)
                 else ret (inr (os_path_expanduser new_name))
               else ret (inr output_path)
             else ret (inr output_path)) w = (rb, wb) ->
            faults wb = faults w
            /\ ((rb = Ok (inl cancelled) /\ files wb = delete tmp_name (files w))
                \/ (exists path : str, rb = Ok (inr path) /\ files wb = files w)
                \/ (exists e, rb = Raise e /\ files wb = files w))).
  { intros rb wb Hneg.
    apply bind_any in Hneg as [(e & [=] & _)|(found & w1 & [= <- <-] & Hneg)].
    case_bool_decide as Hfound; [|injection Hneg as <- <-; split; [done|]; right; left; by eexists].
    apply bind_any in Hneg as [(e & [Hf Hq]%input_files & ->)
                              |(resp & w1 & [Hf1 Hq1]%input_files & Hneg)].
    { split; [done|]. right. right. by eexists. }
    cbn zeta in Hneg.
    case_bool_decide; [|injection Hneg as <- <-; split; [done|]; right; left; by eexists].
    apply bind_any in Hneg as [(e & [Hf Hq]%input_files & ->)
                              |(new_name & w2 & [Hf2 Hq2]%input_files & Hneg)].
    { split; [congruence|]. right. right. eexists. split; [done | congruence]. }
    cbn zeta in Hneg.
    case_bool_decide; [|injection Hneg as <- <-; split; [congruence|]; right; left;
                        eexists; split; [done | congruence]].
    apply bind_any in Hneg as [(e & Hrm & ->)|([] & w3 & Hrm & Hneg)].
    - apply os_remove_any in Hrm as [Hq3 [[[=] _]|(e' & _ & Hf3 & _)]].
      split; [congruence|]. right. right. eexists. split; [done | congruence].
    - apply os_remove_any in Hrm as [Hq3 [[_ Hf3]|(e' & [=] & _)]].
      apply bind_any in Hneg as [(e & [=] & _)|([] & w4 & [Hf4 Hq4]%sys_stdout_write_files
                                                 & [= <- <-])].
      split; [congruence|]. left. split; [done|]. by rewrite Hf4, Hf3, Hf2, Hf1. }
  apply try_except_any in Hrun as [(a & Hrun & ->)|(e & w1 & Hrun & Hh)].
  - apply bind_any in Hrun as [(e & _ & [=])|(negotiated & w1 & Hneg & Hmove)].
    apply Hbody in Hneg as [Hq [[[= ->] Hf]|[(path & [= ->] & Hf)|(e & [=] & _)]]].
    + injection Hmove as <- <-. by left.
    + apply bind_any in Hmove as [(e & _ & [=])|([] & w2 & Hmv & [= <- <-])].
      apply os_replace_any in Hmv as [_ [(content' & _ & Hsrc & Hf2)|(e & [=] & _)]].
      rewrite Hf in Hsrc, Hf2. rewrite Htmp in Hsrc. injection Hsrc as <-.
      right. left. by exists path.
  - right. right. exists e.
    apply bind_any in Hrun as [(e' & Hneg & [= <-])|(negotiated & w2 & Hneg & Hmove)].
    + apply Hbody in Hneg as [Hq [[[=] _]|[(path & [=] & _)|(e' & _ & Hf)]]].
      by destruct (Hhandler _ _ _ _ Hf Hq Hh) as [-> Hfiles].
    + apply Hbody in Hneg as [Hq [[[= ->] Hf]|[(path & [= ->] & Hf)|(e' & [=] & _)]]];
        [done|].
      apply bind_any in Hmove as [(e' & Hmv & [= <-])|([] & w3 & _ & [=])].
      apply os_replace_any in Hmv as [Hq' [(content' & [=] & _)|(e' & _ & Hf')]].
      assert (Hf1 : files w1 = files w) by congruence.
      assert (Hq1 : faults w1 = faults w) by congruence.
      by destruct (Hhandler _ _ _ _ Hf1 Hq1 Hh) as [-> Hfiles].
Qed.

(** A step that writes to the temporary file only, guarded as the staging
    step of [process_streaming] is: afterwards the file holds what was
    written, or, after a failure, it is gone unless closing or removing it
    was refused. *)
Lemma guarded_stage_any {A} (tmp : tmpfile) (body : M A) (w w' : world)
    (r : result A) :
  (forall w0 r0 w0',
      body w0 = (r0, w0') ->
      faults w0' = faults w0
      /\ exists data,
           files w0' = alter (fun old => old ++ data) (tmp_name tmp) (files w0)) ->
  with_tmp tmp
    (try_except body
       (fun e => _ <- try_pass (_ <- tmp_close tmp ;; os_remove (tmp_name tmp)) ;;
                 raise e)) w = (r, w') ->
  is_Some (files w !! tmp_name tmp) ->
  (exists a data,
      r = Ok a /\ files w' = alter (fun old => old ++ data) (tmp_name tmp) (files w)
      /\ faults w' = faults w)
  \/ (exists e,
        r = Raise e
        /\ (files w' = delete (tmp_name tmp) (files w)
            \/ ((exists data,
                    files w' = alter (fun old => old ++ data) (tmp_name tmp) (files w))
                /\ (is_Some (faults w SysClose) \/ is_Some (faults w SysRemove))))).
Proof.
  intros Hbody Hrun Hthere. unfold with_tmp in Hrun.
  destruct (try_except _ _ w) as [[a|e] wa] eqn:Htry.
  - apply try_except_any in Htry as [(a' & Hb & [= <-])|(e & wb & _ & Hh)]; cycle 1.
    { by apply bind_any in Hh as [(? & _ & [=])|([] & ? & _ & [=])]. }
    apply Hbody in Hb as [Hq [data Hf]].
    apply bind_any in Hrun as [(e & (Hf' & Hq' & Hr)%tmp_close_any & ->)
                              |([] & w3 & (Hf' & Hq' & _)%tmp_close_any & [= <- <-])].
    + right. exists e. split; [done|]. right. split.
      * exists data. by rewrite Hf', Hf.
      * left. destruct Hr as [[=]|(e' & _ & Hfault)]. rewrite <- Hq, Hfault. by eexists.
    + left. exists a, data. split; [done|]. split; [by rewrite Hf', Hf | congruence].
  - apply try_except_any in Htry as [(a & _ & [=])|(e0 & wb & Hb & Hh)].
    apply Hbody in Hb as [Hq [data Hf]].
    assert (Hstill : is_Some (files wb !! tmp_name tmp)).
    { rewrite Hf, lookup_alter_eq. by apply fmap_is_Some. }
    assert (Hclean : exists wc,
              try_pass (_ <- tmp_close tmp ;; os_remove (tmp_name tmp)) wb = (Ok tt, wc)
              /\ files wa = files wc).
    { apply bind_any in Hh as [(e' & Hpass & _)|([] & wc & Hpass & [= _ Hwa])].
      - by destruct (cleanup_any _ _ _ _ Hpass Hstill) as [[=] _].
      - exists wc. split; [done | by rewrite Hwa]. }
    destruct Hclean as (wc & Hpass & Hfa).
    destruct (cleanup_any _ _ _ _ Hpass Hstill) as (_ & Hqc & Hfc).
    assert (Hend : files w' = files wa /\ exists e', r = Raise e').
    { apply bind_any in Hrun as [(e' & (Hf' & _)%tmp_close_any & ->)
                                |([] & w3 & (Hf' & _)%tmp_close_any & [= <- <-])].
      - split; [done | by eexists].
      - split; [done | by eexists]. }
    destruct Hend as [Hf' [e' ->]]. right. exists e'. split; [done|].
    destruct Hfc as [Hgone|[Hsame Hwhy]].
    + left. by rewrite Hf', Hfa, Hgone, Hf, delete_alter_eq.
    + right. split.
      * exists data. by rewrite Hf', Hfa, Hsame, Hf.
      * by rewrite <- Hq.
Qed.

(** Every outcome of [process_streaming]: the path returned holds the new
    content, or the files are as they were, or, when closing or removing the
    temporary file was refused, that file is left. No other file changes. *)
Lemma process_streaming_outcomes (input_path encoding : str) (opt : dict)
    (output_path : str) (w w' : world) (r : result pipeline_result) :
  process_streaming input_path encoding opt output_path w = (r, w') ->
  (exists lines_read lines_written path content,
      r = Ok (lines_read, lines_written, Some path)
      /\ files w' = <[path := content]> (files w))
  \/ files w' = files w
  \/ (exists e tmp content,
        r = Raise e /\ files w !! tmp = None
        /\ files w' = <[tmp := content]> (files w)
        /\ (is_Some (faults w SysClose) \/ is_Some (faults w SysRemove))).
Proof.
  unfold process_streaming. intros Hrun.
  apply bind_any in Hrun as [(e & Htmp & ->)|(tmp & w1 & Htmp & Hrun)];
    apply NamedTemporaryFile_any in Htmp as [Hq1 [(tmp' & Hr & Hfresh & Hf1)|(e' & Hr & Hf1)]];
    try done; [by right; left|].
  injection Hr as <-. cbn zeta in Hrun.
  assert (Hthere : is_Some (files w1 !! tmp_name tmp)).
  { rewrite Hf1, lookup_insert_eq. by eexists. }
  assert (Hleft : forall data,
            alter (fun old => old ++ data) (tmp_name tmp) (files w1)
            = <[tmp_name tmp := data]> (files w)).
  { intros data. by rewrite Hf1, alter_insert_fresh. }
  assert (Hgone : delete (tmp_name tmp) (files w1) = files w).
  { by rewrite Hf1, delete_insert_eq, delete_id. }
  apply bind_any in Hrun as [(e & Hstage & ->)|(counters & w2 & Hstage & Hrun)];
    apply guarded_stage_any in Hstage
      as [(a & data & Hr & Hf2 & Hq2)|(e' & Hr & [Hf2|[[data Hf2] Hwhy]])]; try done.
  - right. left. by rewrite Hf2.
  - right. right. exists e, (tmp_name tmp), data. rewrite <- Hq1.
    repeat split; try done. by rewrite Hf2.
  - intros w0 r0 w0' Hb.
    apply bind_any in Hb as [(e0 & ->%open_read_world & _)
                            |(src & w3 & ->%open_read_world & Hloop)].
    { split; [done|]. exists []. by rewrite alter_append_nil. }
    unfold for_enumerate_lines in Hloop.
    apply bind_any in Hloop as [(e0 & Hloop & _)|(c & w4 & Hloop & Hend)].
    + by apply streaming_loop_any in Hloop.
    + apply streaming_loop_any in Hloop. by destruct (snd (iter_lines src)); injection Hend as _ <-.
  - injection Hr as <-. rewrite Hleft in Hf2.
    apply bind_any in Hrun as [(e & Hcommit & ->)|(done_ & w3 & Hcommit & Hret)];
      eapply commit_any in Hcommit
        as [[Hr Hf3]|[(path & Hr & Hf3)|(e' & Hr & Hf3)]];
      try (rewrite Hf2; apply lookup_insert_eq); try done.
    + destruct Hf3 as [Hf3|[Hf3 Hwhy]].
      * right. left. by rewrite Hf3, Hf2, delete_insert_eq, delete_id.
      * right. right. exists e, (tmp_name tmp), data.
        repeat split; try done; [congruence|]. right. by rewrite <- Hq1, <- Hq2.
    + injection Hr as ->. injection Hret as <- <-.
      right. left. by rewrite Hf3, Hf2, delete_insert_eq, delete_id.
    + injection Hr as ->. injection Hret as <- <-. left.
      do 4 eexists. split; [done|].
      by rewrite Hf3, Hf2, delete_insert_eq, delete_id.
  - intros w0 r0 w0' Hb.
    apply bind_any in Hb as [(e0 & ->%open_read_world & _)
                            |(src & w3 & ->%open_read_world & Hloop)].
    { split; [done|]. exists []. by rewrite alter_append_nil. }
    unfold for_enumerate_lines in Hloop.
    apply bind_any in Hloop as [(e0 & Hloop & _)|(c & w4 & Hloop & Hend)].
    + by apply streaming_loop_any in Hloop.
    + apply streaming_loop_any in Hloop. by destruct (snd (iter_lines src)); injection Hend as _ <-.
Qed.

Lemma readlines_world (src : decoded) (w w' : world) (r : result (list str)) :
  readlines src w = (r, w') -> w' = w.
Proof.
  unfold readlines. destruct (iter_lines src) as [lines [e|]]; by intros [= _ <-].
Qed.

Lemma reverse_loop_world (opt : dict) (lines : list str) :
  forall (idx : N) (acc : list str) (w w' : world) (r : result (list str)),
  for_enumerate
    (fun idx raw_line transformed_lines =>
       let core := Str.rstrip raw_line [CR; LF] in
       let has_nl := Str.endswith raw_line [LF] in
       t <- lift (transform_line_core core idx opt) ;;
       match t with
       | None => ret transformed_lines
       | Some t => ret (transformed_lines ++ [t ++ (if has_nl then [LF] else [])])
       end)
    idx lines acc w = (r, w') ->
  w' = w.
Proof.
  induction lines as [|l lines IH]; intros idx acc w w' r; cbn [for_enumerate].
  - by intros [= _ <-].
  - intros [(e & Hbody & _)|(acc' & w1 & Hbody & Hrest)]%bind_any.
    + apply bind_any in Hbody as [(e' & [= _ <-] & _)|(t & w1 & [= _ <-] & Hbody)]; [done|].
      by destruct t.
    + apply IH in Hrest as ->.
      apply bind_any in Hbody as [(e' & _ & [=])|(t & w0 & [= _ <-] & Hbody)].
      destruct t; by injection Hbody as _ <-.
Qed.

(** Every outcome of [process_reverse]: the path returned holds the new
    content, or the files are as they were, or a failure has left the
    temporary file. No other file changes. *)
Lemma process_reverse_outcomes (input_path encoding : str) (opt : dict)
    (output_path : str) (w w' : world) (r : result pipeline_result) :
  process_reverse input_path encoding opt output_path w = (r, w') ->
  (exists lines_read lines_written path content,
      r = Ok (lines_read, lines_written, Some path)
      /\ files w' = <[path := content]> (files w))
  \/ files w' = files w
  \/ (exists e tmp content,
        r = Raise e /\ files w !! tmp = None
        /\ files w' = <[tmp := content]> (files w)).
Proof.
  unfold process_reverse. intros Hrun.
  apply bind_any in Hrun as [(e & [=] & _)|([] & w1 & [Hf1 _]%sys_stdout_write_files & Hrun)].
  apply bind_any in Hrun as [(e & [Hf2 _]%input_files & _)
                            |(answer & w2 & [Hf2 _]%input_files & Hrun)].
  { right. left. congruence. }
  cbn zeta in Hrun. case_bool_decide.
  { apply bind_any in Hrun as [(e & [=] & _)
                              |([] & w3 & [Hf3 _]%sys_stdout_write_files & [= _ <-])].
    right. left. congruence. }
  apply bind_any in Hrun as [(e & ->%open_read_world & _)
                            |(src & w3 & ->%open_read_world & Hrun)].
  { right. left. congruence. }
  apply bind_any in Hrun as [(e & ->%readlines_world & _)
                            |(lines & w3 & ->%readlines_world & Hrun)].
  { right. left. congruence. }
  apply bind_any in Hrun as [(e & ->%reverse_loop_world & _)
                            |(transformed_lines & w3 & ->%reverse_loop_world & Hrun)].
  { right. left. congruence. }
  cbn zeta in Hrun.
  assert (Hf : files w2 = files w) by congruence. clear Hf1 Hf2.
  apply bind_any in Hrun as [(e & Htmp & ->)|(tmp & w3 & Htmp & Hrun)];
    apply NamedTemporaryFile_any in Htmp as [_ [(tmp' & Hr & Hfresh & Hf3)|(e' & Hr & Hf3)]];
    try done; [right; left; congruence|].
  injection Hr as <-. rewrite Hf in Hfresh, Hf3.
  assert (Hstage : forall rs ws,
            with_tmp tmp (tmp_writelines tmp (reverse transformed_lines)) w3 = (rs, ws) ->
            exists data, files ws = <[tmp_name tmp := data]> (files w)).
  { intros rs ws Hs. unfold with_tmp in Hs.
    destruct (tmp_writelines _ _ w3) as [[[]|e] wa] eqn:Hwrite;
      apply tmp_writelines_any in Hwrite as [_ [data Hdata]];
      exists data; rewrite Hf3, alter_insert_fresh in Hdata;
      apply bind_any in Hs as [(e' & (Hc & _)%tmp_close_any & _)
                              |([] & wb & (Hc & _)%tmp_close_any & [= _ <-])];
      congruence. }
  apply bind_any in Hrun as [(e & Hs & ->)|([] & w4 & Hs & Hrun)];
    apply Hstage in Hs as [data Hf4].
  { right. right. by exists e, (tmp_name tmp), data. }
  apply bind_any in Hrun as [(e & Hcommit & ->)|(done_ & w5 & Hcommit & Hret)];
    eapply commit_any in Hcommit
      as [[Hr Hf5]|[(path & Hr & Hf5)|(e' & Hr & Hf5)]];
    try (rewrite Hf4; apply lookup_insert_eq); try done.
  - destruct Hf5 as [Hf5|[Hf5 Hwhy]].
    + right. left. by rewrite Hf5, Hf4, delete_insert_eq, delete_id.
    + right. right. exists e, (tmp_name tmp), data. repeat split; [done | congruence].
  - injection Hr as ->. injection Hret as <- <-.
    right. left. by rewrite Hf5, Hf4, delete_insert_eq, delete_id.
  - injection Hr as ->. injection Hret as <- <-. left.
    do 4 eexists. split; [done|].
    by rewrite Hf5, Hf4, delete_insert_eq, delete_id.
Qed.

(** X17: when [process_streaming] fails for a reason of the program or of
    its input (the temporary file cannot be created, the input is missing,
    unreadable or undecodable, the dictionary has no choice, a line cannot be
    encoded, the final rename is refused, the typed input is at its end), the
    files are exactly as before the call. The system must refuse neither a
    write to the temporary file, nor its closing, nor its removal. *)
Theorem streaming_failure_restores_files (input_path encoding : str) (opt : dict)
    (output_path : str) (w w' : world) (e : exn) :
  faults w SysWrite = None -> faults w SysClose = None -> faults w SysRemove = None ->
  process_streaming input_path encoding opt output_path w = (Raise e, w') ->
  files w' = files w.
Proof.
  intros _ Hclose Hremove Hrun.
  apply process_streaming_outcomes in Hrun
    as [(? & ? & ? & ? & [=] & _)|[Hsame|(? & ? & ? & _ & _ & _ & Hwhy)]]; [done|].
  rewrite Hclose, Hremove in Hwhy. by destruct Hwhy as [[? [=]]|[? [=]]].
Qed.

(** X18: whatever the outcome of a pipeline, a file that existed before the
    call is still there with the same content, unless it is the path the
    pipeline returns. *)
Theorem pipelines_keep_other_files (input_path encoding : str) (opt : dict)
    (output_path : str) (w w' : world) (r : result pipeline_result)
    (p : str) (content : bytes) :
  process_streaming input_path encoding opt output_path w = (r, w')
  \/ process_reverse input_path encoding opt output_path w = (r, w') ->
  files w !! p = Some content ->
  files w' !! p = Some content
  \/ exists lines_read lines_written, r = Ok (lines_read, lines_written, Some p).
Proof.
  intros Hrun Hp.
  assert (Hcases :
    (exists lines_read lines_written path content,
        r = Ok (lines_read, lines_written, Some path)
        /\ files w' = <[path := content]> (files w))
    \/ files w' = files w
    \/ (exists tmp content,
          files w !! tmp = None /\ files w' = <[tmp := content]> (files w))).
  { destruct Hrun as [Hrun|Hrun].
    - apply process_streaming_outcomes in Hrun
        as [?|[?|(? & tmp & data & _ & ? & ? & _)]]; [by left | by right; left |].
      right. right. by exists tmp, data.
    - apply process_reverse_outcomes in Hrun
        as [?|[?|(? & tmp & data & _ & ? & ?)]]; [by left | by right; left |].
      right. right. by exists tmp, data. }
  destruct Hcases as [(n & m & path & data & -> & Hf)|[Hf|(tmp & data & Hfresh & Hf)]].
  - destruct (decide (path = p)) as [->|Hne]; [right; by eexists _, _|].
    left. by rewrite Hf, lookup_insert_ne.
  - left. by rewrite Hf.
  - left. rewrite Hf, lookup_insert_ne; [done|]. intros ->. congruence.
Qed.

(** X19: when [process_reverse] fails, the files are as before the call,
    except that one new file, the temporary one, may be left; no file that
    existed is touched. *)
Theorem reverse_failure_leaves_at_most_staging (input_path encoding : str)
    (opt : dict) (output_path : str) (w w' : world) (e : exn) :
  process_reverse input_path encoding opt output_path w = (Raise e, w') ->
  files w' = files w
  \/ exists tmp content,
       files w !! tmp = None /\ files w' = <[tmp := content]> (files w).
Proof.
  intros Hrun.
  apply process_reverse_outcomes in Hrun
    as [(? & ? & ? & ? & [=] & _)|[?|(? & tmp & data & _ & ? & ?)]]; [by left|].
  right. by exists tmp, data.
Qed.

End Outcomes.

Section OutcomeRuns.
Import Example.

(** The second line cannot be encoded, after the first one was written:
    [process_streaming] leaves the files as they were. *)
Lemma streaming_failure_restores_files_witness :
  fst (process_streaming (u "in.txt") (u "ascii") replace_a_by_e_acute (u "out.txt")
         (world_with {[ u "in.txt" := b "b" ++ [x0a] ++ b "a" ++ [x0a] ]} [] no_faults))
  = Raise UnicodeEncodeError
  /\ files (snd (process_streaming (u "in.txt") (u "ascii") replace_a_by_e_acute
                   (u "out.txt")
                   (world_with {[ u "in.txt" := b "b" ++ [x0a] ++ b "a" ++ [x0a] ]} []
                      no_faults)))
     = files (world_with {[ u "in.txt" := b "b" ++ [x0a] ++ b "a" ++ [x0a] ]} [] no_faults).
Proof.
  split; [by vm_compute|].
  apply (streaming_failure_restores_files (u "in.txt") (u "ascii") replace_a_by_e_acute
           (u "out.txt")
           (world_with {[ u "in.txt" := b "b" ++ [x0a] ++ b "a" ++ [x0a] ]} [] no_faults)
           (snd (process_streaming (u "in.txt") (u "ascii") replace_a_by_e_acute
                   (u "out.txt")
                   (world_with {[ u "in.txt" := b "b" ++ [x0a] ++ b "a" ++ [x0a] ]} []
                      no_faults)))
           UnicodeEncodeError).
  - reflexivity.
  - reflexivity.
  - reflexivity.
  - vm_compute. reflexivity.
Defined.

(** [other.txt] survives a run that overwrites [out.txt]. *)
Lemma pipelines_keep_other_files_witness :
  files (snd (process_streaming (u "in.txt") (u "latin-1") identity (u "out.txt")
                (world_with {[ u "in.txt" := foo_bar; u "out.txt" := b "old";
                               u "other.txt" := b "precious" ]}
                   [u "y"] no_faults)))
    !! u "other.txt" = Some (b "precious")
  \/ exists lines_read lines_written,
       fst (process_streaming (u "in.txt") (u "latin-1") identity (u "out.txt")
              (world_with {[ u "in.txt" := foo_bar; u "out.txt" := b "old";
                             u "other.txt" := b "precious" ]}
                 [u "y"] no_faults))
       = Ok (lines_read, lines_written, Some (u "other.txt")).
Proof.
  apply (pipelines_keep_other_files (u "in.txt") (u "latin-1") identity (u "out.txt")
           (world_with {[ u "in.txt" := foo_bar; u "out.txt" := b "old";
                          u "other.txt" := b "precious" ]}
              [u "y"] no_faults)).
  - left. apply surjective_pairing.
  - vm_compute. reflexivity.
Defined.

(** The disk is full: [process_reverse] fails and the temporary file is the
    one new file. *)
Lemma reverse_failure_leaves_at_most_staging_witness :
  files (snd (process_reverse (u "in.txt") (u "latin-1") reverse_lines (u "out.txt")
                (world_with {[ u "in.txt" := foo_bar ]} [u "y"] disk_full)))
  = files (world_with {[ u "in.txt" := foo_bar ]} [u "y"] disk_full)
  \/ exists tmp content,
       files (world_with {[ u "in.txt" := foo_bar ]} [u "y"] disk_full) !! tmp = None
       /\ files (snd (process_reverse (u "in.txt") (u "latin-1") reverse_lines (u "out.txt")
                        (world_with {[ u "in.txt" := foo_bar ]} [u "y"] disk_full)))
          = <[tmp := content]>
              (files (world_with {[ u "in.txt" := foo_bar ]} [u "y"] disk_full)).
Proof.
  apply (reverse_failure_leaves_at_most_staging (u "in.txt") (u "latin-1") reverse_lines
           (u "out.txt")
           (world_with {[ u "in.txt" := foo_bar ]} [u "y"] disk_full)
           (snd (process_reverse (u "in.txt") (u "latin-1") reverse_lines (u "out.txt")
                   (world_with {[ u "in.txt" := foo_bar ]} [u "y"] disk_full)))
           OSError).
  vm_compute. reflexivity.
Defined.

End OutcomeRuns.

(** * More runs of the pipelines *)

Section MoreRuns.
Context `{Python}.

(** X20: when the output path exists and the user answers [y] (in any case,
    with any surrounding whitespace), [process_streaming] replaces the content
    of that path by the bytes of the kept chunks: one answer is read, and no
    other file changes. The output path may be the input path itself. *)
Theorem streaming_overwrite_confirmed (input_path encoding : str) (opt : dict)
    (output_path : str) (w : world) (tmp : str) (rest : list str) (c : codec)
    (data : bytes) (text : str) (rs : list (option str)) (content : bytes)
    (resp : str) (typed : list str) :
  (forall s, faults w s = None) ->
  mkstemp_inner (staging_dir output_path) (tmp_names w) (files w) = Some (tmp, rest) ->
  codecs_lookup encoding = Some c ->
  files w !! input_path = Some data ->
  codec_decode c data = Decoded text ->
  line_results opt 0 (text_lines text) rs ->
  encode_chunks c (chunks (text_lines text) rs) = Some content ->
  is_Some (files w !! output_path) ->
  stdin w = resp :: typed ->
  str_lower (Str.strip resp) = u "y" ->
  exists w',
    process_streaming input_path encoding opt output_path w
    = (Ok (N.of_nat (length (text_lines text)),
           N.of_nat (length (chunks (text_lines text) rs)), Some output_path), w')
    /\ files w' = <[output_path := content]> (files w)
    /\ stdin w' = typed.
Proof.
  intros Hquiet Htmp Hc Hdata Htext Hrs Hcontent Hout Hstdin Hresp.
  pose proof (mkstemp_inner_fresh _ _ _ _ _ Htmp) as Hfresh.
  rewrite (process_streaming_staged _ _ _ _ _ _ _ _ _ _ _ _
             Hquiet Htmp Hc Hdata Htext Hrs Hcontent).
  destruct (commit_overwrite_run tmp output_path
              (N.of_nat (length (text_lines text)), 0, None)
              (staged tmp rest content w) content resp typed)
    as (w' & Hcommit & Hfiles & Htyped); try done.
  - apply Hquiet.
  - rewrite staged_files, lookup_insert_ne; [done|]. intros ->.
    rewrite Hfresh in Hout. by destruct Hout.
  - by rewrite staged_files, lookup_insert_eq.
  - exists w'. split; [by erewrite bind_run by exact Hcommit|]. split; [|done].
    by rewrite Hfiles, staged_files, delete_insert_eq, delete_id.
Qed.





(** X23: on an input that does not exist, [process_streaming] creates its
    temporary file first, fails to open the input, removes the temporary
    file and raises [FileNotFoundError]: the files are as before. The name
    drawn for the temporary file must not be the input path itself. For
    [process_reverse], once the warning is answered, the same input fails
    before any temporary file is drawn. *)
Theorem pipelines_missing_input (input_path encoding : str) (opt : dict)
    (output_path : str) (w : world) :
  files w !! input_path = None ->
  (forall s, faults w s = None) ->
  (forall tmp rest c,
      mkstemp_inner (staging_dir output_path) (tmp_names w) (files w) = Some (tmp, rest) ->
      codecs_lookup encoding = Some c ->
      tmp ≠ input_path ->
      exists w',
        process_streaming input_path encoding opt output_path w
        = (Raise FileNotFoundError, w')
        /\ files w' = files w /\ tmp_names w' = rest)
  /\ (forall answer typed,
        stdin w = answer :: typed -> str_lower (Str.strip answer) ≠ u "n" ->
        exists w',
          process_reverse input_path encoding opt output_path w
          = (Raise FileNotFoundError, w')
          /\ files w' = files w /\ tmp_names w' = tmp_names w).
Proof.
  intros Hgone Hquiet. split.
  - intros tmp rest c Htmp Hc Hne.
    pose proof (mkstemp_inner_fresh _ _ _ _ _ Htmp) as Hfresh.
    unfold process_streaming.
    erewrite bind_run by (by apply NamedTemporaryFile_run).
    cbn [tmp_name].
    set (w1 := created tmp rest w).
    assert (Hopen : forall k : decoded -> M (N * N),
              (src <- open_read input_path encoding ;; k src) w1
              = (Raise FileNotFoundError, w1)).
    { intros k. apply bind_fail. unfold open_read.
      rewrite (bind_run _ _ w1 _ _ (fault_run SysOpen w1 (Hquiet SysOpen))).
      cbn. by rewrite lookup_insert_ne, Hgone. }
    eexists. split.
    + apply bind_fail. unfold with_tmp, try_except. rewrite Hopen.
      erewrite bind_run; cycle 1.
      { unfold try_pass. apply try_except_run.
        erewrite bind_run; cycle 1.
        { apply tmp_close_run; [apply Hquiet|]. cbn. apply list_elem_of_here. }
        apply os_remove_run; [apply Hquiet|]. cbn. rewrite lookup_insert_eq. by eexists. }
      unfold raise at 1.
      erewrite bind_run; cycle 1.
      { unfold tmp_close. cbn [open_files set_open_files set_files tmp_name w1 created].
        rewrite bool_decide_eq_false_2; [reflexivity|].
        rewrite list_elem_of_In, filter_In. intros [_ Hneg].
        by rewrite bool_decide_eq_true_2 in Hneg. }
      reflexivity.
    + cbn. rewrite delete_insert_eq, delete_id by done. done.
  - intros answer typed Hstdin Hanswer.
    unfold process_reverse.
    erewrite bind_run by reflexivity.
    erewrite bind_run by (by apply input_run).
    rewrite (bool_decide_eq_false_2 (str_lower (Str.strip answer) = u "n")) by done.
    eexists. split.
    + apply bind_fail. unfold open_read.
      erewrite bind_run; cycle 1.
      { apply fault_run. cbn. apply Hquiet. }
      cbn. by rewrite Hgone.
    + done.
Qed.

(** X24: a committed run of [process_streaming] writes the chunks in the
    order of the input: the line of ordinal [i] (counted from 0 over all the
    lines, skipped ones included) is transformed with index [i], the kept
    results are written with the line end of their own line, and the counters
    are the number of lines and the number of chunks. Nothing else changes in
    the files. *)
Theorem streaming_writes_in_order (input_path encoding : str) (opt : dict)
    (output_path : str) (w w' : world) (c : codec) (data : bytes) (text : str)
    (lines_read lines_written : N) (path : str) :
  files w !! input_path = Some data ->
  codecs_lookup encoding = Some c ->
  codec_decode c data = Decoded text ->
  process_streaming input_path encoding opt output_path w
    = (Ok (lines_read, lines_written, Some path), w') ->
  exists rs content,
    length rs = length (text_lines text)
    /\ (forall i l, text_lines text !! i = Some l ->
          exists r, rs !! i = Some r
                    /\ transform_line_core (Str.rstrip l [CR; LF]) (N.of_nat i) opt = Ok r)
    /\ lines_read = N.of_nat (length (text_lines text))
    /\ lines_written = N.of_nat (length (chunks (text_lines text) rs))
    /\ encode_chunks c (chunks (text_lines text) rs) = Some content
    /\ files w' = <[path := content]> (files w).
Proof.
  intros Hdata Hc Htext Hrun.
  apply process_streaming_ok in Hrun
    as (tmp & data' & text' & rs & content & Hfresh & Hdata' & Hcodec & Htext' & Hrs
        & Hcontent & Hres).
  rewrite Hc in Hcodec. injection Hcodec as Hcodec. rewrite <- Hcodec in *.
  assert (tmp_name tmp ≠ input_path) by (intros <-; congruence).
  rewrite lookup_insert_ne, Hdata in Hdata' by done. injection Hdata' as <-.
  rewrite Htext in Htext'. injection Htext' as <-.
  destruct Hres as [[[=] _]|(path' & [= -> -> ->] & Hw')].
  exists rs, content.
  split; [by apply (line_results_length opt _ 0)|]. split; [|done].
  intros i l Hl. by apply (line_results_lookup opt _ 0 rs i l Hrs Hl).
Qed.

(** X25: reversing twice gives the text back. When the line separator is
    ["\n"], the codec encodes character by character and decodes what it
    encoded, and the text has no carriage return and ends with a newline
    (or is empty), a committed run of [process_reverse] with [ReverseLines] on
    the output of a committed run on the input leaves the encoding of the
    input text. *)
Theorem reverse_twice_restores (input_path encoding : str) (opt : dict)
    (first_path second_path : str) (w w1 w2 : world) (c : codec) (data : bytes)
    (text : str) (read1 written1 read2 written2 : N) (path1 path2 : str) :
  opt !! u "choice" = Some (u "6") ->
  os_linesep = [LF] ->
  codecs_lookup encoding = Some c ->
  codec_encode c [] = Some [] ->
  (forall a b da db, codec_encode c a = Some da -> codec_encode c b = Some db ->
                     codec_encode c (a ++ b) = Some (da ++ db)) ->
  (forall s d, codec_encode c s = Some d -> codec_decode c d = Decoded s) ->
  files w !! input_path = Some data ->
  codec_decode c data = Decoded text ->
  CR ∉ text ->
  Forall (fun l => Str.endswith l [LF] = true) (text_lines text) ->
  process_reverse input_path encoding opt first_path w
    = (Ok (read1, written1, Some path1), w1) ->
  process_reverse path1 encoding opt second_path w1
    = (Ok (read2, written2, Some path2), w2) ->
  exists content,
    files w2 !! path2 = Some content
    /\ codec_encode c text = Some content
    /\ read2 = read1 /\ written2 = written1.
Proof.
  intros Hopt Hsep Hc Hnil Happ Hround Hdata Htext Hcr Hnl Hrun1 Hrun2.
  pose proof (text_lines_shape text) as Hshape.
  pose proof (text_lines_no_cr text) as Hnocr.
  set (lines := text_lines text) in *.
  assert (Hlines : concat lines = text).
  { unfold lines, text_lines. by rewrite concat_splitlines, universal_newlines_id. }
  (* the first run *)
  apply process_reverse_ok in Hrun1 as [[[=] _]|Hrun1].
  destruct Hrun1 as (c1 & data1 & text1 & rs1 & content1 & p1 & Hdata1 & Hc1 & Htext1
                     & Hrs1 & Hcontent1 & [= -> -> ->] & Hw1).
  rewrite Hdata in Hdata1. injection Hdata1 as <-.
  rewrite Hc in Hc1. injection Hc1 as <-.
  rewrite Htext in Htext1. injection Htext1 as <-. fold lines in Hrs1, Hcontent1 |- *.
  assert (Hid1 : chunks lines rs1 = lines).
  { eapply chunks_passthrough; eauto. }
  rewrite Hid1 in Hcontent1.
  apply (encode_chunks_concat c _ Hsep Hnil Happ) in Hcontent1.
  pose proof (Hround _ _ Hcontent1) as Hdecode1.
  (* the text the second run reads *)
  assert (Hterm : Forall terminated_line (reverse lines)).
  { apply Forall_reverse, Forall_forall. intros l Hl.
    apply line_shape_terminated.
    - by apply (proj1 (Forall_forall _ _) Hshape).
    - by apply (proj1 (Forall_forall _ _) Hnl). }
  assert (Hcr2 : CR ∉ concat (reverse lines)).
  { intros (l & Hl & Hin)%list_elem_of_In%in_concat.
    apply list_elem_of_In in Hl, Hin. rewrite elem_of_reverse in Hl.
    by apply (proj1 (Forall_forall _ _) Hnocr l). }
  assert (Hlines2 : text_lines (concat (reverse lines)) = reverse lines).
  { unfold text_lines. by rewrite universal_newlines_id, splitlines_concat. }
  (* the second run *)
  apply process_reverse_ok in Hrun2 as [[[=] _]|Hrun2].
  destruct Hrun2 as (c2 & data2 & text2 & rs2 & content2 & p2 & Hdata2 & Hc2 & Htext2
                     & Hrs2 & Hcontent2 & [= -> -> ->] & Hw2).
  rewrite Hw1, lookup_insert_eq in Hdata2. injection Hdata2 as <-.
  rewrite Hc in Hc2. injection Hc2 as <-.
  rewrite Hdecode1 in Htext2. injection Htext2 as <-.
  rewrite Hlines2 in Hrs2, Hcontent2 |- *.
  assert (Hid2 : chunks (reverse lines) rs2 = reverse lines).
  { eapply chunks_passthrough; eauto.
    - by apply Forall_reverse.
    - by apply Forall_reverse. }
  rewrite Hid2, reverse_involutive in Hcontent2.
  apply (encode_chunks_concat c _ Hsep Hnil Happ) in Hcontent2.
  rewrite Hlines in Hcontent2.
  exists content2. rewrite Hw2, lookup_insert_eq, Hid1, Hid2, !length_reverse. done.
Qed.

End MoreRuns.

Lemma latin1_decode_encode (s : str) (d : bytes) :
  Example.latin1_encode s = Some d -> Byte.to_N <$> d = s.
Proof.
  unfold Example.latin1_encode. rewrite mapM_Some.
  induction 1 as [|c x s d Hc _ IH]; [done|].
  rewrite fmap_cons, IH. f_equal. by apply Byte.to_of_N.
Qed.

Section MoreRunsOnExamples.
Import Example.

(** Upper case written over the input itself, the answer being [" Y "]. *)
Lemma streaming_overwrite_confirmed_witness :
  exists w',
    process_streaming (u "in.txt") (u "latin-1") {[ u "choice" := u "2" ]} (u "in.txt")
      (world_with {[ u "in.txt" := foo_bar ]} [u " Y "] no_faults)
    = (Ok (2, 2, Some (u "in.txt")), w')
    /\ files w' = <[u "in.txt" := b "FOO" ++ [x0a] ++ b "BAR" ++ [x0a]]>
                     (files (world_with {[ u "in.txt" := foo_bar ]} [u " Y "] no_faults))
    /\ stdin w' = [].
Proof.
  destruct (streaming_overwrite_confirmed (u "in.txt") (u "latin-1")
              {[ u "choice" := u "2" ]} (u "in.txt")
              (world_with {[ u "in.txt" := foo_bar ]} [u " Y "] no_faults)
              (u "./tmpabc") [] latin1 foo_bar (Byte.to_N <$> foo_bar)
              [Some (u "FOO"); Some (u "BAR")] (b "FOO" ++ [x0a] ++ b "BAR" ++ [x0a])
              (u " Y ") [])
    as (w' & Hrun & Hfiles & Htyped).
  - reflexivity.
  - vm_compute. reflexivity.
  - vm_compute. reflexivity.
  - vm_compute. reflexivity.
  - reflexivity.
  - vm_compute. done.
  - vm_compute. reflexivity.
  - vm_compute. by eexists.
  - reflexivity.
  - vm_compute. reflexivity.
  - exists w'. split; [exact Hrun|]. split; [exact Hfiles | exact Htyped].
Defined.



(** [gone.txt] does not exist. *)
Lemma pipelines_missing_input_witness :
  (exists w',
     process_streaming (u "gone.txt") (u "latin-1") identity (u "out.txt")
       (world_with {[ u "in.txt" := foo_bar ]} [u "y"] no_faults)
     = (Raise FileNotFoundError, w')
     /\ files w' = {[ u "in.txt" := foo_bar ]})
  /\ (exists w',
        process_reverse (u "gone.txt") (u "latin-1") reverse_lines (u "out.txt")
          (world_with {[ u "in.txt" := foo_bar ]} [u "y"] no_faults)
        = (Raise FileNotFoundError, w')
        /\ files w' = {[ u "in.txt" := foo_bar ]} /\ tmp_names w' = [u "abc"]).
Proof.
  destruct (pipelines_missing_input (u "gone.txt") (u "latin-1") identity (u "out.txt")
              (world_with {[ u "in.txt" := foo_bar ]} [u "y"] no_faults))
    as [Hstreaming _]; [vm_compute; reflexivity | reflexivity |].
  destruct (pipelines_missing_input (u "gone.txt") (u "latin-1") reverse_lines (u "out.txt")
              (world_with {[ u "in.txt" := foo_bar ]} [u "y"] no_faults))
    as [_ Hreverse]; [vm_compute; reflexivity | reflexivity |].
  split.
  - destruct (Hstreaming (u "./tmpabc") [] latin1) as (w' & Hrun & Hfiles & _).
    + vm_compute. reflexivity.
    + vm_compute. reflexivity.
    + by vm_compute.
    + exists w'. split; [exact Hrun | exact Hfiles].
  - destruct (Hreverse (u "y") []) as (w' & Hrun & Hfiles & Hnames).
    + reflexivity.
    + by vm_compute.
    + exists w'. split; [exact Hrun|]. split; [exact Hfiles | exact Hnames].
Defined.

(** Line numbers on two lines. *)
Lemma streaming_writes_in_order_witness :
  exists rs content,
    length rs = length (text_lines (Byte.to_N <$> foo_bar))
    /\ (forall i l, text_lines (Byte.to_N <$> foo_bar) !! i = Some l ->
          exists r, rs !! i = Some r
                    /\ transform_line_core (Str.rstrip l [CR; LF]) (N.of_nat i)
                         {[ u "choice" := u "1" ]} = Ok r)
    /\ (2 : N) = N.of_nat (length (text_lines (Byte.to_N <$> foo_bar)))
    /\ (2 : N) = N.of_nat (length (chunks (text_lines (Byte.to_N <$> foo_bar)) rs))
    /\ encode_chunks latin1 (chunks (text_lines (Byte.to_N <$> foo_bar)) rs) = Some content
    /\ files (snd (process_streaming (u "in.txt") (u "latin-1") {[ u "choice" := u "1" ]}
                     (u "out.txt")
                     (world_with {[ u "in.txt" := foo_bar ]} [] no_faults)))
       = <[u "out.txt" := content]>
           (files (world_with {[ u "in.txt" := foo_bar ]} [] no_faults)).
Proof.
  apply (streaming_writes_in_order (u "in.txt") (u "latin-1") {[ u "choice" := u "1" ]}
           (u "out.txt")
           (world_with {[ u "in.txt" := foo_bar ]} [] no_faults)
           (snd (process_streaming (u "in.txt") (u "latin-1") {[ u "choice" := u "1" ]}
                   (u "out.txt")
                   (world_with {[ u "in.txt" := foo_bar ]} [] no_faults)))
           latin1 foo_bar (Byte.to_N <$> foo_bar) 2 2 (u "out.txt")).
  - vm_compute. reflexivity.
  - vm_compute. reflexivity.
  - reflexivity.
  - vm_compute. reflexivity.
Defined.

(** ["foo\nbar\n"] reversed into [mid.txt], and [mid.txt] reversed into
    [out.txt]. *)
Lemma reverse_twice_restores_witness :
  exists content,
    files (snd (process_reverse (u "mid.txt") (u "latin-1") reverse_lines (u "out.txt")
                  (snd (process_reverse (u "in.txt") (u "latin-1") reverse_lines
                          (u "mid.txt")
                          (World {[ u "in.txt" := foo_bar ]} [] [u "y"; u "y"] []
                             [u "abc"; u "def"] no_faults)))))
      !! u "out.txt" = Some content
    /\ latin1_encode (Byte.to_N <$> foo_bar) = Some content
    /\ (2 : N) = 2 /\ (2 : N) = 2.
Proof.
  apply (reverse_twice_restores (u "in.txt") (u "latin-1") reverse_lines
           (u "mid.txt") (u "out.txt")
           (World {[ u "in.txt" := foo_bar ]} [] [u "y"; u "y"] []
              [u "abc"; u "def"] no_faults)
           (snd (process_reverse (u "in.txt") (u "latin-1") reverse_lines (u "mid.txt")
                   (World {[ u "in.txt" := foo_bar ]} [] [u "y"; u "y"] []
                      [u "abc"; u "def"] no_faults)))
           (snd (process_reverse (u "mid.txt") (u "latin-1") reverse_lines (u "out.txt")
                   (snd (process_reverse (u "in.txt") (u "latin-1") reverse_lines
                           (u "mid.txt")
                           (World {[ u "in.txt" := foo_bar ]} [] [u "y"; u "y"] []
                              [u "abc"; u "def"] no_faults)))))
           latin1 foo_bar (Byte.to_N <$> foo_bar) 2 2 2 2 (u "mid.txt") (u "out.txt")).
  - vm_compute. reflexivity.
  - reflexivity.
  - vm_compute. reflexivity.
  - reflexivity.
  - apply latin1_encode_app.
  - intros s d Hs. cbn. f_equal. by apply latin1_decode_encode.
  - vm_compute. reflexivity.
  - reflexivity.
  - apply (bool_decide_unpack _). by vm_compute.
  - vm_compute. repeat constructor.
  - vm_compute. reflexivity.
  - vm_compute. reflexivity.
Defined.

End MoreRunsOnExamples.

(** * The extension of the suggested output name *)

Section OutputExtension.

Lemma lstrip_by_split (f : N -> bool) (s : str) (c : N) (rest : str) :
  Str.lstrip_by f s = c :: rest ->
  f c = false /\ exists x, s = x ++ c :: rest /\ Forall (fun a => f a = true) x.
Proof.
  induction s as [|a s IH]; simpl; [done|].
  destruct (f a) eqn:Ha.
  - intros (Hc & x & -> & Hx)%IH. split; [done|]. exists (a :: x). by split; [|constructor].
  - intros [= -> ->]. split; [done|]. by exists [].
Qed.

(** A last component [stem ++ "." ++ e], [e] without dot and [stem] not made
    of dots only, has the extension ["." ++ e]. *)
Lemma splitext_dot (p head stem e : str) :
  cut_at_last_sep p head (stem ++ os_path.DOT :: e) ->
  os_path.DOT ∉ e ->
  forallb (fun c => c =? os_path.DOT) stem = false ->
  os_path.splitext p = (head ++ stem, os_path.DOT :: e).
Proof.
  intros Hcut He Hstem. unfold os_path.splitext.
  rewrite (cut_split _ _ _ Hcut). cbn [snd].
  rewrite reverse_app, reverse_cons, <- app_assoc. cbn [app].
  rewrite lstrip_by_app; cycle 1.
  { apply Forall_reverse, Forall_forall. intros c Hc.
    destruct (N.eqb_spec c os_path.DOT) as [->|]; done. }
  cbn [Str.lstrip_by]. rewrite N.eqb_refl. cbn [negb].
  assert (Hrev : forallb (fun c => c =? os_path.DOT) (reverse stem) = false).
  { destruct (forallb _ (reverse stem)) eqn:Hall; [|done].
    rewrite <- Hstem. symmetry. apply forallb_forall. intros c Hc.
    apply (proj1 (forallb_forall _ _) Hall), list_elem_of_In, elem_of_reverse.
    by apply list_elem_of_In. }
  rewrite Hrev. destruct Hcut as (-> & _ & _).
  rewrite !length_app, length_reverse. cbn [length].
  replace (length head + (length stem + S (length e))
           - (length stem + S (length e) - length stem))%nat
    with (length (head ++ stem)) by (rewrite length_app; lia).
  rewrite app_assoc. by rewrite take_app_length, drop_app_length.
Qed.

(** The extension [splitext] returns is empty or a dot followed by
    characters other than the dot. *)
Lemma splitext_shape (p : str) :
  snd (os_path.splitext p) = []
  \/ exists e, snd (os_path.splitext p) = os_path.DOT :: e /\ os_path.DOT ∉ e.
Proof.
  destruct (cut_exists p) as (head & tail & Hcut).
  unfold os_path.splitext. rewrite (cut_split _ _ _ Hcut). cbn [snd].
  destruct (Str.lstrip_by _ (reverse tail)) as [|dot before] eqn:Hstrip; [by left|].
  destruct (forallb _ before); [by left|]. right.
  apply lstrip_by_split in Hstrip as (Hdot & x & Hrev & Hx).
  assert (dot = os_path.DOT) as ->.
  { apply negb_false_iff in Hdot. by apply N.eqb_eq in Hdot. }
  assert (Htail : tail = reverse before ++ os_path.DOT :: reverse x).
  { rewrite <- (reverse_involutive tail), Hrev, reverse_app, reverse_cons, <- app_assoc.
    done. }
  exists (reverse x). cbn [snd]. split.
  - destruct Hcut as (-> & _ & _). rewrite Htail.
    rewrite !length_app, length_reverse. cbn [length]. rewrite length_reverse.
    replace (length head + (length before + S (length x))
             - (length before + S (length x) - length before))%nat
      with (length (head ++ reverse before))
      by (rewrite length_app, length_reverse; lia).
    rewrite app_assoc. by rewrite drop_app_length.
  - rewrite elem_of_reverse. intros Hin.
    apply (proj1 (Forall_forall _ _) Hx) in Hin. by rewrite N.eqb_refl in Hin.
Qed.

(** X26: the suggested output name has the extension of the input name, and
    [".txt"] when the input name has none. *)
Theorem make_output_filename_extension (input_path : str) :
  let ext := snd (os_path.splitext (snd (os_path.split input_path))) in
  snd (os_path.splitext (make_output_filename input_path))
  = if bool_decide (ext = u "") then u ".txt" else ext.
Proof.
  intros ext.
  destruct (cut_exists input_path) as (head & tail & Hcut).
  assert (Htail : SEP ∉ tail) by apply Hcut.
  assert (Hfname : snd (os_path.split input_path) = tail)
    by (by rewrite (cut_split _ _ _ Hcut)).
  unfold make_output_filename. fold ext. rewrite Hfname. cbn [fst os_path.split].
  destruct (suggested_name_plain tail Htail) as [Hne Hsep].
  assert (Hext : ext = snd (os_path.splitext tail)) by (unfold ext; by rewrite Hfname).
  rewrite <- Hext in Hne, Hsep.
  destruct (join_dirname_name input_path _ Hne Hsep) as (head' & Hcut' & _).
  assert (Hdot : exists e, (if bool_decide (ext = u "") then u ".txt" else ext)
                           = os_path.DOT :: e /\ os_path.DOT ∉ e).
  { case_bool_decide as Hnil.
    - exists (u "txt"). split; [done|]. apply (bool_decide_unpack _). by vm_compute.
    - destruct (splitext_shape tail) as [Hnone|Hsome]; [|by rewrite Hext].
      by rewrite <- Hext in Hnone. }
  destruct Hdot as (e & He & Hnodot). rewrite He in Hcut' |- *.
  rewrite (app_assoc (fst (os_path.splitext tail)) (u "_modified")) in Hcut' |- *.
  erewrite splitext_dot; [done | exact Hcut' | done |].
  rewrite forallb_app. apply andb_false_intro2. by vm_compute.
Qed.

End OutputExtension.

(** * The front end *)

Section FrontEndFacts.
Context `{Python} `{Platform}.

Lemma console_only_refl (w : world) : console_only w w.
Proof. by repeat split. Qed.

Lemma console_only_trans (w w1 w2 : world) :
  console_only w w1 -> console_only w1 w2 -> console_only w w2.
Proof.
  intros (? & ? & ? & ? & ?) (? & ? & ? & ? & ?).
  repeat split; try congruence. lia.
Qed.

Lemma print_console (s : str) (w w' : world) (r : result unit) :
  print s w = (r, w') -> r = Ok tt /\ console_only w w' /\ stdin w' = stdin w.
Proof. intros [= <- <-]. by repeat split. Qed.

(** [input]: [EOFError] when nothing is left to type, the next line
    otherwise. *)
Lemma input_any (prompt : str) (w w' : world) (r : result str) :
  input prompt w = (r, w') ->
  console_only w w'
  /\ ((r = Raise EOFError /\ stdin w = [])
      \/ exists line, r = Ok line /\ stdin w = line :: stdin w').
Proof.
  unfold input, bind, sys_stdout_write. cbn [stdin set_stdout].
  destruct (stdin w) as [|line rest] eqn:Hstdin; intros [= <- <-].
  - split; [|by left]. repeat split. cbn. by rewrite Hstdin.
  - split; [|right; by exists line]. repeat split. cbn. rewrite Hstdin. simpl. lia.
Qed.

Lemma probe_console (filename enc : str) (w w1 : world) :
  console_only w w1 -> fst (probe filename enc w1) = fst (probe filename enc w).
Proof.
  intros (Hf & Hq & _). unfold probe, bind, open_read, bind, fault.
  rewrite Hq. destruct (faults w SysOpen); [done|]. cbn beta iota.
  rewrite Hf. destruct (files w !! filename); [|done].
  destruct (codecs_lookup enc) as [c|]; [|done].
  unfold readline. by destruct (iter_lines _) as [[|x xs] [e|]].
Qed.

(** What [choose_encoding_try] returns is a candidate whose probe
    succeeds. *)
Lemma choose_encoding_try_any (filename : str) (encodings : list str) (w w' : world)
    (r : result str) :
  choose_encoding_try filename encodings w = (r, w') ->
  w' = w
  /\ forall enc, r = Ok enc ->
       enc ∈ encodings /\ exists line, fst (probe filename enc w) = Ok line.
Proof.
  revert r w'. induction encodings as [|e encodings IH]; intros r w'.
  - intros [= <- <-]. by split.
  - rewrite choose_encoding_try_cons.
    destruct (fst (probe filename e w)) as [line|err] eqn:He.
    + intros [= <- <-]. split; [done|]. intros enc [= <-].
      split; [apply list_elem_of_here | by exists line].
    + destruct err; try (intros [= <- <-]; by split).
      intros [-> Hok]%IH. split; [done|]. intros enc Henc.
      destruct (Hok enc Henc) as [Hin Hline]. split; [by apply list_elem_of_further | done].
Qed.

(** An outcome of the loop one round later. *)
Lemma input_file_outcome_later (fuel : nat) (w w1 w' : world)
    (r : result (option (or_exit (str * str)))) :
  console_only w w1 -> (S (length (stdin w1)) <= length (stdin w))%nat ->
  input_file_outcome fuel w1 r w' -> input_file_outcome (S fuel) w r w'.
Proof.
  intros Hw1 Hless [Hw' Hr]. split; [by eapply console_only_trans|].
  destruct r as [[[[fname enc]|code]|]|e]; try done.
  - destruct Hr as (Hfile & Hdir & Henc & line & Hline).
    pose proof Hw1 as (Hf & _). rewrite Hf in Hfile.
    repeat split; try done. exists line.
    by rewrite <- (probe_console fname enc w w1) by done.
  - lia.
Qed.

(** The question asked after a failure: [n] exits with 1, anything else
    starts the next round. *)
Lemma retry_outcome (question : str) (fuel : nat) (w w' : world)
    (r : result (option (or_exit (str * str)))) :
  (forall w1 w1' r1, prompt_input_file_loop fuel w1 = (r1, w1') ->
                     input_file_outcome fuel w1 r1 w1') ->
  (answer <- input question ;;
   let answer := str_lower (Str.strip answer) in
   if bool_decide (answer = u "n") then ret (Some (Exit 1))
   else prompt_input_file_loop fuel) w = (r, w') ->
  input_file_outcome fuel w r w'.
Proof.
  intros IH Hrun.
  apply bind_any in Hrun as [(e & [Hw [[[= ->] _]|(line & [=] & _)]]%input_any & ->)
                            |(answer & w1 & [Hw1 Hin]%input_any & Hrun)].
  { by split. }
  destruct Hin as [[[=] _]|(line & [= <-] & Hstdin)].
  cbn zeta in Hrun. case_bool_decide.
  - injection Hrun as <- <-. split; [done | by right].
  - apply IH in Hrun as [Hw' Hr]. split; [by eapply console_only_trans|].
    destruct r as [[[[fname enc]|code]|]|e]; try done.
    + destruct Hr as (Hfile & Hdir & Henc & l & Hl). pose proof Hw1 as (Hf & _).
      rewrite Hf in Hfile. repeat split; try done. exists l.
      by rewrite <- (probe_console fname enc w w1) by done.
    + rewrite Hstdin. simpl. lia.
Qed.

Lemma prompt_input_file_loop_any (fuel : nat) :
  forall (w w' : world) (r : result (option (or_exit (str * str)))),
  prompt_input_file_loop fuel w = (r, w') -> input_file_outcome fuel w r w'.
Proof.
  induction fuel as [|fuel IH]; intros w w' r; cbn [prompt_input_file_loop].
  { intros [= <- <-]. split; [apply console_only_refl | simpl; lia]. }
  intros Hrun.
  apply bind_any in Hrun as [(e & [Hw [[[= ->] _]|(line & [=] & _)]]%input_any & ->)
                            |(inp & w1 & [Hw1 Hin]%input_any & Hrun)].
  { by split. }
  destruct Hin as [[[=] _]|(line & [= ->] & Hstdin)].
  assert (Hless : (S (length (stdin w1)) <= length (stdin w))%nat)
    by (rewrite Hstdin; simpl; lia).
  cbn zeta in Hrun. case_bool_decide.
  { apply bind_any in Hrun as [(e & [[=] _]%print_console & _)
                              |([] & w2 & (_ & Hw2 & _)%print_console & [= <- <-])].
    split; [by eapply console_only_trans | by left]. }
  set (fname := os_path_expanduser (os_path_expandvars (Str.strip line))) in *.
  apply bind_any in Hrun as [(e & [=] & _)|(is_file & w2 & [= <- <-] & Hrun)].
  destruct (bool_decide (is_Some (files w1 !! fname))) eqn:Hfile;
    destruct (os_path_isdir fname) eqn:Hdir; cbn [orb negb] in Hrun.
  - apply bind_any in Hrun as [(e & [[=] _]%print_console & _)
                              |([] & w2 & (_ & Hw2 & Hs2)%print_console & Hrun)].
    apply IH in Hrun. apply (input_file_outcome_later fuel w w2); [|congruence|done].
    by eapply console_only_trans.
  - apply bool_decide_eq_true in Hfile.
    apply try_except_any in Hrun as [(a & Hbody & ->)|(e & w2 & Hbody & Hhandler)].
    + apply bind_any in Hbody as [(e & _ & [=])|(enc & w2 & Henc & [= <- <-])].
      apply choose_encoding_try_any in Henc as [-> Hok].
      destruct (Hok enc eq_refl) as [Hin [l Hl]].
      split; [done|]. pose proof Hw1 as (Hf & _). rewrite Hf in Hfile.
      repeat split; try done. exists l.
      by rewrite <- (probe_console fname enc w w1) by done.
    + assert (w2 = w1) as ->.
      { apply bind_any in Hbody as [(e' & [-> _]%choose_encoding_try_any & _)
                                   |(enc & w3 & _ & [=])]. done. }
      assert (Hask : forall question text,
                (_ <- print text ;;
                 answer <- input question ;;
                 let answer := str_lower (Str.strip answer) in
                 if bool_decide (answer = u "n") then ret (Some (Exit 1))
                 else prompt_input_file_loop fuel) w1 = (r, w') ->
                input_file_outcome (S fuel) w r w').
      { intros question text Hq.
        apply bind_any in Hq as [(e' & [[=] _]%print_console & _)
                                |([] & w3 & (_ & Hw3 & Hs3)%print_console & Hq)].
        apply (retry_outcome _ _ _ _ _ IH) in Hq.
        apply (input_file_outcome_later fuel w w3); [|congruence|done].
        by eapply console_only_trans. }
      destruct e; try (by eapply Hask).
      apply bind_any in Hhandler as [(e' & [[=] _]%print_console & _)
                                    |([] & w3 & (_ & Hw3 & Hs3)%print_console & Hq)].
      apply IH in Hq. apply (input_file_outcome_later fuel w w3); [|congruence|done].
      by eapply console_only_trans.
  - apply bind_any in Hrun as [(e & [[=] _]%print_console & _)
                              |([] & w2 & (_ & Hw2 & Hs2)%print_console & Hrun)].
    apply IH in Hrun. apply (input_file_outcome_later fuel w w2); [|congruence|done].
    by eapply console_only_trans.
  - apply bind_any in Hrun as [(e & [[=] _]%print_console & _)
                              |([] & w2 & (_ & Hw2 & Hs2)%print_console & Hrun)].
    apply IH in Hrun. apply (input_file_outcome_later fuel w w2); [|congruence|done].
    by eapply console_only_trans.
Qed.

Lemma choose_encoding_try_run (filename : str) (pre : list str) (enc : str)
    (post : list str) (w : world) :
  Forall (fun e => fst (probe filename e w) = Raise UnicodeDecodeError) pre ->
  (exists line, fst (probe filename enc w) = Ok line) ->
  choose_encoding_try filename (pre ++ enc :: post) w = (Ok enc, w).
Proof.
  intros Hpre [line Hline].
  induction Hpre as [|e pre He Hpre IH]; simpl app; rewrite choose_encoding_try_cons.
  - by rewrite Hline.
  - by rewrite He.
Qed.

(** A line that names a readable file is accepted at once. *)
Lemma prompt_input_file_accepts (w : world) (line : str) (rest pre : list str)
    (enc : str) (post : list str) :
  stdin w = line :: rest ->
  str_lower (Str.strip line) ≠ u "q" ->
  is_Some (files w !! os_path_expanduser (os_path_expandvars (Str.strip line))) ->
  os_path_isdir (os_path_expanduser (os_path_expandvars (Str.strip line))) = false ->
  default_encodings = pre ++ enc :: post ->
  Forall (fun e => fst (probe (os_path_expanduser (os_path_expandvars (Str.strip line)))
                          e w) = Raise UnicodeDecodeError) pre ->
  (exists l, fst (probe (os_path_expanduser (os_path_expandvars (Str.strip line)))
                    enc w) = Ok l) ->
  prompt_input_file w
  = (Ok (Some (Return (os_path_expanduser (os_path_expandvars (Str.strip line)), enc))),
     set_stdin (fun _ => rest)
       (set_stdout
          (fun out => out ++ [u "Enter the path to the input file (or 'q' to quit): "])
          w)).
Proof.
  intros Hstdin Hq Hfile Hdir Hdefault Hpre Hok.
  set (fname := os_path_expanduser (os_path_expandvars (Str.strip line))) in *.
  unfold prompt_input_file. rewrite Hstdin. cbn [length prompt_input_file_loop].
  erewrite bind_run by (by apply input_run).
  rewrite (bool_decide_eq_false_2 (str_lower (Str.strip line) = u "q")) by done.
  fold fname.
  set (w1 := set_stdin _ _).
  assert (Hw1 : console_only w w1).
  { repeat split. cbn. rewrite Hstdin. simpl. lia. }
  erewrite bind_run by reflexivity.
  rewrite (bool_decide_eq_true_2 (is_Some (files w1 !! fname))) by done.
  rewrite Hdir. cbn [orb negb].
  apply try_except_run. erewrite bind_run; [reflexivity|].
  rewrite Hdefault. apply choose_encoding_try_run.
  + eapply Forall_impl; [exact Hpre|]. intros e He. cbn beta in He.
    by rewrite (probe_console fname e w w1).
  + destruct Hok as [l Hl]. exists l. by rewrite (probe_console fname enc w w1).
Qed.

(** X27: [prompt_input_file] returns only a path that names an existing
    file and no directory, with the first default encoding whose probe
    succeeds, and it leaves the files alone; and when the line typed names
    such a file (after stripping and the expansion of variables and of [~]),
    it is returned at once, with the first default encoding that can read
    it. *)
Theorem prompt_input_file_returns_readable (w : world) :
  (forall fname enc w',
      prompt_input_file w = (Ok (Some (Return (fname, enc))), w') ->
      is_Some (files w !! fname) /\ os_path_isdir fname = false
      /\ enc ∈ default_encodings
      /\ (exists line, fst (probe fname enc w) = Ok line)
      /\ files w' = files w)
  /\ (forall line rest pre enc post,
        stdin w = line :: rest ->
        str_lower (Str.strip line) ≠ u "q" ->
        is_Some (files w !! os_path_expanduser (os_path_expandvars (Str.strip line))) ->
        os_path_isdir (os_path_expanduser (os_path_expandvars (Str.strip line))) = false ->
        default_encodings = pre ++ enc :: post ->
        Forall (fun e => fst (probe (os_path_expanduser (os_path_expandvars (Str.strip line)))
                                e w) = Raise UnicodeDecodeError) pre ->
        (exists l, fst (probe (os_path_expanduser (os_path_expandvars (Str.strip line)))
                          enc w) = Ok l) ->
        exists w',
          prompt_input_file w
          = (Ok (Some (Return (os_path_expanduser (os_path_expandvars (Str.strip line)),
                               enc))), w')
          /\ stdin w' = rest /\ files w' = files w).
Proof.
  split.
  - intros fname enc w' Hrun. unfold prompt_input_file in Hrun.
    apply prompt_input_file_loop_any in Hrun as [(Hf & _) (? & ? & ? & ?)].
    by repeat split.
  - intros line rest pre enc post Hstdin Hq Hfile Hdir Hdefault Hpre Hok.
    eexists. split; [by eapply prompt_input_file_accepts|]. by split.
Qed.

(** X28: [prompt_input_file] always comes to an end: it raises [EOFError]
    (the typed input is used up), exits with code 0 or 1, or returns a path
    and an encoding; it raises nothing else, the loop never needs more rounds
    than there are typed lines, and no file is touched. *)
Theorem prompt_input_file_ends (w w' : world)
    (r : result (option (or_exit (str * str)))) :
  prompt_input_file w = (r, w') ->
  files w' = files w
  /\ (r = Raise EOFError \/ r = Ok (Some (Exit 0)) \/ r = Ok (Some (Exit 1))
      \/ exists fname enc, r = Ok (Some (Return (fname, enc)))).
Proof.
  unfold prompt_input_file. intros [(Hf & _ & _ & _ & Hlen) Hr]%prompt_input_file_loop_any.
  split; [done|].
  destruct r as [[[[fname enc]|code]|]|e].
  - right. right. right. by exists fname, enc.
  - destruct Hr as [->| ->]; [right; by left | right; right; by left].
  - lia.
  - left. by rewrite Hr.
Qed.

Lemma prompt_transformation_any (w w' : world) (r : result dict) :
  prompt_transformation w = (r, w') ->
  console_only w w'
  /\ (r = Raise EOFError \/ exists opt choice, r = Ok opt /\ opt !! u "choice" = Some choice).
Proof.
  destruct w as [fs op typed out names fl].
  unfold prompt_transformation. rewrite menu_choices.
  unfold print, input, sys_stdout_write, bind, ret.
  cbn [stdin set_stdout set_stdin files open_files stdout tmp_names faults].
  destruct typed as [|line rest].
  { intros [= <- <-]. split; [by repeat split | by left]. }
  cbn zeta.
  set (menu := [u "1"; u "2"; u "3"; u "4"; u "5"; u "6"; u "7"]).
  set (typed := Str.strip line).
  destruct (decide (typed ∈ menu)) as [Hin|Hout].
  - rewrite (bool_decide_eq_false_2 (typed ∉ menu)) by (intros Hnot; by apply Hnot).
    cbn [stdin set_stdout set_stdin files open_files stdout tmp_names faults].
    destruct (decide (typed = u "5")) as [H5|H5].
    + rewrite !(bool_decide_eq_true_2 (typed = u "5")) by done.
      cbn [stdin set_stdout set_stdin files open_files stdout tmp_names faults].
      destruct rest as [|target [|replacement rest']]; intros [= <- <-].
      * split; [repeat split; cbn; lia | by left].
      * split; [repeat split; cbn; lia | by left].
      * split; [repeat split; cbn; lia|]. right. by eexists _, _.
    + rewrite !(bool_decide_eq_false_2 (typed = u "5")) by done.
      intros [= <- <-]. split; [repeat split; cbn; lia|]. right.
      eexists _, _. split; [done | apply lookup_singleton_eq].
  - rewrite (bool_decide_eq_true_2 (typed ∉ menu)) by done.
    cbn [stdin set_stdout set_stdin files open_files stdout tmp_names faults].
    rewrite !(bool_decide_eq_false_2 (u "7" = u "5")) by done.
    intros [= <- <-]. split; [repeat split; cbn; lia|]. right.
    eexists _, _. split; [done | apply lookup_singleton_eq].
Qed.

(** What a pipeline does to the files, whatever its outcome. *)
Lemma pipeline_files (reverse_chosen : bool) (input_path encoding : str) (opt : dict)
    (output_path : str) (w w' : world) (r : result pipeline_result) :
  (if reverse_chosen
   then process_reverse input_path encoding opt output_path
   else process_streaming input_path encoding opt output_path) w = (r, w') ->
  files w' = files w \/ exists p content, files w' = <[p := content]> (files w).
Proof.
  destruct reverse_chosen.
  - intros [(? & ? & p & c & _ & ?)|[?|(? & p & c & _ & _ & ?)]]%process_reverse_outcomes;
      [right; by exists p, c | by left | right; by exists p, c].
  - intros [(? & ? & p & c & _ & ?)|[?|(? & p & c & _ & _ & ? & _)]]%process_streaming_outcomes;
      [right; by exists p, c | by left | right; by exists p, c].
Qed.

(** The processing step of [main]: whatever the pipeline returns or raises,
    the step ends normally, and the files are as the pipeline left them. *)
Lemma main_processing_any (input_path encoding : str) (opt : dict)
    (output_path : str) (w w' : world) (r : result (option (or_exit unit))) :
  (_ <- try_except
          (choice <- lift (match opt !! u "choice" with
                           | Some choice => Ok choice
                           | None => Raise KeyError
                           end) ;;
           result <- (if bool_decide (choice = u "6")
                      then process_reverse input_path encoding opt output_path
                      else process_streaming input_path encoding opt output_path) ;;
           match result with
           | (lines_read, lines_written, None) =>
               print (u "No output written (operation cancelled).")
           | (lines_read, lines_written, Some written_path) =>
               _ <- print ([LF] ++ u "Done.") ;;
               _ <- print (u "Input file: " ++ input_path) ;;
               _ <- print (u "Output file: " ++ written_path) ;;
               _ <- print (u "Lines read: " ++ Str.of_int lines_read) ;;
               print (u "Lines written: " ++ Str.of_int lines_written)
           end)
          (fun e =>
             match e with
             | FileNotFoundError =>
                 print (u "Error: input file disappeared during processing.")
             | PermissionError =>
                 print (u "Error: Permission denied while reading/writing files. Check file permissions.")
             | UnicodeDecodeError =>
                 print (u "Error: File encoding not supported or file is binary. Try a different encoding or file.")
             | _ => print (u "An unexpected error occurred: " ++ exn_str e)
             end) ;;
   ret (Some (Return tt))) w = (r, w') ->
  r = Ok (Some (Return tt))
  /\ match opt !! u "choice" with
     | Some choice =>
         files w'
         = files (snd ((if bool_decide (choice = u "6")
                        then process_reverse input_path encoding opt output_path
                        else process_streaming input_path encoding opt output_path) w))
     | None => files w' = files w
     end.
Proof.
  intros Hrun.
  apply bind_any in Hrun as [(e & Htry & _)|([] & w8 & Htry & [= <- <-])].
  { exfalso.
    apply try_except_any in Htry as [(? & _ & [=])|(e' & wb & _ & Hh)].
    destruct e'; by injection Hh. }
  split; [done|].
  apply try_except_any in Htry as [([] & Hbody & _)|(e & wb & Hbody & Hh)].
  - apply bind_any in Hbody as [(? & _ & [=])|(choice & w9 & Hchoice & Hbody)].
    destruct (opt !! u "choice") as [choice'|]; [|done].
    injection Hchoice as <- <-.
    apply bind_any in Hbody as [(? & _ & [=])|(result & w9 & Hpipe & Hprint)].
    rewrite Hpipe. cbn [snd].
    destruct result as [[lines_read lines_written] [written_path|]].
    + apply bind_any in Hprint as [(? & [[=] _]%print_console & _)
                                  |([] & wa & (_ & (Ha & _) & _)%print_console & Hprint)].
      apply bind_any in Hprint as [(? & [[=] _]%print_console & _)
                                  |([] & wb & (_ & (Hb & _) & _)%print_console & Hprint)].
      apply bind_any in Hprint as [(? & [[=] _]%print_console & _)
                                  |([] & wc & (_ & (Hc & _) & _)%print_console & Hprint)].
      apply bind_any in Hprint as [(? & [[=] _]%print_console & _)
                                  |([] & wd & (_ & (Hd & _) & _)%print_console & Hprint)].
      apply print_console in Hprint as (_ & (He & _) & _). congruence.
    + by apply print_console in Hprint as (_ & (He & _) & _).
  - assert (Hw8 : files w8 = files wb).
    { destruct e; by apply print_console in Hh as (_ & (He & _) & _). }
    rewrite Hw8.
    apply bind_any in Hbody as [(? & Hchoice & _)|(choice & w9 & Hchoice & Hbody)].
    + unfold lift in Hchoice.
      destruct (opt !! u "choice"); [discriminate Hchoice|].
      by injection Hchoice as _ <-.
    + destruct (opt !! u "choice") as [choice'|]; [|done].
      injection Hchoice as <- <-.
      apply bind_any in Hbody as [(? & Hpipe & _)|(result & w9 & Hpipe & Hprint)].
      * by rewrite Hpipe.
      * exfalso. destruct result as [[lines_read lines_written] [written_path|]].
        -- apply bind_any in Hprint as [(? & [[=] _]%print_console & _)|(? & ? & _ & Hprint)].
           apply bind_any in Hprint as [(? & [[=] _]%print_console & _)|(? & ? & _ & Hprint)].
           apply bind_any in Hprint as [(? & [[=] _]%print_console & _)|(? & ? & _ & Hprint)].
           apply bind_any in Hprint as [(? & [[=] _]%print_console & _)|(? & ? & _ & Hprint)].
           by apply print_console in Hprint as [[=] _].
        -- by apply print_console in Hprint as [[=] _].
Qed.

(** X29: [main] lets no exception escape but the [EOFError] of its own
    questions. It ends normally, exits with code 0 or 1, or raises
    [EOFError]; it changes or creates at most one file; and once its three
    questions are answered (the input file, the transformation, the output
    path), it ends normally whatever the pipeline does: every exception a
    pipeline raises, the [EOFError] of a question of the pipeline included,
    is caught and reported, and the files are as the pipeline left them. *)
Theorem main_outcomes (w w' : world) (r : result (option (or_exit unit))) :
  main w = (r, w') ->
  (r = Raise EOFError \/ r = Ok (Some (Exit 0)) \/ r = Ok (Some (Exit 1))
   \/ r = Ok (Some (Return tt)))
  /\ (files w' = files w \/ exists p content, files w' = <[p := content]> (files w))
  /\ (forall input_path encoding w3 opt w5 out w7,
        prompt_input_file
          (snd (print (u "This program reads a file, applies a chosen modification, and writes a modified copy." ++ [LF])
                  (snd (print (u "File Read & Write Challenge + Error Handling Lab") w))))
        = (Ok (Some (Return (input_path, encoding))), w3) ->
        prompt_transformation
          (snd (print (u "Detected/selected encoding: " ++ encoding) w3))
        = (Ok opt, w5) ->
        input (u "Press Enter to accept or type a new output path: ")
          (snd (print (u "Suggested output filename: " ++ make_output_filename input_path)
                  w5))
        = (Ok out, w7) ->
        r = Ok (Some (Return tt))
        /\ exists choice,
             opt !! u "choice" = Some choice
             /\ files w'
                = files (snd ((if bool_decide (choice = u "6")
                               then process_reverse input_path encoding opt
                                      (if bool_decide (Str.strip out = u "")
                                       then make_output_filename input_path
                                       else os_path_expanduser (Str.strip out))
                               else process_streaming input_path encoding opt
                                      (if bool_decide (Str.strip out = u "")
                                       then make_output_filename input_path
                                       else os_path_expanduser (Str.strip out))) w7))).
Proof.
  intros Hmain. split; [|split].
  - pose proof Hmain as Hrun. unfold main in Hrun.
    apply bind_any in Hrun as [(e & [[=] _]%print_console & _)
                              |([] & w1 & _ & Hrun)].
    apply bind_any in Hrun as [(e & [[=] _]%print_console & _)
                              |([] & w2 & _ & Hrun)].
    apply bind_any in Hrun as [(e & Hchosen & ->)|(chosen & w3 & Hchosen & Hrun)];
      unfold prompt_input_file in Hchosen;
      apply prompt_input_file_loop_any in Hchosen as [(_ & _ & _ & _ & Hlen) Hr].
    { cbn in Hr. subst e. by left. }
    destruct chosen as [[[input_path encoding]|code]|]; [| |lia].
    2: { injection Hrun as <- <-.
         destruct Hr as [->| ->]; [right; by left | right; right; by left]. }
    apply bind_any in Hrun as [(e & [[=] _]%print_console & _)|([] & w4 & _ & Hrun)].
    apply bind_any in Hrun as [(e & [_ Hr']%prompt_transformation_any & ->)
                              |(opt & w5 & _ & Hrun)].
    { destruct Hr' as [[= ->]|(? & ? & [=] & _)]. by left. }
    cbn zeta in Hrun.
    apply bind_any in Hrun as [(e & [[=] _]%print_console & _)|([] & w6 & _ & Hrun)].
    apply bind_any in Hrun as [(e & [_ Hr']%input_any & ->)|(out & w7 & _ & Hrun)].
    { destruct Hr' as [[[= ->] _]|(? & [=] & _)]. by left. }
    cbn zeta in Hrun. apply main_processing_any in Hrun as [-> _].
    right; right; by right.
  - pose proof Hmain as Hrun. unfold main in Hrun.
    apply bind_any in Hrun as [(e & [[=] _]%print_console & _)
                              |([] & w1 & (_ & (Hf1 & _) & _)%print_console & Hrun)].
    apply bind_any in Hrun as [(e & [[=] _]%print_console & _)
                              |([] & w2 & (_ & (Hf2 & _) & _)%print_console & Hrun)].
    assert (Hf : files w2 = files w) by congruence. clear Hf1 Hf2 w1.
    apply bind_any in Hrun as [(e & Hchosen & ->)|(chosen & w3 & Hchosen & Hrun)];
      unfold prompt_input_file in Hchosen;
      apply prompt_input_file_loop_any in Hchosen as [(Hf3 & _ & _ & _ & Hlen) Hr].
    { left; congruence. }
    destruct chosen as [[[input_path encoding]|code]|]; [| |lia].
    2: { injection Hrun as <- <-. left; congruence. }
    clear Hr Hlen.
    assert (Hf' : files w3 = files w) by congruence. clear Hf Hf3 w2.
    apply bind_any in Hrun as [(e & [[=] _]%print_console & _)
                              |([] & w4 & (_ & (Hf4 & _) & _)%print_console & Hrun)].
    apply bind_any in Hrun as [(e & [(Hf5 & _) Hr]%prompt_transformation_any & ->)
                              |(opt & w5 & [(Hf5 & _) Hr]%prompt_transformation_any & Hrun)].
    { left; congruence. }
    clear Hr. cbn zeta in Hrun.
    apply bind_any in Hrun as [(e & [[=] _]%print_console & _)
                              |([] & w6 & (_ & (Hf6 & _) & _)%print_console & Hrun)].
    apply bind_any in Hrun as [(e & [(Hf7 & _) Hr]%input_any & ->)
                              |(out & w7 & [(Hf7 & _) _]%input_any & Hrun)].
    { left; congruence. }
    assert (Hf : files w7 = files w) by congruence. clear Hf' Hf4 Hf5 Hf6 Hf7 w3 w4 w5 w6.
    cbn zeta in Hrun. apply main_processing_any in Hrun as [_ Hfiles].
    destruct (opt !! u "choice") as [choice|]; [|left; congruence].
    rewrite Hfiles, <- Hf.
    eapply (pipeline_files (bool_decide (choice = u "6"))). apply surjective_pairing.
  - intros input_path encoding w3 opt w5 out w7 Hfile Hopt Hout.
    pose proof Hmain as Hrun. unfold main in Hrun.
    erewrite bind_run in Hrun by reflexivity.
    erewrite bind_run in Hrun by reflexivity.
    erewrite bind_run in Hrun by exact Hfile.
    cbv beta iota in Hrun.
    erewrite bind_run in Hrun by reflexivity.
    erewrite bind_run in Hrun by exact Hopt.
    cbn zeta in Hrun.
    erewrite bind_run in Hrun by reflexivity.
    erewrite bind_run in Hrun by exact Hout.
    cbn zeta in Hrun. apply main_processing_any in Hrun as [-> Hfiles].
    split; [done|].
    apply prompt_transformation_any in Hopt as [_ [[=]|(opt' & choice & [= <-] & Hchoice)]].
    exists choice. split; [done|]. by rewrite Hchoice in Hfiles.
Qed.

(** X30: a whole session. The name of a file that [utf-8] decodes is typed,
    then a choice other than ["5"] and ["6"], then an empty line to accept
    the suggested output name: with that name free (it names neither a file
    nor a directory) and nothing refused by the system, [main] runs
    [process_streaming] on the file under [utf-8], the suggested name
    receives the bytes of the kept chunks, the three typed lines are used,
    and the last line printed reports the number of chunks written. *)
Theorem main_streaming_session (w : world) (name choice answer : str)
    (typed : list str) (c : codec) (data : bytes) (text : str)
    (rs : list (option str)) (content : bytes) (tmp : str) (rest : list str) :
  (forall s, faults w s = None) ->
  stdin w = name :: choice :: answer :: typed ->
  str_lower (Str.strip name) ≠ u "q" ->
  files w !! os_path_expanduser (os_path_expandvars (Str.strip name)) = Some data ->
  os_path_isdir (os_path_expanduser (os_path_expandvars (Str.strip name))) = false ->
  codecs_lookup (u "utf-8") = Some c ->
  codec_decode c data = Decoded text ->
  Str.strip choice ∈ [u "1"; u "2"; u "3"; u "4"; u "7"] ->
  Str.strip answer = u "" ->
  files w !! make_output_filename
               (os_path_expanduser (os_path_expandvars (Str.strip name))) = None ->
  os_path_isdir (make_output_filename
                   (os_path_expanduser (os_path_expandvars (Str.strip name)))) = false ->
  mkstemp_inner
    (staging_dir (make_output_filename
                    (os_path_expanduser (os_path_expandvars (Str.strip name)))))
    (tmp_names w) (files w) = Some (tmp, rest) ->
  tmp ≠ make_output_filename (os_path_expanduser (os_path_expandvars (Str.strip name))) ->
  line_results {[ u "choice" := Str.strip choice ]} 0 (text_lines text) rs ->
  encode_chunks c (chunks (text_lines text) rs) = Some content ->
  exists w',
    main w = (Ok (Some (Return tt)), w')
    /\ files w'
       = <[make_output_filename
             (os_path_expanduser (os_path_expandvars (Str.strip name))) := content]>
           (files w)
    /\ stdin w' = typed
    /\ last (stdout w')
       = Some (u "Lines written: "
                 ++ Str.of_int (N.of_nat (length (chunks (text_lines text) rs))) ++ [LF]).
Proof.
  intros Hquiet Hstdin Hq Hfile Hdir Hc Htext Hchoice Hanswer Hfree _ Htmp Hne Hrs
    Hcontent.
  set (fname := os_path_expanduser (os_path_expandvars (Str.strip name))) in *.
  set (output_path := make_output_filename fname) in *.
  assert (Hprobe : exists l, fst (probe fname (u "utf-8") w) = Ok l).
  { unfold probe. erewrite bind_run by (by apply open_read_run).
    rewrite Htext. unfold readline. cbn [iter_lines].
    destruct (text_lines text); by eexists. }
  unfold main.
  erewrite bind_run by reflexivity. erewrite bind_run by reflexivity.
  erewrite bind_run; cycle 1.
  { apply (prompt_input_file_accepts _ name (choice :: answer :: typed) [] (u "utf-8")
             [u "cp1252"; u "latin-1"]); try done.
    destruct Hprobe as [l Hl]. exists l. rewrite <- Hl. apply probe_console.
    by repeat split. }
  fold fname. cbv beta iota. erewrite bind_run by reflexivity.
  set (w4 := set_stdout _ (set_stdin _ _)).
  assert (Hw4 : console_only w w4 /\ stdin w4 = choice :: answer :: typed).
  { split; [|done]. repeat split. cbn. rewrite Hstdin. simpl. lia. }
  destruct Hw4 as [Hw4 Hstdin4].
  assert (Hnot5 : Str.strip choice ≠ u "5").
  { intros H5. rewrite H5 in Hchoice. revert Hchoice.
    apply (bool_decide_unpack _). by vm_compute. }
  assert (Hnot6 : Str.strip choice ≠ u "6").
  { intros H6. rewrite H6 in Hchoice. revert Hchoice.
    apply (bool_decide_unpack _). by vm_compute. }
  assert (Hmenu : Str.strip choice ∈ [u "1"; u "2"; u "3"; u "4"; u "5"; u "6"; u "7"]).
  { rewrite !elem_of_cons in Hchoice. rewrite !elem_of_cons. tauto. }
  pose proof (prompt_transformation_cases w4) as Hopt.
  rewrite Hstdin4 in Hopt. cbn zeta in Hopt.
  rewrite (bool_decide_eq_true_2 (Str.strip choice ∈ _)) in Hopt by done.
  rewrite (bool_decide_eq_false_2 (Str.strip choice = u "5")) in Hopt by done.
  destruct Hopt as (w5 & Hopt & Hstdin5 & _).
  pose proof (proj1 (prompt_transformation_any _ _ _ Hopt)) as Hw5.
  erewrite bind_run by exact Hopt. cbn zeta. fold output_path.
  erewrite bind_run by reflexivity.
  erewrite bind_run; cycle 1.
  { apply input_run. cbn. exact Hstdin5. }
  rewrite Hanswer, (bool_decide_eq_true_2 (u "" = u "")) by done.
  set (w7 := set_stdin _ _).
  assert (Hw7 : console_only w w7).
  { eapply console_only_trans; [exact Hw4|].
    eapply console_only_trans; [exact Hw5|].
    repeat split. cbn. rewrite Hstdin5. simpl. lia. }
  destruct Hw7 as (Hf7 & Hq7 & Hn7 & _).
  assert (Hstdin7 : stdin w7 = typed) by done.
  assert (Hquiet7 : forall s, faults w7 s = None) by (intros s; by rewrite Hq7).
  assert (Htmp7 : mkstemp_inner (staging_dir output_path) (tmp_names w7) (files w7)
                  = Some (tmp, rest)) by (by rewrite Hn7, Hf7).
  assert (Hfile7 : files w7 !! fname = Some data) by (by rewrite Hf7).
  assert (Hfree7 : files w7 !! output_path = None) by (by rewrite Hf7).
  pose proof (mkstemp_inner_fresh _ _ _ _ _ Htmp7) as Hfresh.
  clearbody w7.
  eexists. split; [|split; [|split]].
  - erewrite bind_run; [reflexivity|].
    apply try_except_run. rewrite lookup_singleton_eq.
    erewrite bind_run by reflexivity.
    rewrite (bool_decide_eq_false_2 (Str.strip choice = u "6")) by done.
    erewrite bind_run; cycle 1.
    { rewrite (process_streaming_staged _ _ _ _ _ _ _ _ _ _ _ _
                 Hquiet7 Htmp7 Hc Hfile7 Htext Hrs Hcontent).
      erewrite bind_run; cycle 1.
      { apply (commit_fresh_run _ _ _ _ content); [apply Hquiet7 | |].
        - by rewrite staged_files, lookup_insert_ne.
        - by rewrite staged_files, lookup_insert_eq. }
      reflexivity. }
    cbv iota beta.
    erewrite bind_run by reflexivity. erewrite bind_run by reflexivity.
    erewrite bind_run by reflexivity. erewrite bind_run by reflexivity.
    reflexivity.
  - cbn. by rewrite alter_insert_fresh, delete_insert_eq, delete_id, Hf7.
  - cbn. exact Hstdin7.
  - cbn. by rewrite last_snoc.
Qed.

End FrontEndFacts.

Section Sessions.
Import Example.

(** [in.txt] holds ["é\n"] in UTF-8; its name is typed with blanks around. *)
Lemma prompt_input_file_returns_readable_witness :
  exists w',
    prompt_input_file (H := Desk.runtime) (H0 := Desk.platform)
      (world_with {[ u "in.txt" := [xc3; xa9; x0a] ]} [u " in.txt "; u "2"] no_faults)
    = (Ok (Some (Return (os_path_expanduser (Python := Desk.runtime)
                           (os_path_expandvars (Platform := Desk.platform)
                              (Str.strip (u " in.txt "))),
                         u "utf-8"))), w')
    /\ stdin w' = [u "2"]
    /\ files w'
       = files (world_with {[ u "in.txt" := [xc3; xa9; x0a] ]} [u " in.txt "; u "2"]
                  no_faults).
Proof.
  apply (proj2 (prompt_input_file_returns_readable (H := Desk.runtime)
                  (H0 := Desk.platform)
                  (world_with {[ u "in.txt" := [xc3; xa9; x0a] ]} [u " in.txt "; u "2"]
                     no_faults))
           (u " in.txt ") [u "2"] [] (u "utf-8") [u "cp1252"; u "latin-1"]).
  - reflexivity.
  - by vm_compute.
  - vm_compute. by eexists.
  - vm_compute. reflexivity.
  - reflexivity.
  - constructor.
  - exists [233; 10]. vm_compute. reflexivity.
Defined.

(** A name that does not exist, then [q]. *)
Lemma prompt_input_file_ends_witness :
  files (snd (prompt_input_file (H := Desk.runtime) (H0 := Desk.platform)
                (world_with {[ u "in.txt" := foo_bar ]} [u "nope"; u "q"] no_faults)))
  = files (world_with {[ u "in.txt" := foo_bar ]} [u "nope"; u "q"] no_faults)
  /\ (fst (prompt_input_file (H := Desk.runtime) (H0 := Desk.platform)
             (world_with {[ u "in.txt" := foo_bar ]} [u "nope"; u "q"] no_faults))
      = Raise EOFError
      \/ fst (prompt_input_file (H := Desk.runtime) (H0 := Desk.platform)
                (world_with {[ u "in.txt" := foo_bar ]} [u "nope"; u "q"] no_faults))
         = Ok (Some (Exit 0))
      \/ fst (prompt_input_file (H := Desk.runtime) (H0 := Desk.platform)
                (world_with {[ u "in.txt" := foo_bar ]} [u "nope"; u "q"] no_faults))
         = Ok (Some (Exit 1))
      \/ exists fname enc,
           fst (prompt_input_file (H := Desk.runtime) (H0 := Desk.platform)
                  (world_with {[ u "in.txt" := foo_bar ]} [u "nope"; u "q"] no_faults))
           = Ok (Some (Return (fname, enc)))).
Proof.
  apply (prompt_input_file_ends (H := Desk.runtime) (H0 := Desk.platform)
           (world_with {[ u "in.txt" := foo_bar ]} [u "nope"; u "q"] no_faults)).
  apply surjective_pairing.
Defined.

(** The reversal is chosen and nothing is typed at its warning: the pipeline
    raises [EOFError], and [main] ends normally with the files as they
    were. *)
Lemma main_outcomes_witness :
  fst (process_reverse (H := Desk.runtime) (u "in.txt") (u "utf-8")
         {[ u "choice" := u "6" ]} (u "in_modified.txt")
         (world_with {[ u "in.txt" := foo_bar ]} [] no_faults))
  = Raise EOFError
  /\ fst (main (H := Desk.runtime) (H0 := Desk.platform)
            (world_with {[ u "in.txt" := foo_bar ]} [u "in.txt"; u "6"; u ""] no_faults))
     = Ok (Some (Return tt))
  /\ files (snd (main (H := Desk.runtime) (H0 := Desk.platform)
                   (world_with {[ u "in.txt" := foo_bar ]} [u "in.txt"; u "6"; u ""]
                      no_faults)))
     = {[ u "in.txt" := foo_bar ]}.
Proof.
  split; [by vm_compute|].
  destruct (main_outcomes (H := Desk.runtime) (H0 := Desk.platform)
              (world_with {[ u "in.txt" := foo_bar ]} [u "in.txt"; u "6"; u ""] no_faults)
              (snd (main (H := Desk.runtime) (H0 := Desk.platform)
                      (world_with {[ u "in.txt" := foo_bar ]} [u "in.txt"; u "6"; u ""]
                         no_faults)))
              (fst (main (H := Desk.runtime) (H0 := Desk.platform)
                      (world_with {[ u "in.txt" := foo_bar ]} [u "in.txt"; u "6"; u ""]
                         no_faults))))
    as (_ & _ & Hanswered); [apply surjective_pairing|].
  edestruct (Hanswered (u "in.txt") (u "utf-8")) as (Hnormal & _).
  - vm_compute. reflexivity.
  - vm_compute. reflexivity.
  - vm_compute. reflexivity.
  - split; [exact Hnormal|]. by vm_compute.
Defined.

(** ["cé\n"] with line numbers, under the suggested name. *)
Lemma main_streaming_session_witness :
  exists w',
    main (H := Desk.runtime) (H0 := Desk.platform)
      (world_with {[ u "in.txt" := [x63; xc3; xa9; x0a] ]} [u "in.txt"; u " 1"; u ""]
         no_faults)
    = (Ok (Some (Return tt)), w')
    /\ files w' !! u "in_modified.txt" = Some (b "0001: c" ++ [xc3; xa9; x0a])
    /\ stdin w' = []
    /\ last (stdout w') = Some (u "Lines written: 1" ++ [LF]).
Proof.
  destruct (main_streaming_session (H := Desk.runtime) (H0 := Desk.platform)
              (world_with {[ u "in.txt" := [x63; xc3; xa9; x0a] ]}
                 [u "in.txt"; u " 1"; u ""] no_faults)
              (u "in.txt") (u " 1") (u "") [] Desk.utf8 [x63; xc3; xa9; x0a]
              [99; 233; 10] [Some (u "0001: c" ++ [233])]
              (b "0001: c" ++ [xc3; xa9; x0a]) (u "./tmpabc") [])
    as (w' & Hrun & Hfiles & Htyped & Hlast).
  - reflexivity.
  - reflexivity.
  - by vm_compute.
  - reflexivity.
  - reflexivity.
  - reflexivity.
  - reflexivity.
  - apply (bool_decide_unpack _). by vm_compute.
  - reflexivity.
  - reflexivity.
  - reflexivity.
  - reflexivity.
  - by vm_compute.
  - vm_compute. done.
  - reflexivity.
  - exists w'. split; [exact Hrun|]. split; [|split; [exact Htyped | exact Hlast]].
    rewrite Hfiles. apply lookup_insert_eq.
Defined.

End Sessions.
